(** * InnerEye-DeepLearning: classification report and batch transfer

    A shallow embedding of

    - [InnerEye/ML/reports/classification_report.py]: reading the per-subject
      metrics tables, the threshold taken from the validation split, the four
      confusion tables of the test split and their [k] most confident rows;
    - [InnerEye/ML/lightning_models.py]: [transfer_batch_to_device].

    Python exceptions are values of an error monad, data frames are lists of
    rows, float cells are exact rationals extended with NaN and the two
    infinities (the code under study only compares and subtracts them, and
    binary64 rounding is not modelled). The scikit-learn, Lightning and
    InnerEye routines that the two files import are parameters of the
    development. *)

From Stdlib Require Import QArith Lqa Lia.
From stdpp Require Import base decidable option list sorting strings gmap.
From stdpp Require Import pretty.

Set Warnings "-register-all".

(** * Exceptions and results *)

Inductive exn :=
| ValueError (msg : string)
| AssertionError
| IndexError (msg : string)
| TypeError (msg : string)
| AttributeError (msg : string).

Inductive result (A : Type) :=
| Ok (a : A)
| Raise (e : exn).
Arguments Ok {A} a.
Arguments Raise {A} e.

#[global] Instance result_ret : MRet result := @Ok.
#[global] Instance result_bind : MBind result :=
  fun A B f m => match m with Ok a => f a | Raise e => Raise e end.

Definition returns {A} (m : result A) : Prop := exists a, m = Ok a.
Definition raises {A} (m : result A) : Prop := exists e, m = Raise e.

(** Python's [assert]. *)
Definition py_assert (b : bool) : result unit :=
  if b then Ok tt else Raise AssertionError.

(** [a[i]] for [i >= 0]: on a one-dimensional array ([index]) and on a Python
    list ([list_item]). *)
Definition item_or {A} (e : exn) (a : list A) (i : nat) : result A :=
  match a !! i with
  | Some x => Ok x
  | None => Raise e
  end.

Definition index {A} : list A -> nat -> result A :=
  item_or (IndexError "index is out of bounds for axis 0").

Definition list_item {A} : list A -> nat -> result A :=
  item_or (IndexError "list index out of range").

(** * Floats *)

Module PyFloat.

Inductive float :=
| NaN
| NInf
| Fin (q : Q)
| PInf.

Definition of_Z (z : Z) : float := Fin (inject_Z z).
Definition f0 : float := of_Z 0.
Definition f1 : float := of_Z 1.

Definition is_nan (x : float) : bool :=
  match x with NaN => true | _ => false end.

(** [x <= y]: false as soon as one side is NaN. *)
Definition float_le (x y : float) : bool :=
  match x, y with
  | NaN, _ | _, NaN => false
  | NInf, _ => true
  | _, PInf => true
  | Fin a, Fin b => Qle_bool a b
  | _, _ => false
  end.

(** [x >= y] *)
Definition float_ge (x y : float) : bool := float_le y x.

(** [x < y] *)
Definition float_lt (x y : float) : bool :=
  match x, y with
  | NaN, _ | _, NaN => false
  | _, _ => negb (float_le y x)
  end.

(** [x == y] *)
Definition float_eqb (x y : float) : bool := float_le x y && float_le y x.

Definition float_neg (x : float) : float :=
  match x with
  | NaN => NaN
  | NInf => PInf
  | Fin a => Fin (- a)
  | PInf => NInf
  end.

Definition float_add (x y : float) : float :=
  match x, y with
  | NaN, _ | _, NaN => NaN
  | PInf, NInf | NInf, PInf => NaN
  | PInf, _ | _, PInf => PInf
  | NInf, _ | _, NInf => NInf
  | Fin a, Fin b => Fin (a + b)
  end.

Definition float_sub (x y : float) : float := float_add x (float_neg y).

(** [bool(x)]: every float but zero is true, NaN included. *)
Definition truthy (x : float) : bool := negb (float_eqb x f0).

(** [int(b)] for a Python [bool]. *)
Definition int_of_bool (b : bool) : Z := if b then 1%Z else 0%Z.

(** [set(a)] for an array of floats, as the list of its members in order of
    first appearance: a value joins the set unless an equal one is already in
    it. A NaN equals nothing, so every NaN of the array is a member of its
    own. *)
Definition py_set (a : list float) : list float :=
  foldl (fun acc x => if existsb (float_eqb x) acc then acc else acc ++ [x]) [] a.

End PyFloat.
Export PyFloat.

(** * classification_report.py *)

Module ClassificationReport.

Inductive ReportedMetrics :=
| OptimalThreshold
| AUC_PR
| AUC_ROC
| Accuracy
| FalsePositiveRate
| FalseNegativeRate.

(** The routines of [sklearn.metrics] that the module imports. They are
    library code: the development is parametric in them. [recall_score] takes
    [y_true], the boolean array [y_pred] and [pos_label]. *)
Record Sklearn := {
  roc_curve : list float -> list float -> result (list float * list float * list float);
  roc_auc_score : list float -> list float -> result float;
  precision_recall_curve :
    list float -> list float -> result (list float * list float * list float);
  auc : list float -> list float -> result float;
  recall_score : list float -> list bool -> Z -> result float
}.

(** [ndarray.argsort(kind="quicksort")], the sort behind
    [DataFrame.sort_values], on an array without NaN. It is library code:
    the development is parametric in it. numpy promises the positions of
    the array in an order that sorts it, and nothing on the order of equal
    entries (the kind is not stable). *)
Record Numpy := {
  ndarray_argsort : list float -> list nat;
  ndarray_argsort_permutation :
    forall a, ndarray_argsort a ≡ₚ seq 0 (length a);
  ndarray_argsort_sorted :
    forall a,
      Forall (fun x => is_nan x = false) a ->
      Sorted (fun x y => float_le x y = true) (omap (fun i => a !! i) (ndarray_argsort a))
}.

(** [np.argmax]-style search: the running best is replaced only by a
    strictly larger value, so the first of several maxima is kept. *)
Fixpoint argmax_from (best_i : nat) (best : float) (i : nat) (a : list float) : nat :=
  match a with
  | [] => best_i
  | x :: a' =>
      if float_lt best x then argmax_from i x (S i) a'
      else argmax_from best_i best (S i) a'
  end.

Definition argmax (a : list float) : nat :=
  match a with
  | [] => 0
  | x :: a' => argmax_from 0 x 1 a'
  end.

(** Modelled from the spec: [MetricsDict.get_optimal_idx] is defined in
    [InnerEye/ML/metrics_dict.py], which is not among the sources. The spec
    describes it as the index maximizing [true_positive_rate -
    false_positive_rate], ties broken by the first occurrence. *)
Definition get_optimal_idx (fpr tpr : list float) : nat :=
  argmax (zip_with float_sub tpr fpr).

(** The index [i] is Youden-optimal on the curve: no point has a larger
    [tpr - fpr], and no earlier point reaches the value at [i]. *)
Definition youden_optimal (fpr tpr : list float) (i : nat) : Prop :=
  let d := zip_with float_sub tpr fpr in
  exists b,
    d !! i = Some b
    /\ (forall j x, d !! j = Some x -> float_lt b x = false)
    /\ (forall j x, j < i -> d !! j = Some x -> float_le b x = false).

(** Fewer than two distinct values: any two entries of the array are equal. *)
Definition fewer_than_two_distinct (a : list float) : Prop :=
  forall i j x y, i <> j -> a !! i = Some x -> a !! j = Some y -> float_eqb x y = true.

Section Report.

(** Subject identifiers are whatever pandas read from the [Patient]
    column (integers in the test fixtures, strings in general). *)
Context {Subject : Type} `{EqDecision Subject}.

Variable sk : Sklearn.
Variable np : Numpy.

(** [binary_classification_accuracy] of [InnerEye/ML/metrics_dict.py]
    (not among the sources), called with [model_output], [label] and
    [threshold]. *)
Variable binary_classification_accuracy :
  list float -> list float -> float -> result float.

(** [LoggingColumns.Patient.value], the header of the subject column. *)
Variable Patient_column : string.

(** One row of a metrics file, a field per member of [LoggingColumns]. *)
Record Row := {
  Hue : string;
  Epoch : Z;
  Patient : Subject;
  ModelOutput : float;
  Label : float;
  CrossValidationSplitIndex : Z;
  DataSplit : string
}.

(** A data frame is the list of its rows; a [csv] argument stands for the
    table [pd.read_csv] parsed from the file. *)
Abbreviation DataFrame := (list Row).

Record LabelsAndPredictions := {
  subject_ids : list Subject;
  labels : list float;
  model_outputs : list float
}.

(** A row of the test table once the column ["predicted"] is added. *)
Record PredictedRow := {
  row : Row;
  predicted : Z
}.

Record Results := {
  true_positives : list PredictedRow;
  false_positives : list PredictedRow;
  true_negatives : list PredictedRow;
  false_negatives : list PredictedRow
}.

(** [Series.is_unique] *)
Definition is_unique (ids : list Subject) : bool := bool_decide (NoDup ids).

Definition duplicate_subjects_message : string :=
  "Subject IDs should be unique, but found duplicate entries in column "
    +:+ Patient_column +:+ " in the csv file.".

Definition read_csv_and_filter_hue (csv : DataFrame) (hue : string) : result DataFrame :=
  let df := csv in
  let df := filter (fun r => Hue r = hue) df in
  if negb (is_unique (Patient <$> df))
  then Raise (ValueError duplicate_subjects_message)
  else Ok df.

Definition get_labels_and_predictions (csv : DataFrame) (hue : string)
  : result LabelsAndPredictions :=
  df ← read_csv_and_filter_hue csv hue;
  let labels := Label <$> df in
  let model_outputs := ModelOutput <$> df in
  let subjects := Patient <$> df in
  mret {| subject_ids := subjects; labels := labels; model_outputs := model_outputs |}.

(** [not optimal_threshold] for an [Optional[float]]: true for [None] and
    for a zero. *)
Definition py_not (optimal_threshold : option float) : bool :=
  match optimal_threshold with
  | None => true
  | Some t => negb (truthy t)
  end.

(** [model_outputs >= optimal_threshold], elementwise. *)
Definition ge_threshold (model_outputs : list float) (optimal_threshold : float)
  : list bool :=
  (fun x => float_ge x optimal_threshold) <$> model_outputs.

(** [len(set(labels)) < 2] *)
Definition only_one_class_present (labels : list float) : bool :=
  bool_decide (length (py_set labels) < 2).

(** [derived] is the body of [if not optimal_threshold:], entered for [None]
    and for a zero. The final [else: raise ValueError("Unknown metric")] has
    no counterpart: the match on the metric covers the enumeration. *)
Definition get_metric (val_metrics test_metrics : LabelsAndPredictions)
    (metric : ReportedMetrics) (optimal_threshold : option float) : result float :=
  let derived :=
    '(fpr, tpr, thresholds) ←
      roc_curve sk (labels val_metrics) (model_outputs val_metrics);
    let optimal_idx := get_optimal_idx fpr tpr in
    index thresholds optimal_idx in
  optimal_threshold ←
    match optimal_threshold with
    | None => derived
    | Some t => if py_not (Some t) then derived else Ok t
    end;
  _ ← py_assert (truthy optimal_threshold);
  match metric with
  | OptimalThreshold => Ok optimal_threshold
  | AUC_ROC =>
      if only_one_class_present (labels test_metrics) then Ok NaN
      else roc_auc_score sk (labels test_metrics) (model_outputs test_metrics)
  | AUC_PR =>
      if only_one_class_present (labels test_metrics) then Ok NaN
      else
        '(precision, recall, _) ←
          precision_recall_curve sk (labels test_metrics) (model_outputs test_metrics);
        auc sk recall precision
  | Accuracy =>
      binary_classification_accuracy
        (model_outputs test_metrics) (labels test_metrics) optimal_threshold
  | FalsePositiveRate =>
      tnr ← recall_score sk (labels test_metrics)
              (ge_threshold (model_outputs test_metrics) optimal_threshold) 0;
      Ok (float_sub f1 tnr)
  | FalseNegativeRate =>
      r ← recall_score sk (labels test_metrics)
            (ge_threshold (model_outputs test_metrics) optimal_threshold) 1;
      Ok (float_sub f1 r)
  end.

(** The value of the column ["predicted"] for one row:
    [int(x[ModelOutput] >= optimal_threshold)]. *)
Definition predict (optimal_threshold : float) (x : Row) : Z :=
  int_of_bool (float_ge (ModelOutput x) optimal_threshold).

(** [df_test["predicted"] = df_test.apply(lambda x: ..., axis=1)]. Over a
    table without rows [apply] has no row to call the function on and
    returns a copy of the table instead of a column; pandas refuses to
    assign the seven columns of that table to the one column, with a
    [ValueError] (the wording of its message differs between releases). *)
Definition set_predicted (optimal_threshold : float) (df_test : DataFrame)
  : result (list PredictedRow) :=
  match df_test with
  | [] => Raise (ValueError "Wrong number of items passed 7, placement implies 1")
  | _ :: _ =>
      Ok ((fun x => {| row := x; predicted := predict optimal_threshold x |}) <$> df_test)
  end.

Definition get_correct_and_misclassified_examples
    (val_metrics_csv test_metrics_csv : DataFrame) (hue : string) : result Results :=
  df_val ← read_csv_and_filter_hue val_metrics_csv hue;
  '(fpr, tpr, thresholds) ← roc_curve sk (Label <$> df_val) (ModelOutput <$> df_val);
  let optimal_idx := get_optimal_idx fpr tpr in
  optimal_threshold ← index thresholds optimal_idx;
  df_test ← read_csv_and_filter_hue test_metrics_csv hue;
  df_test ← set_predicted optimal_threshold df_test;
  let true_positives :=
    filter (fun r => predicted r = 1%Z /\ float_eqb (Label (row r)) f1) df_test in
  let false_positives :=
    filter (fun r => predicted r = 1%Z /\ float_eqb (Label (row r)) f0) df_test in
  let false_negatives :=
    filter (fun r => predicted r = 0%Z /\ float_eqb (Label (row r)) f1) df_test in
  let true_negatives :=
    filter (fun r => predicted r = 0%Z /\ float_eqb (Label (row r)) f0) df_test in
  mret {| true_positives := true_positives;
          true_negatives := true_negatives;
          false_positives := false_positives;
          false_negatives := false_negatives |}.

(** The sort key of [sort_values(by=LoggingColumns.ModelOutput.value)]. *)
Definition score (r : PredictedRow) : float := ModelOutput (row r).

(** The rows at the positions of an indexer, in its order. An indexer
    that [argsort] returns is a permutation of the positions of the table:
    every position it names is there. *)
Definition take_rows (df : list PredictedRow) (indexer : list nat) : list PredictedRow :=
  omap (fun i => df !! i) indexer.

(** [non_nan_idx[non_nans.argsort(kind=kind)]] of [nargsort], over rows
    whose scores are not NaN and giving the rows instead of their
    positions. The default kind is ["quicksort"]. *)
Definition argsort (l : list PredictedRow) : list PredictedRow :=
  take_rows l (ndarray_argsort np (score <$> l)).

(** [DataFrame.sort_values(by=ModelOutput, ascending=...)], that is pandas'
    [nargsort]: the rows without a score (NaN) are set aside and come last
    ([na_position="last"]); the others are sorted, and for a descending
    sort they are reversed before and after sorting. *)
Definition sort_values (ascending : bool) (df : list PredictedRow) : list PredictedRow :=
  let non_nans := filter (fun r => is_nan (score r) = false) df in
  let nans := filter (fun r => is_nan (score r) = true) df in
  (if ascending then argsort non_nans
   else reverse (argsort (reverse non_nans))) ++ nans.

(** [DataFrame.head(n)], that is [iloc[:n]]: the first [n] rows, and for a
    negative [n] all rows but the last [-n]. *)
Definition head (n : Z) (df : list PredictedRow) : list PredictedRow :=
  if (0 <=? n)%Z then take (Z.to_nat n) df
  else take (length df - Z.to_nat (- n)) df.

(** The expression bound to [sorted] in
    [get_k_best_and_worst_performing]: the spec's [rank]. *)
Definition rank (results : Results) (k : Z) : Results :=
  {| true_positives := head k (sort_values false (true_positives results));
     true_negatives := head k (sort_values true (true_negatives results));
     false_positives := head k (sort_values false (false_positives results));
     false_negatives := head k (sort_values true (false_negatives results)) |}.

Definition get_k_best_and_worst_performing
    (val_metrics_csv test_metrics_csv : DataFrame) (k : Z) (hue : string)
  : result Results :=
  results ← get_correct_and_misclassified_examples val_metrics_csv test_metrics_csv hue;
  let sorted := rank results k in
  mret sorted.

(** ** Vocabulary of the statements *)

(** What [roc_curve] promises for a usable validation split: three arrays of
    one length, with at least one point. *)
Definition roc_curve_ok (df_val : DataFrame) : Prop :=
  exists fpr tpr thresholds,
    roc_curve sk (Label <$> df_val) (ModelOutput <$> df_val) = Ok (fpr, tpr, thresholds)
    /\ length fpr = length tpr
    /\ length thresholds = length tpr
    /\ 0 < length tpr.

(** A binary label: [0] or [1]. *)
Definition binary_label (x : float) : Prop := float_eqb x f0 \/ float_eqb x f1.

(** A well-formed pair of metrics files for [hue]: once filtered, no subject
    occurs twice in either table, the test table has rows and their labels
    are binary, and the validation table has a ROC curve. (Over a test
    table without rows the assignment to ["predicted"] raises, see
    [set_predicted].) *)
Definition well_formed (val_metrics_csv test_metrics_csv : DataFrame) (hue : string) : Prop :=
  let df_val := filter (fun r => Hue r = hue) val_metrics_csv in
  let df_test := filter (fun r => Hue r = hue) test_metrics_csv in
  NoDup (Patient <$> df_val)
  /\ NoDup (Patient <$> df_test)
  /\ df_test <> []
  /\ Forall (fun r => binary_label (Label r)) df_test
  /\ roc_curve_ok df_val.

(** The four confusion categories, the table of each and the direction in
    which [get_k_best_and_worst_performing] sorts it. *)
Inductive Category :=
| TruePositive
| FalsePositive
| TrueNegative
| FalseNegative.

Definition table (c : Category) (results : Results) : list PredictedRow :=
  match c with
  | TruePositive => true_positives results
  | FalsePositive => false_positives results
  | TrueNegative => true_negatives results
  | FalseNegative => false_negatives results
  end.

Definition ascending (c : Category) : bool :=
  match c with
  | TruePositive | FalsePositive => false
  | TrueNegative | FalseNegative => true
  end.

(** A test row lands in a table when the table holds it (with its
    prediction). *)
Definition lands (x : Row) (tbl : list PredictedRow) : Prop :=
  exists r, r ∈ tbl /\ row r = x.

(** The four tables [get_correct_and_misclassified_examples] builds from the
    filtered test table once the threshold is known (its last statements). *)
Definition confusion_tables (optimal_threshold : float) (df_test : DataFrame) : Results :=
  let df_test :=
    (fun x => {| row := x; predicted := predict optimal_threshold x |}) <$> df_test in
  {| true_positives :=
       filter (fun r => predicted r = 1%Z /\ float_eqb (Label (row r)) f1) df_test;
     true_negatives :=
       filter (fun r => predicted r = 0%Z /\ float_eqb (Label (row r)) f0) df_test;
     false_positives :=
       filter (fun r => predicted r = 1%Z /\ float_eqb (Label (row r)) f0) df_test;
     false_negatives :=
       filter (fun r => predicted r = 0%Z /\ float_eqb (Label (row r)) f1) df_test |}.

(** Some subject occurs in two rows of the table. *)
Definition has_duplicate_subject (df : DataFrame) : Prop :=
  exists i j ri rj,
    i <> j /\ df !! i = Some ri /\ df !! j = Some rj /\ Patient ri = Patient rj.

(** No two rows of the table with equal labels have equal model outputs:
    no confusion category holds a tie. (NaN equals nothing, itself
    included.) *)
Definition no_ties (df : DataFrame) : Prop :=
  forall i j ri rj,
    i <> j -> df !! i = Some ri -> df !! j = Some rj ->
    float_eqb (Label ri) (Label rj) = true ->
    float_eqb (ModelOutput ri) (ModelOutput rj) = false.

(** The shape [sort_values] gives a table: scored rows first, in order, then
    the rows whose score is NaN. *)
Definition score_le (x y : PredictedRow) : Prop := float_le (score x) (score y) = true.

Definition in_order (ascending : bool) (df : list PredictedRow) : Prop :=
  exists scored unscored,
    df = scored ++ unscored
    /\ Forall (fun r => is_nan (score r) = false) scored
    /\ Forall (fun r => is_nan (score r) = true) unscored
    /\ Sorted score_le (if ascending then scored else reverse scored).

End Report.

Abbreviation DataFrame := (list Row).

End ClassificationReport.

(** * A model of the scikit-learn routines

    The theorems below hold for every implementation of [Sklearn]. To run the
    report on concrete tables, this module follows the algorithms of
    [sklearn.metrics] (the releases before 1.3, whose ROC curve starts at the
    threshold [max(y_score) + 1]) in exact arithmetic. The texts of the
    error messages are shortened. *)

Module SklearnModel.

Definition is_finite (x : float) : bool :=
  match x with Fin _ => true | _ => false end.

Definition to_Q (x : float) : Q :=
  match x with Fin q => q | _ => 0%Q end.

(** The labels scikit-learn accepts without [pos_label]: the classes are
    [{0, 1}], [{-1, 1}], [{0}], [{-1}] or [{1}]. *)
Definition binary_labels (y_true : list float) : bool :=
  match y_true with
  | [] => false
  | _ => forallb (fun y => float_eqb y f0 || float_eqb y f1) y_true
         || forallb (fun y => float_eqb y (of_Z (-1)) || float_eqb y f1) y_true
  end.

(** One sample: its score and whether its label is the positive one. *)
Definition sample : Type := Q * bool.

Fixpoint insert_sample (x : sample) (l : list sample) : list sample :=
  match l with
  | [] => [x]
  | y :: l' => if Qle_bool (fst x) (fst y) then x :: y :: l' else y :: insert_sample x l'
  end.

(** [np.argsort(y_score, kind="mergesort")[::-1]] *)
Definition sort_descending (l : list sample) : list sample :=
  reverse (foldr insert_sample [] l).

(** A point of the curve: a threshold with the true and the false positives
    counted at or above it. *)
Definition point : Type := Q * nat * nat.

(** [_binary_clf_curve]: one point per distinct score, in decreasing order of
    the score, with cumulative counts. *)
Fixpoint binary_clf_curve (tps fps : nat) (l : list sample) : list point :=
  match l with
  | [] => []
  | (s, y) :: l' =>
      let tps' := if y then S tps else tps in
      let fps' := if y then fps else S fps in
      match l' with
      | [] => [(s, tps', fps')]
      | (s', _) :: _ =>
          if Qeq_bool s s' then binary_clf_curve tps' fps' l'
          else (s, tps', fps') :: binary_clf_curve tps' fps' l'
      end
  end.

Definition second_difference (a b c : nat) : Z :=
  (Z.of_nat c - 2 * Z.of_nat b + Z.of_nat a)%Z.

(** [drop_intermediate=True]: an inner point stays when the second difference
    of either count is not zero there; the first and the last point stay. *)
Fixpoint drop_inner (prev : point) (l : list point) : list point :=
  match l with
  | cur :: ((next :: _) as l') =>
      let '(_, tp0, fp0) := prev in
      let '(_, tp1, fp1) := cur in
      let '(_, tp2, fp2) := next in
      (if Z.eqb (second_difference fp0 fp1 fp2) 0 && Z.eqb (second_difference tp0 tp1 tp2) 0
       then [] else [cur]) ++ drop_inner cur l'
  | _ => l
  end.

Definition drop_intermediate (pts : list point) : list point :=
  if bool_decide (2 < length pts) then
    match pts with
    | p :: rest => p :: drop_inner p rest
    | [] => []
    end
  else pts.

(** A count over the last count of the curve; NaN when that count is zero
    (scikit-learn warns and returns NaN). *)
Definition rate (total n : nat) : float :=
  match total with
  | O => NaN
  | S _ => Fin (Qred (Z.of_nat n # Pos.of_nat total))
  end.

Definition validate (y_true y_score : list float) : result unit :=
  if negb (bool_decide (length y_true = length y_score)) then
    Raise (ValueError "Found input variables with inconsistent numbers of samples")
  else if negb (forallb is_finite y_true && forallb is_finite y_score) then
    Raise (ValueError "Input contains NaN, infinity or a value too large for dtype('float64').")
  else if negb (binary_labels y_true) then
    Raise (ValueError "y_true is not a binary target with classes in {0, 1} or {-1, 1}")
  else Ok tt.

Definition samples (y_true y_score : list float) : list sample :=
  zip_with (fun y s => (to_Q s, float_eqb y f1)) y_true y_score.

Definition sk_roc_curve (y_true y_score : list float)
  : result (list float * list float * list float) :=
  _ ← validate y_true y_score;
  let pts := binary_clf_curve 0 0 (sort_descending (samples y_true y_score)) in
  let pts := drop_intermediate pts in
  let pts :=
    match pts with
    | (s, _, _) :: _ => ((s + 1)%Q, 0, 0) :: pts
    | [] => []
    end in
  let total_tps := default 0 (last ((fun p : point => snd (fst p)) <$> pts)) in
  let total_fps := default 0 (last (snd <$> pts)) in
  let fpr := (fun p => rate total_fps (snd p)) <$> pts in
  let tpr := (fun p => rate total_tps (snd (fst p))) <$> pts in
  let thresholds := (fun p => Fin (fst (fst p))) <$> pts in
  Ok (fpr, tpr, thresholds).

(** [recall_score(y_true, y_pred, pos_label)]: among the rows labelled
    [pos_label], the fraction predicted so; [0] when there is no such row. *)
Definition sk_recall_score (y_true : list float) (y_pred : list bool) (pos_label : Z)
  : result float :=
  if negb (bool_decide (length y_true = length y_pred)) then
    Raise (ValueError "Found input variables with inconsistent numbers of samples")
  else
    let rows := zip y_true y_pred in
    let relevant := List.filter (fun p => float_eqb (fst p) (of_Z pos_label)) rows in
    let hits :=
      List.filter (fun p => Z.eqb (int_of_bool (snd p)) pos_label) relevant in
    match length relevant with
    | O => Ok f0
    | S _ => Ok (Fin (Qred (Z.of_nat (length hits) # Pos.of_nat (length relevant))))
    end.

(** [auc(x, y)]: the trapezoidal rule over a monotonic [x]. *)
Fixpoint trapezoid (x y : list Q) : Q :=
  match x, y with
  | x0 :: ((x1 :: _) as x'), y0 :: ((y1 :: _) as y') =>
      ((x1 - x0) * (y1 + y0) / 2 + trapezoid x' y')%Q
  | _, _ => 0%Q
  end.

Fixpoint monotone (le : Q -> Q -> bool) (x : list Q) : bool :=
  match x with
  | x0 :: ((x1 :: _) as x') => le x0 x1 && monotone le x'
  | _ => true
  end.

Definition sk_auc (x y : list float) : result float :=
  if bool_decide (length x < 2) then
    Raise (ValueError "At least 2 points are needed to compute area under curve")
  else if negb (forallb is_finite x && forallb is_finite y) then Ok NaN
  else
    let xs := to_Q <$> x in
    let ys := to_Q <$> y in
    if monotone Qle_bool xs then Ok (Fin (Qred (trapezoid xs ys)))
    else if monotone (fun a b => Qle_bool b a) xs then Ok (Fin (Qred (- trapezoid xs ys)))
    else Raise (ValueError "x is neither increasing nor decreasing").

Definition sk_roc_auc_score (y_true y_score : list float) : result float :=
  _ ← validate y_true y_score;
  if negb (bool_decide (length (py_set y_true) = 2)) then
    Raise (ValueError
      "Only one class present in y_true. ROC AUC score is not defined in that case.")
  else
    '(fpr, tpr, _) ← sk_roc_curve y_true y_score;
    sk_auc fpr tpr.

(** [precision_recall_curve]: the points up to the first one of full recall,
    from the lowest threshold to the highest, closed by precision [1] and
    recall [0]. *)
Fixpoint up_to_full_recall (total : nat) (pts : list point) : list point :=
  match pts with
  | [] => []
  | p :: pts' =>
      if bool_decide (total <= snd (fst p)) then [p]
      else p :: up_to_full_recall total pts'
  end.

Definition sk_precision_recall_curve (y_true probas_pred : list float)
  : result (list float * list float * list float) :=
  _ ← validate y_true probas_pred;
  let pts := binary_clf_curve 0 0 (sort_descending (samples y_true probas_pred)) in
  let total_tps := default 0 (last ((fun p : point => snd (fst p)) <$> pts)) in
  let pts := reverse (up_to_full_recall total_tps pts) in
  let precision :=
    (fun p : point => rate (snd (fst p) + snd p) (snd (fst p))) <$> pts in
  let recall := (fun p : point => rate total_tps (snd (fst p))) <$> pts in
  let thresholds := (fun p : point => Fin (fst (fst p))) <$> pts in
  Ok (precision ++ [f1], recall ++ [f0], thresholds).

Definition sk_model : ClassificationReport.Sklearn :=
  {| ClassificationReport.roc_curve := sk_roc_curve;
     ClassificationReport.roc_auc_score := sk_roc_auc_score;
     ClassificationReport.precision_recall_curve := sk_precision_recall_curve;
     ClassificationReport.auc := sk_auc;
     ClassificationReport.recall_score := sk_recall_score |}.

(** Modelled from the spec: [binary_classification_accuracy] is defined in
    [InnerEye/ML/metrics_dict.py], which is not among the sources. The spec
    says that accuracy reduces to counting against the threshold; here it is
    the fraction of rows whose prediction at the threshold agrees with the
    label. *)
Definition accuracy_by_counting (model_output label : list float) (threshold : float)
  : result float :=
  let rows := zip model_output label in
  let agree :=
    List.filter (fun p => Bool.eqb (float_ge (fst p) threshold) (float_eqb (snd p) f1)) rows in
  Ok (rate (length rows) (length agree)).

End SklearnModel.

(** * A model of numpy's argsort

    The theorems below hold for every implementation of [Numpy]. To run the
    ranking on concrete tables, this module sorts by insertion, which is
    what numpy's quicksort does on a short array. With [float_le] as the
    test, entries that are equal keep their order; with [float_lt] they
    swap it. Both sort the array. *)

Module NumpyModel.

(** An entry of the array with its position. *)
Definition entry : Type := float * nat.

Fixpoint insert_entry (before : float -> float -> bool) (x : entry) (l : list entry)
  : list entry :=
  match l with
  | [] => [x]
  | y :: l' =>
      if before x.1 y.1 then x :: y :: l'
      else y :: insert_entry before x l'
  end.

Definition entries (a : list float) : list entry := imap (fun i x => (x, i)) a.

Definition argsort_by_insertion (before : float -> float -> bool) (a : list float)
  : list nat :=
  (fun e : entry => e.2) <$> foldr (insert_entry before) [] (entries a).

End NumpyModel.

(** * Tables of the test suite *)

Module Fixtures.
Import ClassificationReport.

(** A row of [Tests/ML/reports/test_metrics_classification.csv], in the column
    order of the line that [test_functions_with_invalid_csv] appends:
    hue, epoch, subject, model output, label, cross-validation index, split. *)
Definition csv_row (split : string) (subject : Z) (model_output : Q) (label : Z) : Row (Subject := Z) :=
  {| Hue := "Default"; Epoch := 1; Patient := subject;
     ModelOutput := Fin model_output; Label := of_Z label;
     CrossValidationSplitIndex := (-1); DataSplit := split |}.

(** The test table as [test_get_labels_and_predictions] reads it: subjects
    [0..11], labels [[1] * 6 + [0] * 6], outputs
    [[0.0, 0.2, 0.4, 0.6, 0.8, 1.0] * 2]. *)
Definition test_metrics_classification : list (Row (Subject := Z)) :=
  [ csv_row "Test" 0 0.0 1; csv_row "Test" 1 0.2 1; csv_row "Test" 2 0.4 1;
    csv_row "Test" 3 0.6 1; csv_row "Test" 4 0.8 1; csv_row "Test" 5 1.0 1;
    csv_row "Test" 6 0.0 0; csv_row "Test" 7 0.2 0; csv_row "Test" 8 0.4 0;
    csv_row "Test" 9 0.6 0; csv_row "Test" 10 0.8 0; csv_row "Test" 11 1.0 0 ].

(** A validation table whose Youden threshold is [0.6], the threshold the
    tests expect from the repository's validation file. *)
Definition val_metrics_classification : list (Row (Subject := Z)) :=
  [ csv_row "Val" 0 0.0 0; csv_row "Val" 1 0.2 0; csv_row "Val" 2 0.4 0;
    csv_row "Val" 3 0.6 1; csv_row "Val" 4 0.8 1; csv_row "Val" 5 1.0 1 ].

(** The table of [test_functions_with_invalid_csv]: the test table with the
    line ["Default,1,5,1.0,1,-1,Test"] appended, so that subject [5] occurs
    twice. *)
Definition invalid_metrics_classification : list (Row (Subject := Z)) :=
  test_metrics_classification ++ [csv_row "Test" 5 1.0 1].

(** A validation table with no row at all for the hue. *)
Definition empty_metrics : list (Row (Subject := Z)) := [].

(** A validation table whose best cut is the score [0.0]. *)
Definition val_metrics_zero_threshold : list (Row (Subject := Z)) :=
  [ csv_row "Val" 0 0.0 1; csv_row "Val" 1 (-1.0) 0 ].

(** A test table with a single class. *)
Definition test_metrics_one_class : list (Row (Subject := Z)) :=
  [ csv_row "Test" 0 0.3 1; csv_row "Test" 1 0.7 1 ].

(** A test table in which two true positives have the same score. *)
Definition test_metrics_tied : list (Row (Subject := Z)) :=
  [ csv_row "Test" 0 0.8 1; csv_row "Test" 1 0.8 1; csv_row "Test" 2 0.2 0 ].

(** The header of the subject column in the tables of the test suite. *)
Definition Patient_column : string := "subject".

(** The columns [get_labels_and_predictions] extracts from a table. *)
Definition columns (df : list (Row (Subject := Z))) : LabelsAndPredictions :=
  {| subject_ids := Patient <$> df; labels := Label <$> df;
     model_outputs := ModelOutput <$> df |}.

End Fixtures.

(** * lightning_models.py *)

Module LightningModels.

Section Transfer.

(** [torch.Tensor], [torch.device] and the [ScalarItem] of
    [InnerEye/ML/dataset/scalar_sample.py] are opaque. *)
Variables Tensor Device ScalarItem : Type.

(** The Python values a batch is made of. *)
Inductive value :=
| VNone
| VStr (s : string)
| VTensor (t : Tensor)
| VScalarItem (s : ScalarItem)
| VList (l : list value)
| VDict (d : gmap string value).

(** [ScalarItem.to_device] *)
Variable to_device : ScalarItem -> Device -> result ScalarItem.

(** [pytorch_lightning.utilities.move_data_to_device] *)
Variable move_data_to_device : value -> Device -> result value.

(** Iterating over a tensor. *)
Variable tensor_iter : Tensor -> result (list Tensor).

(** [type(v)], as an f-string prints it. *)
Definition type_repr (v : value) : string :=
  match v with
  | VNone => "<class 'NoneType'>"
  | VStr _ => "<class 'str'>"
  | VTensor _ => "<class 'torch.Tensor'>"
  | VScalarItem _ => "<class 'InnerEye.ML.dataset.scalar_sample.ScalarItem'>"
  | VList _ => "<class 'list'>"
  | VDict _ => "<class 'dict'>"
  end.

Definition is_dict (v : value) : bool :=
  match v with VDict _ => true | _ => false end.

Definition is_scalar_item (v : value) : bool :=
  match v with VScalarItem _ => true | _ => false end.

Definition is_list (v : value) : bool :=
  match v with VList _ => true | _ => false end.

(** [for x in v] *)
Definition py_iter (v : value) : result (list value) :=
  match v with
  | VList l => Ok l
  | VDict d => Ok (VStr <$> (map_to_list d).*1)
  | VStr s => Ok ((fun c => VStr (String c EmptyString)) <$> String.list_ascii_of_string s)
  | VTensor t => ts ← tensor_iter t; Ok (VTensor <$> (ts : list Tensor))
  | VNone => Raise (TypeError "'NoneType' object is not iterable")
  | VScalarItem _ => Raise (TypeError "'ScalarItem' object is not iterable")
  end.

(** [j.to_device(device)] *)
Definition call_to_device (device : Device) (j : value) : result value :=
  match j with
  | VScalarItem s => s' ← to_device s device; Ok (VScalarItem s')
  | _ => Raise (AttributeError (type_repr j +:+ " object has no attribute 'to_device'"))
  end.

(** The test of the [if]: [items is not None and isinstance(items, List) and
    isinstance(items[0], List) and isinstance(items[0][0], ScalarItem)], the
    conjuncts evaluated from the left until one is false. *)
Definition is_sequence_batch (items : value) : result bool :=
  match items with
  | VNone => Ok false
  | VList l =>
      items_0 ← list_item l 0;
      match items_0 with
      | VList l0 =>
          items_0_0 ← list_item l0 0;
          Ok (is_scalar_item items_0_0)
      | _ => Ok false
      end
  | _ => Ok false
  end.

(** [[[j.to_device(device) for j in i] for i in items]] *)
Definition transfer_items (device : Device) (items : value) : result value :=
  rows ← py_iter items;
  new_rows ← mapM (fun i => js ← py_iter i;
                            new_js ← mapM (call_to_device device) js;
                            Ok (VList new_js)) rows;
  Ok (VList new_rows).

(** The call returns a pair: what the object passed as [batch] holds when the
    call ends (the function assigns to [batch["items"]] in place), and the
    value returned or the exception raised. *)
Definition transfer_batch_to_device (batch : value) (device : Device) : value * result value :=
  match batch with
  | VDict d =>
      let items := default VNone (d !! "items") in
      match is_sequence_batch items with
      | Raise e => (batch, Raise e)
      | Ok true =>
          match transfer_items device items with
          | Raise e => (batch, Raise e)
          | Ok new_items =>
              let batch := VDict (<["items" := new_items]> d) in
              (batch, Ok batch)
          end
      | Ok false => (batch, move_data_to_device batch device)
      end
  | _ =>
      (batch,
       Raise (ValueError ("This function expects a dictionary input, but got: "
                          +:+ type_repr batch)))
  end.

(** What a successful comprehension did to a row [i]: every [j] of the row
    was a [ScalarItem] whose [to_device] returned, and the new row [i'] holds
    the results in order. *)
Definition transferred (device : Device) (i i' : value) : Prop :=
  exists js js',
    py_iter i = Ok js /\ i' = VList js'
    /\ Forall2 (fun j j' => exists s s',
                  j = VScalarItem s /\ to_device s device = Ok s' /\ j' = VScalarItem s')
         js js'.

End Transfer.

Arguments VNone {Tensor ScalarItem}.
Arguments VStr {Tensor ScalarItem} s.
Arguments VTensor {Tensor ScalarItem} t.
Arguments VScalarItem {Tensor ScalarItem} s.
Arguments VList {Tensor ScalarItem} l.
Arguments VDict {Tensor ScalarItem} d.
Arguments type_repr {Tensor ScalarItem} v.
Arguments is_dict {Tensor ScalarItem} v.
Arguments is_scalar_item {Tensor ScalarItem} v.
Arguments is_list {Tensor ScalarItem} v.
Arguments py_iter {Tensor ScalarItem} tensor_iter v.
Arguments call_to_device {Tensor Device ScalarItem} to_device device j.
Arguments is_sequence_batch {Tensor ScalarItem} items.
Arguments transfer_items {Tensor Device ScalarItem} to_device tensor_iter device items.
Arguments transfer_batch_to_device {Tensor Device ScalarItem}
  to_device move_data_to_device tensor_iter batch device.
Arguments transferred {Tensor Device ScalarItem} to_device tensor_iter device i i'.

End LightningModels.

(** * classification_report.py: printing *)

Module ReportPrinting.
Import ClassificationReport.

(** A call [print_header(message, level)] of
    [InnerEye/ML/reports/notebook_report.py] (not among the sources): the
    printing functions are modelled by the list of the calls they make. *)
Definition Header : Type := string * Z.

(** A computation that prints: from the calls made so far to the calls made
    when it ends, with its value or the exception that ended it. *)
Definition Printer (A : Type) : Type := list Header -> list Header * result A.

#[global] Instance printer_ret : MRet Printer := fun A a out => (out, Ok a).
#[global] Instance printer_bind : MBind Printer :=
  fun A B f m out =>
    match m out with
    | (out', Ok a) => f a out'
    | (out', Raise e) => (out', Raise e)
    end.

Definition print_header (message : string) (level : Z) : Printer unit :=
  fun out => (out ++ [(message, level)], Ok tt).

(** A call that does not print. *)
Definition call {A} (m : result A) : Printer A := fun out => (out, m).

(** Runs a printing function from an empty output. *)
Definition printed {A} (m : Printer A) : list Header * result A := m [].

Section Printing.

Context {Subject : Type} `{EqDecision Subject}.

Variable sk : Sklearn.
Variable np : Numpy.
Variable binary_classification_accuracy :
  list float -> list float -> float -> result float.
Variable Patient_column : string.

(** [f"{x:spec}"] for a float, for the format specifications [".4f"],
    [" .4f"] and [".5f"] of the module. *)
Variable format_float : string -> float -> string.

(** [f"{subject}"] *)
Variable format_subject : Subject -> string.

Definition print_metrics (val_metrics test_metrics : LabelsAndPredictions (Subject := Subject))
    (exclusive : bool) : Printer unit :=
  let optimal_threshold := if exclusive then Some (Fin 0.5) else None in
  optimal_threshold ←
    (if negb exclusive then
       roc_auc ← call (get_metric sk binary_classification_accuracy val_metrics test_metrics
                         AUC_ROC None);
       _ ← print_header ("Area under ROC Curve: " +:+ format_float ".4f" roc_auc) 4;
       pr_auc ← call (get_metric sk binary_classification_accuracy val_metrics test_metrics
                        AUC_PR None);
       _ ← print_header ("Area under PR Curve: " +:+ format_float ".4f" pr_auc) 4;
       optimal_threshold ←
         call (get_metric sk binary_classification_accuracy val_metrics test_metrics
                 OptimalThreshold None);
       _ ← print_header ("Optimal threshold: " +:+ format_float " .4f" optimal_threshold) 4;
       mret (Some optimal_threshold)
     else mret optimal_threshold);
  accuracy ← call (get_metric sk binary_classification_accuracy val_metrics test_metrics
                     Accuracy optimal_threshold);
  _ ← print_header ("Accuracy at optimal threshold: " +:+ format_float ".4f" accuracy) 4;
  fpr ← call (get_metric sk binary_classification_accuracy val_metrics test_metrics
                FalsePositiveRate optimal_threshold);
  _ ← print_header
        ("Specificity at optimal threshold: " +:+ format_float ".4f" (float_sub f1 fpr)) 4;
  fnr ← call (get_metric sk binary_classification_accuracy val_metrics test_metrics
                FalseNegativeRate optimal_threshold);
  _ ← print_header
        ("Sensitivity at optimal threshold: " +:+ format_float ".4f" (float_sub f1 fnr)) 4;
  print_header "" 4.

(** One loop of [print_k_best_and_worst_performing]:
    [for index, (subject, model_output) in enumerate(zip(...))], printing
    [f"{index + 1}. ID {subject} Score: {model_output:.5f}"]. *)
Fixpoint print_rows (index : nat) (rows : list (PredictedRow (Subject := Subject)))
  : Printer unit :=
  match rows with
  | [] => mret tt
  | r :: rows' =>
      _ ← print_header
            (pretty (index + 1) +:+ ". ID " +:+ format_subject (Patient (row r))
             +:+ " Score: " +:+ format_float ".5f" (ModelOutput (row r))) 4;
      print_rows (S index) rows'
  end.

Definition print_k_best_and_worst_performing
    (val_metrics_csv test_metrics_csv : list (Row (Subject := Subject))) (k : Z) (hue : string)
  : Printer unit :=
  results ← call (get_k_best_and_worst_performing sk np Patient_column
                    val_metrics_csv test_metrics_csv k hue);
  _ ← print_header ("Top " +:+ pretty k +:+ " false positives") 2;
  _ ← print_rows 0 (false_positives results);
  _ ← print_header ("Top " +:+ pretty k +:+ " false negatives") 2;
  _ ← print_rows 0 (false_negatives results);
  _ ← print_header ("Top " +:+ pretty k +:+ " true positives") 2;
  _ ← print_rows 0 (true_positives results);
  _ ← print_header ("Top " +:+ pretty k +:+ " true negatives") 2;
  print_rows 0 (true_negatives results).

End Printing.

End ReportPrinting.

(** * classification_report.py: looking a subject up in the dataset *)

Module DatasetLookup.

(** The dataset table and the metrics table are read with [dtype=str]: a
    cell holds a string, or NaN where the file has nothing. A row maps the
    name of a column to its string; a column without an entry in the row is
    a NaN cell. *)
Definition Cell : Type := option string.

Record Frame := {
  columns : list string;
  rows : list (gmap string string)
}.

(** The exceptions of the lookups: [KeyError] for a column the table does
    not have, besides the exceptions of the rest of the code. *)
Inductive lookup_exn :=
| KeyError (column : string)
| Builtin (e : exn).

Inductive outcome (A : Type) :=
| Return (a : A)
| Throw (e : lookup_exn).
Arguments Return {A} a.
Arguments Throw {A} e.

#[global] Instance outcome_ret : MRet outcome := @Return.
#[global] Instance outcome_bind : MBind outcome :=
  fun A B f m => match m with Return a => f a | Throw e => Throw e end.

Definition of_result {A} (m : result A) : outcome A :=
  match m with Ok a => Return a | Raise e => Throw (Builtin e) end.

(** [column in df] *)
Definition has_column (df : Frame) (column : string) : bool :=
  bool_decide (column ∈ columns df).

(** [df[column]], as the cells of the column in the order of the rows. *)
Definition column_of (df : Frame) (column : string) : outcome (list Cell) :=
  if has_column df column then Return ((fun r => r !! column) <$> rows df)
  else Throw (KeyError column).

(** [df[mask]] and [df.loc[mask]] for a boolean mask over the rows. *)
Fixpoint select {A} (mask : list bool) (l : list A) : list A :=
  match mask, l with
  | b :: mask', x :: l' => if b then x :: select mask' l' else select mask' l'
  | _, _ => []
  end.

Definition where_mask (df : Frame) (mask : list bool) : Frame :=
  {| columns := columns df; rows := select mask (rows df) |}.

(** [cell == value] for a string [value]: a NaN cell equals nothing. *)
Definition cell_is (value : string) (c : Cell) : bool :=
  match c with
  | Some s => bool_decide (s = value)
  | None => false
  end.

(** [cell in values], one entry of [Series.isin(values)]. *)
Definition cell_isin (values : list string) (c : Cell) : bool :=
  match c with
  | Some s => bool_decide (s ∈ values)
  | None => false
  end.

(** [list(set(cells))]. The empty cells of a table hold one and the same NaN
    object, so NaN is in the set once. The order of a Python set is not
    specified; the code looks at the list only when it has at most one
    member, and when it prints it. *)
Definition distinct_cells (cells : list Cell) : list Cell := remove_dups cells.

(** [np.array(v).nonzero()[0]]: the positions of the entries that are not
    zero. *)
Definition nonzero (v : list float) : list nat :=
  (fun p => p.1) <$> List.filter (fun p => negb (float_eqb p.2 f0)) (imap pair v).

(** The fields of [ScalarModelBase] ([InnerEye/ML/scalar_config.py], not
    among the sources) that the lookups read. *)
Record ScalarModelBase := {
  image_channels : list string;
  label_channels : list string;
  channel_column : string;
  subject_column : string;
  image_file_column : string;
  label_value_column : string;
  class_names : list string;
  is_classification_model : bool
}.

Section Lookup.

(** [pathlib.Path], with [dataset_dir / Path(filepath)]. *)
Variable Path : Type.
Variable truediv : Path -> string -> Path.

(** [extract_label_classification] of
    [InnerEye/ML/dataset/scalar_dataset.py] (not among the sources), called
    with [label_string], [sample_id], [num_classes] and
    [is_classification_dataset]. *)
Variable extract_label_classification :
  Cell -> string -> nat -> bool -> result (list float).

(** How the message of the error prints the list of labels. *)
Variable format_labels : list Cell -> string.

(** [float(s)] for the cells of a column converted with [astype(float)]. *)
Variable float_of_string : string -> result float.

(** [LoggingColumns.Patient.value], [LoggingColumns.Hue.value] and
    [LoggingColumns.ModelOutput.value]. *)
Variables Patient_column Hue_column ModelOutput_column : string.

(** [Path(filepath)] for a cell: a NaN is not a path. *)
Definition path_of (dataset_dir : Path) (filepath : Cell) : outcome Path :=
  match filepath with
  | Some s => Return (truediv dataset_dir s)
  | None =>
      Throw (Builtin (TypeError "expected str, bytes or os.PathLike object, not float"))
  end.

Definition get_image_filepath_from_subject_id (subject_id : string) (dataset_df : Frame)
    (config : ScalarModelBase) (dataset_dir : Path) : outcome (list Path) :=
  dataset_df ←
    (if bool_decide (image_channels config <> []) && has_column dataset_df (channel_column config)
     then
       channel ← column_of dataset_df (channel_column config);
       mret (where_mask dataset_df (cell_isin (image_channels config) <$> channel))
     else mret dataset_df);
  subject ← column_of dataset_df (subject_column config);
  let dataset_df := where_mask dataset_df (cell_is subject_id <$> subject) in
  filepaths ← column_of dataset_df (image_file_column config);
  mapM (path_of dataset_dir) filepaths.

(** The condition of the final comprehension, [not isinstance(labels, float)
    or not math.isnan(label)], holds for every label since [labels] is an
    array: no position is left out. *)
Definition get_image_labels_from_subject_id (subject_id : string) (dataset_df : Frame)
    (config : ScalarModelBase) : outcome (list string) :=
  dataset_df ←
    (if bool_decide (label_channels config <> []) && has_column dataset_df (channel_column config)
     then
       if bool_decide (1 < length (label_channels config)) then
         Throw (Builtin (ValueError
           ("Single label channel expected in multilabel datasets, got "
            +:+ pretty (length (label_channels config)) +:+ " channels.")))
       else
         channel ← column_of dataset_df (channel_column config);
         label_channel ← of_result (list_item (label_channels config) 0);
         mret (where_mask dataset_df (cell_is label_channel <$> channel))
     else mret dataset_df);
  subject ← column_of dataset_df (subject_column config);
  let dataset_df := where_mask dataset_df (cell_is subject_id <$> subject) in
  values ← column_of dataset_df (label_value_column config);
  let labels := distinct_cells values in
  match labels with
  | [] => mret []
  | label :: others =>
      if bool_decide (1 < length labels) then
        Throw (Builtin (ValueError
          ("Labels inconsistent, expect the same set of labels for all hues per subject. "
           +:+ "Got labels " +:+ format_labels labels)))
      else
        one_hot ← of_result (extract_label_classification label subject_id
                               (length (class_names config))
                               (is_classification_model config));
        let labels := nonzero one_hot in
        mapM (fun label => of_result (list_item (class_names config) label)) labels
  end.

(** A cell of the column converted with [astype(float)]. *)
Definition float_of_cell (c : Cell) : result float :=
  match c with
  | Some s => float_of_string s
  | None => Ok NaN
  end.

Definition get_image_outputs_from_subject_id (subject_id : string) (metrics_df : Frame)
  : outcome (list (Cell * float)) :=
  patient ← column_of metrics_df Patient_column;
  let filtered := where_mask metrics_df (cell_is subject_id <$> patient) in
  hues ← column_of filtered Hue_column;
  model_outputs ← column_of filtered ModelOutput_column;
  model_outputs ← of_result (mapM float_of_cell model_outputs);
  let outputs := zip hues model_outputs in
  mret outputs.

End Lookup.

End DatasetLookup.

(** * lightning_models.py: the scalar model *)

Module ScalarLightningModel.

Section Rank.

(** [SUBJECT_METRICS_FILE_NAME] of [InnerEye/Common/common_util.py] (not
    among the sources). *)
Variable SUBJECT_METRICS_FILE_NAME : string.

Definition SUBJECT_OUTPUT_PER_RANK_PREFIX : string :=
  SUBJECT_METRICS_FILE_NAME +:+ ".rank".

Definition get_subject_output_file_per_rank (rank : Z) : string :=
  SUBJECT_OUTPUT_PER_RANK_PREFIX +:+ pretty rank.

End Rank.

(** A call on a [DataframeLogger] ([InnerEye/ML/metrics_dict.py], not among
    the sources): a logger is modelled by the list of the calls made on it. *)
Inductive LoggerCall (Record_ : Type) :=
| add_record (record : Record_)
| flush.
Arguments add_record {Record_} record.
Arguments flush {Record_}.

Section Scalar.

(** Tensors, their element types and the values [tolist] and [compute]
    return are opaque, and so are the metric computers of
    [InnerEye/ML/lightning_metrics.py]. *)
Variables Tensor DType Value Metric : Type.

(** [metric.name], [metric.has_predictions], [metric.compute()],
    [metric.reset()] and [metric(outputs, labels)]. A method that can change
    the metric in place gives the metric as it is after the call, whether
    the call returned or raised. [computes_from_logits] stands for
    [isinstance(metric, ScalarMetricsBase) and metric.compute_from_logits]. *)
Variable metric_name : Metric -> string.
Variable has_predictions : Metric -> bool.
Variable compute : Metric -> Metric * result Value.
Variable reset : Metric -> Metric.
Variable metric_call : Metric -> Tensor -> Tensor -> Metric * result unit.
Variable computes_from_logits : Metric -> bool.

(** [TRAIN_PREFIX], [VALIDATION_PREFIX] ([metrics_constants.py]),
    [MetricsDict.DEFAULT_HUE_KEY] and the values of [ModelExecutionMode.TRAIN]
    and [ModelExecutionMode.VAL]. *)
Variables TRAIN_PREFIX VALIDATION_PREFIX DEFAULT_HUE_KEY : string.
Variables TRAIN_value VAL_value : string.

(** The dictionary passed to [add_record], a field per key. *)
Record SubjectRecord := {
  Epoch : Z;
  Patient : string;
  Hue : string;
  ModelOutput : Value;
  Label : Value;
  DataSplit : string
}.

(** The fields of a [ScalarLightning] object that the two methods read or
    change. A [ModuleDict] keeps its keys in insertion order: it is the list
    of its items. [logged] is the list of the calls [self.log(name, value)]. *)
Record ScalarLightning := {
  train_metric_computers : list (string * list Metric);
  val_metric_computers : list (string * list Metric);
  train_subject_outputs_logger : list (LoggerCall SubjectRecord);
  val_subject_outputs_logger : list (LoggerCall SubjectRecord);
  logged : list (string * Value);
  current_epoch : Z;
  is_classification_model : bool;
  is_binary_classification_or_regression : bool
}.

(** [super().training_or_validation_epoch_end(is_training)], the method of
    [InnerEyeLightning] ([InnerEye/ML/lightning_base.py], not among the
    sources), on the whole object. *)
Variable base_epoch_end : bool -> ScalarLightning -> ScalarLightning * result unit.

(** What [get_masked_model_outputs_and_labels] returns when it is not
    [None]: [masked.model_outputs.data], [masked.labels.data] and
    [masked.subject_ids]. *)
Record Masked := {
  model_outputs_data : Tensor;
  labels_data : Tensor;
  masked_subject_ids : option (list string)
}.

(** [t[:, i, ...]], [get_masked_model_outputs_and_labels],
    [self.logits_to_posterior], [torch.int], [t.dtype], [t.to(dtype=...)] and
    [t.tolist()]. *)
Variable target_slice : Tensor -> nat -> result Tensor.
Variable get_masked_model_outputs_and_labels :
  Tensor -> Tensor -> list string -> result (option Masked).
Variable logits_to_posterior : Tensor -> result Tensor.
Variable torch_int : DType.
Variable dtype : Tensor -> DType.
Variable to_dtype : Tensor -> DType -> Tensor.
Variable tolist : Tensor -> list Value.

(** ** training_or_validation_epoch_end *)

(** The loop [for metric in metric_list] of the epoch end: the metrics
    after it, the calls of [self.log] after it, and how it ended. The name
    is built before [metric.compute()] is called; when that raises, nothing
    is logged for the metric, and the metrics before it have been reset. *)
Fixpoint log_metric_list (prefix target_suffix : string) (metric_list : list Metric)
    (logged : list (string * Value))
  : list Metric * list (string * Value) * result unit :=
  match metric_list with
  | [] => ([], logged, Ok tt)
  | metric :: rest =>
      if has_predictions metric then
        let name := prefix +:+ metric_name metric +:+ target_suffix in
        match compute metric with
        | (metric, Raise e) => (metric :: rest, logged, Raise e)
        | (metric, Ok value) =>
            let logged := logged ++ [(name, value)] in
            let metric := reset metric in
            let '(rest, logged, r) := log_metric_list prefix target_suffix rest logged in
            (metric :: rest, logged, r)
        end
      else
        let '(rest, logged, r) := log_metric_list prefix target_suffix rest logged in
        (metric :: rest, logged, r)
  end.

Definition target_suffix_of (binary : bool) (prediction_target : string) : string :=
  if bool_decide (prediction_target = DEFAULT_HUE_KEY) || binary then ""
  else "/" +:+ prediction_target.

(** The loop [for prediction_target, metric_list in metric_computers.items()]. *)
Fixpoint log_metric_computers (prefix : string) (binary : bool)
    (metric_computers : list (string * list Metric)) (logged : list (string * Value))
  : list (string * list Metric) * list (string * Value) * result unit :=
  match metric_computers with
  | [] => ([], logged, Ok tt)
  | (prediction_target, metric_list) :: rest =>
      let target_suffix := target_suffix_of binary prediction_target in
      match log_metric_list prefix target_suffix metric_list logged with
      | (metric_list, logged, Raise e) =>
          ((prediction_target, metric_list) :: rest, logged, Raise e)
      | (metric_list, logged, Ok _) =>
          let '(rest, logged, r) := log_metric_computers prefix binary rest logged in
          ((prediction_target, metric_list) :: rest, logged, r)
      end
  end.

Definition set_metric_computers (is_training : bool) (self : ScalarLightning)
    (metric_computers : list (string * list Metric)) (logged' : list (string * Value))
  : ScalarLightning :=
  {| train_metric_computers :=
       if is_training then metric_computers else train_metric_computers self;
     val_metric_computers :=
       if is_training then val_metric_computers self else metric_computers;
     train_subject_outputs_logger := train_subject_outputs_logger self;
     val_subject_outputs_logger := val_subject_outputs_logger self;
     logged := logged';
     current_epoch := current_epoch self;
     is_classification_model := is_classification_model self;
     is_binary_classification_or_regression :=
       is_binary_classification_or_regression self |}.

Definition log_to (is_training : bool) (self : ScalarLightning)
    (calls : list (LoggerCall SubjectRecord)) : ScalarLightning :=
  {| train_metric_computers := train_metric_computers self;
     val_metric_computers := val_metric_computers self;
     train_subject_outputs_logger :=
       if is_training then train_subject_outputs_logger self ++ calls
       else train_subject_outputs_logger self;
     val_subject_outputs_logger :=
       if is_training then val_subject_outputs_logger self
       else val_subject_outputs_logger self ++ calls;
     logged := logged self;
     current_epoch := current_epoch self;
     is_classification_model := is_classification_model self;
     is_binary_classification_or_regression :=
       is_binary_classification_or_regression self |}.

(** The method returns the object as it is when the call ends, with how the
    call ended. *)
Definition training_or_validation_epoch_end (is_training : bool) (self : ScalarLightning)
  : ScalarLightning * result unit :=
  let metric_computers :=
    if is_training then train_metric_computers self else val_metric_computers self in
  let prefix := if is_training then TRAIN_PREFIX else VALIDATION_PREFIX in
  match log_metric_computers prefix (is_binary_classification_or_regression self)
          metric_computers (logged self) with
  | (metric_computers, logged', Raise e) =>
      (set_metric_computers is_training self metric_computers logged', Raise e)
  | (metric_computers, logged', Ok _) =>
      let self := set_metric_computers is_training self metric_computers logged' in
      let self := log_to is_training self [flush] in
      base_epoch_end is_training self
  end.

(** ** compute_and_log_metrics *)

(** The loop [for metric in metric_list] of [compute_and_log_metrics]. *)
Fixpoint call_metrics (metric_list : list Metric) (_logits _posteriors _labels : Tensor)
  : list Metric * result unit :=
  match metric_list with
  | [] => ([], Ok tt)
  | metric :: rest =>
      match metric_call metric
              (if computes_from_logits metric then _logits else _posteriors) _labels with
      | (metric, Raise e) => (metric :: rest, Raise e)
      | (metric, Ok _) =>
          let '(rest, r) := call_metrics rest _logits _posteriors _labels in
          (metric :: rest, r)
      end
  end.

(** [zip(a, b, c, d)] *)
Fixpoint zip4 {A B C D} (a : list A) (b : list B) (c : list C) (d : list D)
  : list (A * B * C * D) :=
  match a, b, c, d with
  | x :: a', y :: b', z :: c', w :: d' => (x, y, z, w) :: zip4 a' b' c' d'
  | _, _, _, _ => []
  end.

(** One turn of the loop over the prediction targets, for the target at
    position [i]: the metrics of the target after it, the tuples it adds to
    [per_subject_outputs], and how it ended. *)
Definition compute_target (classification : bool) (i : nat) (prediction_target : string)
    (metric_list : list Metric) (logits targets : Tensor) (subject_ids : list string)
  : list Metric * list (string * string * Value * Value) * result unit :=
  match (l ← target_slice logits i;
         t ← target_slice targets i;
         get_masked_model_outputs_and_labels l t subject_ids) with
  | Raise e => (metric_list, [], Raise e)
  | Ok None => (metric_list, [], Ok tt)
  | Ok (Some masked) =>
      let _logits := model_outputs_data masked in
      match logits_to_posterior _logits with
      | Raise e => (metric_list, [], Raise e)
      | Ok _posteriors =>
          let labels_dtype := if classification then torch_int else dtype _posteriors in
          let _labels := to_dtype (labels_data masked) labels_dtype in
          match masked_subject_ids masked with
          | None => (metric_list, [], Raise AssertionError)
          | Some _subject_ids =>
              match call_metrics metric_list _logits _posteriors _labels with
              | (metric_list, Raise e) => (metric_list, [], Raise e)
              | (metric_list, Ok _) =>
                  (metric_list,
                   zip4 _subject_ids (replicate (length _subject_ids) prediction_target)
                     (tolist _posteriors) (tolist _labels),
                   Ok tt)
              end
          end
      end
  end.

(** The loop [for i, (prediction_target, metric_list) in
    enumerate(metrics.items())], from position [i] on. *)
Fixpoint compute_targets (classification : bool) (i : nat)
    (metrics : list (string * list Metric)) (logits targets : Tensor)
    (subject_ids : list string)
  : list (string * list Metric) * list (string * string * Value * Value) * result unit :=
  match metrics with
  | [] => ([], [], Ok tt)
  | (prediction_target, metric_list) :: rest =>
      match compute_target classification i prediction_target metric_list
              logits targets subject_ids with
      | (metric_list, outputs, Raise e) =>
          ((prediction_target, metric_list) :: rest, outputs, Raise e)
      | (metric_list, outputs, Ok _) =>
          let '(rest, outputs', r) :=
            compute_targets classification (S i) rest logits targets subject_ids in
          ((prediction_target, metric_list) :: rest, outputs ++ outputs', r)
      end
  end.

(** The dictionary of one tuple of [per_subject_outputs]. *)
Definition subject_record (epoch : Z) (data_split : string)
    (output : string * string * Value * Value) : SubjectRecord :=
  let '(subject, prediction_target, model_output, label) := output in
  {| Epoch := epoch; Patient := subject; Hue := prediction_target;
     ModelOutput := model_output; Label := label; DataSplit := data_split |}.

Definition compute_and_log_metrics (logits targets : Tensor) (subject_ids : list string)
    (is_training : bool) (self : ScalarLightning) : ScalarLightning * result unit :=
  let metrics :=
    if is_training then train_metric_computers self else val_metric_computers self in
  match compute_targets (is_classification_model self) 0 metrics logits targets subject_ids with
  | (metrics, _, Raise e) =>
      (set_metric_computers is_training self metrics (logged self), Raise e)
  | (metrics, per_subject_outputs, Ok _) =>
      let self := set_metric_computers is_training self metrics (logged self) in
      let data_split := if is_training then TRAIN_value else VAL_value in
      (log_to is_training self
         ((fun output => add_record (subject_record (current_epoch self) data_split output))
            <$> per_subject_outputs),
       Ok tt)
  end.

End Scalar.

Arguments Build_SubjectRecord {Value} _ _ _ _ _ _.
Arguments Epoch {Value} _.
Arguments Patient {Value} _.
Arguments Hue {Value} _.
Arguments ModelOutput {Value} _.
Arguments Label {Value} _.
Arguments DataSplit {Value} _.
Arguments Build_ScalarLightning {Value Metric} _ _ _ _ _ _ _ _.
Arguments train_metric_computers {Value Metric} _.
Arguments val_metric_computers {Value Metric} _.
Arguments train_subject_outputs_logger {Value Metric} _.
Arguments val_subject_outputs_logger {Value Metric} _.
Arguments logged {Value Metric} _.
Arguments current_epoch {Value Metric} _.
Arguments is_classification_model {Value Metric} _.
Arguments is_binary_classification_or_regression {Value Metric} _.
Arguments Build_Masked {Tensor} _ _ _.
Arguments model_outputs_data {Tensor} _.
Arguments labels_data {Tensor} _.
Arguments masked_subject_ids {Tensor} _.
Arguments set_metric_computers {Value Metric} _ _ _ _.
Arguments log_to {Value Metric} _ _ _.
Arguments subject_record {Value} _ _ _.

End ScalarLightningModel.

(** * Vocabulary of the further statements *)

Module ReportVocabulary.
Import ClassificationReport.

Section Vocabulary.

Context {Subject : Type}.

(** [x] is listed before [y] by a sort of the scores in the given direction:
    [y] has no score, or both have one and they are in order. *)
Definition goes_before (asc : bool) (x y : PredictedRow (Subject := Subject)) : Prop :=
  is_nan (score y) = true
  \/ (is_nan (score x) = false
      /\ if asc then score_le x y else score_le y x).

End Vocabulary.

Section Lines.

Import ReportPrinting.

Context {Subject : Type}.

Variable format_float : string -> float -> string.
Variable format_subject : Subject -> string.

(** The line [print_k_best_and_worst_performing] prints for the row at
    position [index] of a table, and the lines of one of its four parts: the
    title at level 2, then the rows of the table, numbered from 1. *)
Definition entry_line (index : nat) (r : PredictedRow (Subject := Subject)) : Header :=
  (pretty (index + 1) +:+ ". ID " +:+ format_subject (Patient (row r))
   +:+ " Score: " +:+ format_float ".5f" (ModelOutput (row r)), 4%Z).

Definition part_lines (k : Z) (name : string) (rows : list (PredictedRow (Subject := Subject)))
  : list Header :=
  ("Top " +:+ pretty k +:+ " " +:+ name, 2%Z) :: imap entry_line rows.

End Lines.

End ReportVocabulary.

(** * Vocabulary of the statements about the lookups *)

Module LookupVocabulary.
Import DatasetLookup.

(** The rows that hold [value] in [column]. *)
Definition rows_of (column value : string) (rows : list (gmap string string))
  : list (gmap string string) :=
  filter (fun r => r !! column = Some value) rows.

(** The rows [get_image_filepath_from_subject_id] reads the paths from: the
    rows of the subject, among the rows of the image channels when the
    configuration names image channels and the table has the channel
    column, among all rows otherwise. *)
Definition image_rows (subject_id : string) (dataset_df : Frame) (config : ScalarModelBase)
  : list (gmap string string) :=
  rows_of (subject_column config) subject_id
    (if bool_decide (image_channels config <> [])
        && has_column dataset_df (channel_column config)
     then filter (fun r => cell_isin (image_channels config) (r !! channel_column config))
            (rows dataset_df)
     else rows dataset_df).

(** The rows [get_image_labels_from_subject_id] reads the label from: the
    rows of the subject, among the rows of the label channel when the
    configuration names one and the table has the channel column. *)
Definition label_rows (subject_id : string) (dataset_df : Frame) (config : ScalarModelBase)
  : list (gmap string string) :=
  rows_of (subject_column config) subject_id
    (match label_channels config with
     | label_channel :: _ =>
         if has_column dataset_df (channel_column config)
         then rows_of (channel_column config) label_channel (rows dataset_df)
         else rows dataset_df
     | [] => rows dataset_df
     end).

End LookupVocabulary.

(** * Tables of the test suite for the lookups *)

Module LookupFixtures.
Import DatasetLookup.

(** The table of
    [test_get_image_filepath_from_subject_id_with_image_channels]. *)
Definition dataset_with_image_channels : Frame :=
  {| columns := ["subject"; "channel"; "filePath"];
     rows :=
       [ {[ "subject" := "0"; "channel" := "channel1"; "filePath" := "image.npy" ]};
         {[ "subject" := "0"; "channel" := "channel2" ]};
         {[ "subject" := "1"; "channel" := "channel1"; "filePath" := "image.npy" ]};
         {[ "subject" := "1"; "channel" := "channel2" ]} ] |}.

(** The table of [test_image_labels_from_subject_id_with_label_channels]. *)
Definition dataset_with_label_channels : Frame :=
  {| columns := ["subject"; "channel"; "label"];
     rows :=
       [ {[ "subject" := "0"; "channel" := "channel1"; "label" := "0" ]};
         {[ "subject" := "0"; "channel" := "channel2" ]};
         {[ "subject" := "1"; "channel" := "channel1"; "label" := "1" ]};
         {[ "subject" := "1"; "channel" := "channel2" ]} ] |}.

(** The configurations of these tests: the column names and the single
    class name are the defaults the tests rely on. *)
Definition config_with_channels (image_channels label_channels : list string)
  : ScalarModelBase :=
  {| image_channels := image_channels;
     label_channels := label_channels;
     channel_column := "channel";
     subject_column := "subject";
     image_file_column := "filePath";
     label_value_column := "label";
     class_names := ["Default"];
     is_classification_model := true |}.

(** Paths as strings. *)
Definition join (dataset_dir filepath : string) : string :=
  dataset_dir +:+ "/" +:+ filepath.

(** A stand-in for [extract_label_classification] on a single class: the
    vector of a binary label. *)
Definition binary_label_vector (label_string : Cell) (sample_id : string)
    (num_classes : nat) (is_classification_dataset : bool) : result (list float) :=
  if bool_decide (label_string = Some "1") then Ok [f1] else Ok [f0].

(** The first rows of the table of [test_get_image_outputs_from_subject_id]. *)
Definition metrics_with_hues : Frame :=
  {| columns := ["prediction_target"; "subject"; "model_output"];
     rows :=
       [ {[ "prediction_target" := "Hue1"; "subject" := "0"; "model_output" := "0.1" ]};
         {[ "prediction_target" := "Hue2"; "subject" := "0"; "model_output" := "0.1" ]};
         {[ "prediction_target" := "Hue1"; "subject" := "1"; "model_output" := "0.1" ]};
         {[ "prediction_target" := "Hue2"; "subject" := "1"; "model_output" := "0.9" ]} ] |}.

(** A stand-in for [float] on the strings of that table. *)
Definition float_of_decimal (s : string) : result float :=
  if bool_decide (s = "0.1") then Ok (Fin 0.1)
  else if bool_decide (s = "0.9") then Ok (Fin 0.9)
  else Raise (ValueError ("could not convert string to float: " +:+ s)).

End LookupFixtures.

(** * Vocabulary of the statements about the scalar model *)

Module ScalarVocabulary.
Import ScalarLightningModel.

Section Vocabulary.

Variables Value Metric : Type.
Variable metric_name : Metric -> string.
Variable has_predictions : Metric -> bool.
Variable compute : Metric -> Metric * result Value.
Variable reset : Metric -> Metric.
Variable DEFAULT_HUE_KEY : string.

(** The metric computers and the logger of a phase. *)
Definition metric_computers_of (is_training : bool) (self : ScalarLightning Value Metric)
  : list (string * list Metric) :=
  if is_training then train_metric_computers self else val_metric_computers self.

Definition subject_outputs_logger_of (is_training : bool)
    (self : ScalarLightning Value Metric) : list (LoggerCall (SubjectRecord Value)) :=
  if is_training then train_subject_outputs_logger self
  else val_subject_outputs_logger self.

(** Two dictionaries of metric computers with the same prediction targets
    in the same order, and as many metrics for each. *)
Definition same_shape (computers computers' : list (string * list Metric)) : Prop :=
  Forall2 (fun p p' => p.1 = p'.1 /\ length p.2 = length p'.2) computers computers'.

(** A metric once the epoch has ended: computed and reset if it had
    predictions, as it was otherwise. *)
Definition after_epoch_end (metric : Metric) : Metric :=
  if has_predictions metric then reset (compute metric).1 else metric.

(** What the epoch end logs for a metric: nothing without predictions, the
    computed value under the name of the metric between the prefix of the
    phase and the suffix of the target otherwise. *)
Definition logged_entry (prefix target_suffix : string) (metric : Metric)
  : option (string * Value) :=
  if has_predictions metric then
    match (compute metric).2 with
    | Ok value => Some (prefix +:+ metric_name metric +:+ target_suffix, value)
    | Raise _ => None
    end
  else None.

Definition epoch_entries (prefix : string) (binary : bool)
    (computers : list (string * list Metric)) : list (string * Value) :=
  concat ((fun p : string * list Metric =>
             omap (logged_entry prefix (target_suffix_of DEFAULT_HUE_KEY binary p.1)) p.2)
            <$> computers).

(** The name of a logged value starts with the prefix. *)
Definition starts_with (prefix : string) (entry : string * Value) : Prop :=
  exists rest, entry.1 = prefix +:+ rest.

End Vocabulary.

Arguments starts_with {Value} _ _.
Arguments metric_computers_of {Value Metric} _ _.
Arguments subject_outputs_logger_of {Value Metric} _ _.
Arguments same_shape {Metric} _ _.

End ScalarVocabulary.

(** * A small scalar model for the examples *)

Module ScalarFixtures.
Import ScalarLightningModel.

(** A metric computer as its name and the value it has accumulated, if
    any; values are integers. *)
Definition Metric : Type := string * option Z.

Definition metric_name (metric : Metric) : string := metric.1.
Definition has_predictions (metric : Metric) : bool := bool_decide (is_Some metric.2).
Definition compute (metric : Metric) : Metric * result Z :=
  (metric,
   match metric.2 with
   | Some value => Ok value
   | None => Raise (ValueError "no predictions")
   end).
Definition reset (metric : Metric) : Metric := (metric.1, None).

(** A base class whose epoch end does nothing. *)
Definition base_epoch_end (is_training : bool) (self : ScalarLightning Z Metric)
  : ScalarLightning Z Metric * result unit := (self, Ok tt).

(** A sequence model with two targets in the middle of an epoch: the second
    target has seen no prediction. *)
Definition scalar_model : ScalarLightning Z Metric :=
  {| train_metric_computers :=
       [("Seq_pos 0", [("accuracy", Some 1%Z); ("auc", Some 2%Z)]);
        ("Seq_pos 1", [("accuracy", None); ("auc", None)])];
     val_metric_computers :=
       [("Seq_pos 0", [("accuracy", Some 3%Z); ("auc", None)]);
        ("Seq_pos 1", [("accuracy", None); ("auc", None)])];
     train_subject_outputs_logger := [];
     val_subject_outputs_logger := [];
     logged := [];
     current_epoch := 0;
     is_classification_model := true;
     is_binary_classification_or_regression := false |}.

End ScalarFixtures.

(** * Facts about floats *)

Module FloatFacts.

Lemma Qle_bool_false (a b : Q) : Qle_bool a b = false <-> (b < a)%Q.
Proof.
  rewrite <- not_true_iff_false, Qle_bool_iff. split; intros; lra.
Qed.

Ltac float_order :=
  repeat match goal with x : float |- _ => destruct x end;
  unfold float_eqb, float_lt, float_ge, truthy, f0, f1, of_Z in *; simpl in *;
  rewrite ?negb_true_iff, ?negb_false_iff, ?andb_true_iff, ?andb_false_iff,
    ?Qle_bool_false, ?Qle_bool_iff in *;
  try (unfold inject_Z in *); try first [ done | lra | tauto | intuition lra ].

Lemma float_le_total (x y : float) :
  is_nan x = false -> is_nan y = false -> float_le x y = false -> float_le y x = true.
Proof. float_order. Qed.

Lemma float_le_trans (x y z : float) :
  float_le x y = true -> float_le y z = true -> float_le x z = true.
Proof. float_order. Qed.

Lemma float_le_not_nan (x y : float) :
  float_le x y = true -> is_nan x = false /\ is_nan y = false.
Proof. float_order. Qed.

Lemma float_lt_le_false (x y : float) :
  float_lt x y = true -> float_le y x = false.
Proof. float_order. Qed.

Lemma float_lt_keep (best x y : float) :
  float_lt best x = true -> float_lt best y = false -> float_lt x y = false.
Proof. float_order. Qed.

Lemma float_lt_before (best x y : float) :
  float_lt best x = true -> float_lt best y = false -> float_le x y = false.
Proof. float_order. Qed.

Lemma float_lt_irrefl (x : float) : float_lt x x = false.
Proof. float_order. Qed.

Lemma float_eqb_0_1 (x : float) : float_eqb x f0 = true -> float_eqb x f1 = true -> False.
Proof. float_order. Qed.

Lemma float_eqb_refl (x : float) : is_nan x = false -> float_eqb x x = true.
Proof. float_order. Qed.

Lemma float_eqb_sym (x y : float) : float_eqb x y = float_eqb y x.
Proof. unfold float_eqb. apply andb_comm. Qed.

Lemma float_eqb_trans (x y z : float) :
  float_eqb x y = true -> float_eqb y z = true -> float_eqb x z = true.
Proof. float_order. Qed.

Lemma float_ge_eq (x y : float) : float_eqb x y = true -> float_ge x y = true.
Proof. float_order. Qed.

Lemma truthy_false_iff (x : float) : truthy x = false <-> float_eqb x f0 = true.
Proof. unfold truthy. rewrite negb_false_iff. done. Qed.

Lemma float_le_eqb_lt (x y : float) :
  float_le x y = true -> float_eqb x y = false -> float_lt x y = true.
Proof. float_order. Qed.

Lemma float_lt_eqb (x y : float) : float_lt x y = true -> float_eqb x y = false.
Proof. float_order. Qed.

Lemma float_lt_asym (x y : float) : float_lt x y = true -> float_lt y x = true -> False.
Proof. float_order. Qed.

Lemma float_lt_le (x y : float) : float_lt x y = true -> float_le x y = true.
Proof. float_order. Qed.

Lemma float_lt_total (x y : float) :
  is_nan x = false -> is_nan y = false -> float_lt x y = false -> float_le y x = true.
Proof. float_order. Qed.

End FloatFacts.

(** * The insertion sorts are implementations of [Numpy] *)

Module NumpyFacts.
Import ClassificationReport NumpyModel FloatFacts.

Section Insertion.

(** The test of the insertion: it holds only between entries in order, and
    fails only between entries the other way round. *)
Variable before : float -> float -> bool.
Hypothesis before_le : forall x y, before x y = true -> float_le x y = true.
Hypothesis before_total :
  forall x y, is_nan x = false -> is_nan y = false -> before x y = false ->
              float_le y x = true.

Abbreviation entry_le := (fun e e' : entry => float_le e.1 e'.1 = true).

Lemma insert_entry_perm (x : entry) (l : list entry) :
  insert_entry before x l ≡ₚ x :: l.
Proof.
  induction l as [|y l IH]; [done|]. simpl.
  destruct (before x.1 y.1); [done|].
  rewrite IH. apply Permutation_swap.
Qed.

Lemma insertion_perm (l : list entry) : foldr (insert_entry before) [] l ≡ₚ l.
Proof.
  induction l as [|x l IH]; [done|]. simpl. by rewrite insert_entry_perm, IH.
Qed.

Lemma insert_entry_Sorted (x : entry) (l : list entry) :
  is_nan x.1 = false ->
  Forall (fun e : entry => is_nan e.1 = false) l ->
  Sorted entry_le l -> Sorted entry_le (insert_entry before x l).
Proof.
  intros Hx Hl Hs. induction l as [|y l IH]; simpl.
  - repeat constructor.
  - apply Forall_cons in Hl as [Hy Hl].
    destruct (before x.1 y.1) eqn:Hle.
    + constructor; [done|]. constructor. by apply before_le.
    + pose proof (before_total _ _ Hx Hy Hle) as Hyx.
      apply Sorted_inv in Hs as [Hs Hhd].
      constructor; [by apply IH|].
      destruct l as [|z l]; simpl.
      * by constructor.
      * apply HdRel_inv in Hhd.
        destruct (before x.1 z.1); by constructor.
Qed.

Lemma insertion_Sorted (l : list entry) :
  Forall (fun e : entry => is_nan e.1 = false) l ->
  Sorted entry_le (foldr (insert_entry before) [] l).
Proof.
  induction l as [|x l IH]; intros Hl; simpl.
  - constructor.
  - apply Forall_cons in Hl as [Hx Hl].
    apply insert_entry_Sorted; [done| |by apply IH].
    by rewrite insertion_perm.
Qed.

Lemma entries_from (k : nat) (a : list float) :
  (fun e : entry => e.2) <$> imap (fun i x => (x, k + i)) a = seq k (length a)
  /\ (fun e : entry => e.1) <$> imap (fun i x => (x, k + i)) a = a.
Proof.
  revert k. induction a as [|x a IH]; intros k; [done|].
  rewrite imap_cons.
  rewrite (imap_ext _ (fun i x => (x, S k + i)) a)
    by (intros i y _; cbn; f_equal; lia).
  destruct (IH (S k)) as [Hsnd Hfst]. cbn [fmap list_fmap length seq].
  rewrite Nat.add_0_r. split; f_equal; [exact Hsnd|exact Hfst].
Qed.

Lemma entries_positions (a : list float) :
  (fun e : entry => e.2) <$> entries a = seq 0 (length a)
  /\ (fun e : entry => e.1) <$> entries a = a.
Proof. apply (entries_from 0 a). Qed.

Lemma entries_lookup (a : list float) :
  Forall (fun e : entry => a !! e.2 = Some e.1) (entries a).
Proof.
  apply Forall_forall. intros [x i] Hin.
  apply list_elem_of_lookup in Hin as [j Hj]. unfold entries in Hj.
  rewrite list_lookup_imap in Hj.
  destruct (a !! j) as [y|] eqn:Hy; [|done]. by injection Hj as <- <-.
Qed.

Lemma omap_entries (a : list float) (l : list entry) :
  Forall (fun e : entry => a !! e.2 = Some e.1) l ->
  omap (fun i => a !! i) ((fun e : entry => e.2) <$> l) = (fun e : entry => e.1) <$> l.
Proof.
  induction 1 as [|e l He _ IH]; [done|]. cbn. rewrite He. cbn. by rewrite IH.
Qed.

Lemma argsort_by_insertion_permutation (a : list float) :
  argsort_by_insertion before a ≡ₚ seq 0 (length a).
Proof.
  unfold argsort_by_insertion. rewrite insertion_perm.
  by destruct (entries_positions a) as [-> _].
Qed.

Lemma argsort_by_insertion_sorted (a : list float) :
  Forall (fun x => is_nan x = false) a ->
  Sorted (fun x y => float_le x y = true)
    (omap (fun i => a !! i) (argsort_by_insertion before a)).
Proof.
  intros Ha. unfold argsort_by_insertion.
  rewrite omap_entries
    by (rewrite insertion_perm; apply entries_lookup).
  assert (Forall (fun e : entry => is_nan e.1 = false) (entries a)) as Hentries.
  { destruct (entries_positions a) as [_ Hfst].
    rewrite <- Hfst in Ha. by apply Forall_fmap in Ha. }
  pose proof (insertion_Sorted _ Hentries) as Hsorted.
  induction Hsorted as [|e l _ IH Hhd]; [constructor|].
  cbn. constructor; [exact IH|].
  destruct Hhd; cbn; by constructor.
Qed.

End Insertion.

(** The stable insertion sort, and the one that swaps equal entries. *)
Definition np_model : Numpy :=
  {| ndarray_argsort := argsort_by_insertion float_le;
     ndarray_argsort_permutation := argsort_by_insertion_permutation float_le;
     ndarray_argsort_sorted :=
       argsort_by_insertion_sorted float_le (fun x y H => H) float_le_total |}.

Definition np_swapping : Numpy :=
  {| ndarray_argsort := argsort_by_insertion float_lt;
     ndarray_argsort_permutation := argsort_by_insertion_permutation float_lt;
     ndarray_argsort_sorted :=
       argsort_by_insertion_sorted float_lt float_lt_le float_lt_total |}.

End NumpyFacts.

(** * Facts about the report *)

Module ReportFacts.
Import ClassificationReport FloatFacts.

Section Sorting.

Context {Subject : Type}.
Variable np : Numpy.
Abbreviation PRow := (PredictedRow (Subject := Subject)).
Implicit Types (x y : PRow) (l df : list PRow).

(** The scores are in strict order, and the scores differ. *)
Abbreviation score_lt := (fun x y : PRow => float_lt (score x) (score y) = true).
Abbreviation differ := (fun x y : PRow => float_eqb (score x) (score y) = false).

Lemma omap_lookup_seq {A} (pre l : list A) :
  omap (fun i => (pre ++ l) !! i) (seq (length pre) (length l)) = l.
Proof.
  revert pre. induction l as [|x l IH]; intros pre; [done|].
  cbn [length seq omap list_omap]. rewrite list_lookup_middle by done.
  f_equal. specialize (IH (pre ++ [x])).
  rewrite length_app, Nat.add_1_r, <- app_assoc in IH. exact IH.
Qed.

Lemma take_rows_perm l (indexer : list nat) :
  indexer ≡ₚ seq 0 (length l) -> take_rows l indexer ≡ₚ l.
Proof.
  intros Hperm. unfold take_rows. rewrite Hperm.
  assert (omap (fun i => l !! i) (seq 0 (length l)) = l) as ->; [|done].
  apply (omap_lookup_seq [] l).
Qed.

Lemma argsort_perm l : argsort np l ≡ₚ l.
Proof.
  apply take_rows_perm.
  by rewrite ndarray_argsort_permutation, length_fmap.
Qed.

Lemma score_take_rows l (indexer : list nat) :
  score <$> take_rows l indexer = omap (fun i => (score <$> l) !! i) indexer.
Proof.
  unfold take_rows. induction indexer as [|i indexer IH]; [done|].
  cbn. rewrite list_lookup_fmap. destruct (l !! i); cbn; by rewrite IH.
Qed.

Lemma Sorted_score l :
  Sorted (fun a b => float_le a b = true) (score <$> l) -> Sorted score_le l.
Proof.
  induction l as [|x l IH]; [constructor|].
  rewrite fmap_cons. intros Hs. apply Sorted_inv in Hs as [Hs Hhd].
  constructor; [by apply IH|].
  destruct l as [|y l]; constructor. by apply HdRel_inv in Hhd.
Qed.

Lemma argsort_Sorted l :
  Forall (fun r => is_nan (score r) = false) l -> Sorted score_le (argsort np l).
Proof.
  intros Hl. apply Sorted_score. unfold argsort. rewrite score_take_rows.
  apply ndarray_argsort_sorted. by apply Forall_fmap.
Qed.

#[local] Instance score_le_transitive : Transitive (score_le (Subject := Subject)).
Proof. intros x y z. unfold score_le. apply float_le_trans. Qed.

#[local] Instance score_lt_antisymm : AntiSymm (=) score_lt.
Proof. intros x y Hxy Hyx. destruct (float_lt_asym _ _ Hxy Hyx). Qed.

Lemma differ_perm l l' : l ≡ₚ l' -> StronglySorted differ l -> StronglySorted differ l'.
Proof.
  induction 1 as [|x l l' Hperm IH|x y l|l l' l'' _ IH1 _ IH2]; intros Hl.
  - constructor.
  - apply StronglySorted_inv in Hl as [Hl Hx].
    constructor; [by apply IH|]. by rewrite <- Hperm.
  - apply StronglySorted_inv in Hl as [Hl Hy].
    apply StronglySorted_inv in Hl as [Hl Hx].
    apply Forall_cons in Hy as [Hyx Hy].
    repeat constructor; [done..| |done].
    cbn in *. by rewrite float_eqb_sym.
  - by apply IH2, IH1.
Qed.

Lemma Sorted_differ_lt l :
  Sorted score_le l -> StronglySorted differ l -> StronglySorted score_lt l.
Proof.
  intros Hle Hne. apply Sorted_StronglySorted in Hle; [|apply _].
  induction l as [|x l IH]; [constructor|].
  apply StronglySorted_inv in Hle as [Hle Hx].
  apply StronglySorted_inv in Hne as [Hne Hx'].
  constructor; [by apply IH|].
  rewrite Forall_forall in *. intros y Hy.
  apply float_le_eqb_lt; [by apply Hx|by apply Hx'].
Qed.

Lemma score_lt_differ l : StronglySorted score_lt l -> StronglySorted differ l.
Proof.
  induction 1 as [|x l _ IH Hx]; constructor; [done|].
  eapply Forall_impl; [exact Hx|]. intros y. apply float_lt_eqb.
Qed.

(** A table in strict order has one sorted arrangement only. *)
Lemma sorted_unique l l' :
  Sorted score_le l' -> l' ≡ₚ l -> StronglySorted score_lt l -> l' = l.
Proof.
  intros Hsorted Hperm Hl.
  apply (StronglySorted_unique score_lt); [|done..].
  apply Sorted_differ_lt; [done|].
  apply (differ_perm l); [done|]. by apply score_lt_differ.
Qed.

Lemma argsort_sorted l :
  Forall (fun r => is_nan (score r) = false) l ->
  StronglySorted score_lt l -> argsort np l = l.
Proof.
  intros Hl Hs. apply sorted_unique; [by apply argsort_Sorted|apply argsort_perm|done].
Qed.

Lemma Sorted_take n l : Sorted score_le l -> Sorted score_le (take n l).
Proof.
  revert n. induction l as [|x l IH]; intros [|n] Hs; simpl; [constructor..|].
  apply Sorted_inv in Hs as [Hs Hhd]. constructor; [by apply IH|].
  destruct l as [|y l]; [by destruct n; constructor|].
  destruct n; simpl; constructor. by apply HdRel_inv in Hhd.
Qed.

Lemma Sorted_drop n l : Sorted score_le l -> Sorted score_le (drop n l).
Proof.
  revert l. induction n as [|n IH]; intros [|x l] Hs; simpl; try done.
  apply IH. by apply Sorted_inv in Hs as [? _].
Qed.

Lemma filter_Forall_id {A} (P : A -> Prop) `{forall a, Decision (P a)} (l : list A) :
  Forall P l -> filter P l = l.
Proof.
  induction 1 as [|a l Ha _ IH]; [done|]. by rewrite filter_cons_True, IH.
Qed.

Lemma filter_Forall_nil {A} (P : A -> Prop) `{forall a, Decision (P a)} (l : list A) :
  Forall (fun a => ~ P a) l -> filter P l = [].
Proof.
  induction 1 as [|a l Ha _ IH]; [done|]. by rewrite filter_cons_False.
Qed.

Lemma filter_scored_app (scored unscored : list PRow) :
  Forall (fun r => is_nan (score r) = false) scored ->
  Forall (fun r => is_nan (score r) = true) unscored ->
  filter (fun r => is_nan (score r) = false) (scored ++ unscored) = scored
  /\ filter (fun r => is_nan (score r) = true) (scored ++ unscored) = unscored.
Proof.
  intros Hs Hu. rewrite !filter_app. split.
  - rewrite (filter_Forall_id _ _ Hs), filter_Forall_nil; [by rewrite app_nil_r|].
    eapply Forall_impl; [exact Hu|]. simpl. congruence.
  - rewrite (filter_Forall_id _ _ Hu), filter_Forall_nil; [done|].
    eapply Forall_impl; [exact Hs|]. simpl. congruence.
Qed.

Lemma Forall_filter_scored l :
  Forall (fun r => is_nan (score r) = false) (filter (fun r => is_nan (score r) = false) l).
Proof. apply Forall_forall. intros x Hx. by apply list_elem_of_filter in Hx as [? _]. Qed.

Lemma Forall_filter_unscored l :
  Forall (fun r => is_nan (score r) = true) (filter (fun r => is_nan (score r) = true) l).
Proof. apply Forall_forall. intros x Hx. by apply list_elem_of_filter in Hx as [? _]. Qed.

Lemma filter_scored_unscored l :
  filter (fun r => is_nan (score r) = false) l
    ++ filter (fun r => is_nan (score r) = true) l ≡ₚ l.
Proof.
  induction l as [|x l IH]; [done|].
  rewrite !filter_cons. destruct (is_nan (score x)) eqn:Hx; simpl.
  - destruct (decide (true = false)) as [|_]; [done|].
    destruct (decide (true = true)) as [_|]; [|done].
    by rewrite <- Permutation_middle, IH.
  - destruct (decide (false = false)) as [_|]; [|done].
    destruct (decide (false = true)) as [|_]; [done|].
    simpl. by rewrite IH.
Qed.

Lemma sorted_either_way_perm (asc : bool) l :
  (if asc then argsort np l else reverse (argsort np (reverse l))) ≡ₚ l.
Proof.
  destruct asc; [apply argsort_perm|].
  by rewrite reverse_Permutation, argsort_perm, reverse_Permutation.
Qed.

Lemma sort_values_perm asc df : sort_values np asc df ≡ₚ df.
Proof.
  unfold sort_values. rewrite sorted_either_way_perm. apply filter_scored_unscored.
Qed.

Lemma length_sort_values asc df : length (sort_values np asc df) = length df.
Proof. by rewrite sort_values_perm. Qed.

Lemma sort_values_in_order asc df : in_order asc (sort_values np asc df).
Proof.
  eexists _, (filter (fun r => is_nan (score r) = true) df).
  split; [reflexivity|]. split; [|split].
  - rewrite sorted_either_way_perm. apply Forall_filter_scored.
  - apply Forall_filter_unscored.
  - destruct asc.
    + apply argsort_Sorted, Forall_filter_scored.
    + rewrite reverse_involutive. apply argsort_Sorted.
      rewrite reverse_Permutation. apply Forall_filter_scored.
Qed.

(** Sorting a table that is in order and has no two equal scores gives the
    table back, whatever the sort does with equal scores. *)
Lemma in_order_sort_values asc df :
  in_order asc df -> StronglySorted differ df -> sort_values np asc df = df.
Proof.
  intros (scored & unscored & -> & Hs & Hu & Hsorted) Hdiffer.
  apply StronglySorted_app_1_l in Hdiffer.
  unfold sort_values. destruct (filter_scored_app _ _ Hs Hu) as [-> ->].
  f_equal. destruct asc.
  - apply argsort_sorted; [done|]. by apply Sorted_differ_lt.
  - rewrite argsort_sorted; [apply reverse_involutive| |].
    + by rewrite reverse_Permutation.
    + apply Sorted_differ_lt; [done|].
      apply (differ_perm scored); [|done]. by rewrite reverse_Permutation.
Qed.

Lemma in_order_take asc n df : in_order asc df -> in_order asc (take n df).
Proof.
  intros (scored & unscored & -> & Hs & Hu & Hsorted).
  exists (take n scored), (take (n - length scored) unscored).
  split; [apply take_app|]. split; [by apply Forall_take|]. split; [by apply Forall_take|].
  destruct asc.
  - by apply Sorted_take.
  - rewrite reverse_take. by apply Sorted_drop.
Qed.

Lemma in_order_head asc k df : in_order asc df -> in_order asc (head k df).
Proof. intros Hdf. unfold head. destruct (0 <=? k)%Z; by apply in_order_take. Qed.

Lemma differ_take n df : StronglySorted differ df -> StronglySorted differ (take n df).
Proof.
  intros Hdf. rewrite <- (take_drop n df) in Hdf.
  by apply StronglySorted_app_1_l in Hdf.
Qed.

Lemma differ_head k df : StronglySorted differ df -> StronglySorted differ (head k df).
Proof. intros Hdf. unfold head. destruct (0 <=? k)%Z; by apply differ_take. Qed.

Lemma sort_values_head asc k df :
  StronglySorted differ df ->
  sort_values np asc (head k (sort_values np asc df)) = head k (sort_values np asc df).
Proof.
  intros Hdf. apply in_order_sort_values.
  - apply in_order_head, sort_values_in_order.
  - apply differ_head. apply (differ_perm df); [|done]. by rewrite sort_values_perm.
Qed.

Lemma head_head k df : (0 <= k)%Z -> head k (head k df) = head k df.
Proof.
  intros Hk. unfold head. destruct (0 <=? k)%Z eqn:E; [|lia].
  rewrite take_take. f_equal. lia.
Qed.

Lemma head_prefix k' k df :
  (k' <= k)%Z -> (0 <= k' \/ k < 0)%Z -> head k' df `prefix_of` head k df.
Proof.
  intros Hle Hsign. unfold head.
  assert (forall n m, n <= m -> take n df `prefix_of` take m df) as Htake.
  { intros n m Hnm. replace (take n df) with (take n (take m df)).
    - apply prefix_take.
    - rewrite take_take. f_equal. lia. }
  destruct (0 <=? k')%Z eqn:E1, (0 <=? k)%Z eqn:E2; try lia; apply Htake; lia.
Qed.

Lemma head_ge k df : (Z.of_nat (length df) <= k)%Z -> head k df = df.
Proof.
  intros Hk. unfold head. destruct (0 <=? k)%Z eqn:E; [|lia].
  apply take_ge. lia.
Qed.

Lemma head_0 df : head 0 df = [].
Proof. done. Qed.

Lemma head_negative k df :
  (k < 0)%Z -> head k df = take (length df - Z.to_nat (- k)) df.
Proof. intros Hk. unfold head. destruct (0 <=? k)%Z eqn:E; [lia|done]. Qed.

End Sorting.

Section Claims.

Context {Subject : Type} `{EqDecision Subject}.
Variable sk : Sklearn.
Variable np : Numpy.
Variable binary_classification_accuracy : list float -> list float -> float -> result float.
Variable Patient_column : string.

Abbreviation Row' := (Row (Subject := Subject)).
Abbreviation Frame := (list Row').
Implicit Types (csv csv_val csv_test df : Frame) (hue : string) (t : float).

(** ** Reading a table *)

Lemma read_csv_unique csv hue :
  NoDup (Patient <$> filter (fun r => Hue r = hue) csv) ->
  read_csv_and_filter_hue Patient_column csv hue = Ok (filter (fun r => Hue r = hue) csv).
Proof.
  intros Hnd. unfold read_csv_and_filter_hue, is_unique.
  by rewrite bool_decide_eq_true_2.
Qed.

Lemma read_csv_not_unique csv hue :
  ~ NoDup (Patient <$> filter (fun r => Hue r = hue) csv) ->
  read_csv_and_filter_hue Patient_column csv hue
  = Raise (ValueError (duplicate_subjects_message Patient_column)).
Proof.
  intros Hnd. unfold read_csv_and_filter_hue, is_unique.
  by rewrite bool_decide_eq_false_2.
Qed.

Lemma has_duplicate_subject_not_unique df :
  has_duplicate_subject df -> ~ NoDup (Patient <$> df).
Proof.
  intros (i & j & ri & rj & Hij & Hi & Hj & Heq) Hnd.
  apply Hij. eapply NoDup_lookup; [exact Hnd| |].
  - rewrite list_lookup_fmap, Hi. reflexivity.
  - rewrite list_lookup_fmap, Hj. simpl. by rewrite Heq.
Qed.

Lemma read_csv_returns_filter csv hue df :
  read_csv_and_filter_hue Patient_column csv hue = Ok df ->
  df = filter (fun r => Hue r = hue) csv /\ NoDup (Patient <$> df).
Proof.
  unfold read_csv_and_filter_hue, is_unique. case_bool_decide as Hnd; simpl; [|done].
  intros [= <-]. done.
Qed.

(** ** The Youden index *)

Lemma argmax_from_spec (a pre : list float) (best_i : nat) (best : float) :
  pre !! best_i = Some best ->
  (forall j x, pre !! j = Some x -> float_lt best x = false) ->
  (forall j x, j < best_i -> pre !! j = Some x -> float_le best x = false) ->
  exists b,
    (pre ++ a) !! argmax_from best_i best (length pre) a = Some b
    /\ (forall j x, (pre ++ a) !! j = Some x -> float_lt b x = false)
    /\ (forall j x, j < argmax_from best_i best (length pre) a ->
                    (pre ++ a) !! j = Some x -> float_le b x = false).
Proof.
  revert pre best_i best. induction a as [|x a IH]; intros pre best_i best Hbest Hmax Hfirst.
  - rewrite app_nil_r. by exists best.
  - simpl. replace (pre ++ x :: a) with ((pre ++ [x]) ++ a) by by rewrite <- app_assoc.
    replace (S (length pre)) with (length (pre ++ [x])) by (rewrite length_app; simpl; lia).
    destruct (float_lt best x) eqn:Hlt.
    + apply IH.
      * by apply list_lookup_middle.
      * intros j y Hy. apply lookup_app_Some in Hy as [Hy|[_ Hy]].
        -- eapply float_lt_keep; [exact Hlt|]. by eapply Hmax.
        -- apply list_lookup_singleton_Some in Hy as [_ <-]. apply float_lt_irrefl.
      * intros j y Hj Hy. rewrite lookup_app_l in Hy by lia.
        eapply float_lt_before; [exact Hlt|]. by eapply Hmax.
    + pose proof (lookup_lt_Some _ _ _ Hbest) as Hlen. apply IH.
      * by rewrite lookup_app_l.
      * intros j y Hy. apply lookup_app_Some in Hy as [Hy|[_ Hy]].
        -- by eapply Hmax.
        -- by apply list_lookup_singleton_Some in Hy as [_ <-].
      * intros j y Hj Hy. rewrite lookup_app_l in Hy by lia. by eapply Hfirst.
Qed.

Lemma get_optimal_idx_youden (fpr tpr : list float) :
  0 < length tpr -> length fpr = length tpr ->
  youden_optimal fpr tpr (get_optimal_idx fpr tpr)
  /\ get_optimal_idx fpr tpr < length tpr.
Proof.
  intros Hpos Hlen. unfold youden_optimal, get_optimal_idx.
  assert (length (zip_with float_sub tpr fpr) = length tpr) as Hd
    by (rewrite length_zip_with; lia).
  destruct (zip_with float_sub tpr fpr) as [|d0 d] eqn:Hzip; [simpl in Hd; lia|].
  unfold argmax.
  destruct (argmax_from_spec d [d0] 0 d0) as (b & Hb & Hmax & Hfirst); simpl.
  - done.
  - intros [|j] x [= <-]. apply float_lt_irrefl.
  - intros j x Hj. lia.
  - simpl in *. split; [by exists b|].
    apply lookup_lt_Some in Hb. simpl in *. lia.
Qed.

(** ** The partition of the test table *)

Lemma set_predicted_nonempty t df :
  df <> [] ->
  set_predicted t df
  = Ok ((fun x => {| row := x; predicted := predict t x |}) <$> df).
Proof. by destruct df. Qed.

Lemma set_predicted_Ok t df (rows : list (PredictedRow (Subject := Subject))) :
  set_predicted t df = Ok rows ->
  df <> [] /\ rows = (fun x => {| row := x; predicted := predict t x |}) <$> df.
Proof. destruct df; [done|]. by intros [= <-]. Qed.

Lemma get_correct_and_misclassified_examples_eq csv_val csv_test hue fpr tpr thresholds t :
  NoDup (Patient <$> filter (fun r => Hue r = hue) csv_val) ->
  NoDup (Patient <$> filter (fun r => Hue r = hue) csv_test) ->
  filter (fun r => Hue r = hue) csv_test <> [] ->
  roc_curve sk (Label <$> filter (fun r => Hue r = hue) csv_val)
               (ModelOutput <$> filter (fun r => Hue r = hue) csv_val)
  = Ok (fpr, tpr, thresholds) ->
  thresholds !! get_optimal_idx fpr tpr = Some t ->
  get_correct_and_misclassified_examples sk Patient_column csv_val csv_test hue
  = Ok (confusion_tables t (filter (fun r => Hue r = hue) csv_test)).
Proof.
  intros Hval Htest Hrows Hroc Ht. unfold get_correct_and_misclassified_examples.
  rewrite (read_csv_unique _ _ Hval). simpl. rewrite Hroc. simpl.
  unfold index, item_or. rewrite Ht. simpl.
  rewrite (read_csv_unique _ _ Htest). simpl.
  by rewrite (set_predicted_nonempty _ _ Hrows).
Qed.

(** Whatever the call returns is the partition of the filtered test table at
    a threshold of the validation curve. *)
Lemma get_correct_and_misclassified_examples_inv csv_val csv_test hue results :
  get_correct_and_misclassified_examples sk Patient_column csv_val csv_test hue = Ok results ->
  exists fpr tpr thresholds t,
    roc_curve sk (Label <$> filter (fun r => Hue r = hue) csv_val)
                 (ModelOutput <$> filter (fun r => Hue r = hue) csv_val)
    = Ok (fpr, tpr, thresholds)
    /\ thresholds !! get_optimal_idx fpr tpr = Some t
    /\ NoDup (Patient <$> filter (fun r => Hue r = hue) csv_test)
    /\ results = confusion_tables t (filter (fun r => Hue r = hue) csv_test).
Proof.
  unfold get_correct_and_misclassified_examples. intros Hres.
  destruct (read_csv_and_filter_hue Patient_column csv_val hue) as [df_val|] eqn:Hval;
    simpl in Hres; [|done].
  apply read_csv_returns_filter in Hval as [-> _].
  destruct (roc_curve sk _ _) as [[[fpr tpr] thresholds]|] eqn:Hroc; simpl in Hres; [|done].
  unfold index, item_or in Hres.
  destruct (thresholds !! get_optimal_idx fpr tpr) as [t|] eqn:Ht; simpl in Hres; [|done].
  destruct (read_csv_and_filter_hue Patient_column csv_test hue) as [df_test|] eqn:Htest;
    simpl in Hres; [|done].
  apply read_csv_returns_filter in Htest as [-> Hnd].
  destruct (set_predicted t _) as [rows|] eqn:Hrows; simpl in Hres; [|done].
  apply set_predicted_Ok in Hrows as [_ ->].
  injection Hres as <-. by exists fpr, tpr, thresholds, t.
Qed.

Lemma well_formed_threshold csv_val csv_test hue :
  well_formed sk csv_val csv_test hue ->
  exists fpr tpr thresholds t,
    roc_curve sk (Label <$> filter (fun r => Hue r = hue) csv_val)
                 (ModelOutput <$> filter (fun r => Hue r = hue) csv_val)
    = Ok (fpr, tpr, thresholds)
    /\ youden_optimal fpr tpr (get_optimal_idx fpr tpr)
    /\ thresholds !! get_optimal_idx fpr tpr = Some t.
Proof.
  intros (_ & _ & _ & _ & fpr & tpr & thresholds & Hroc & Hf & Hth & Hpos).
  destruct (get_optimal_idx_youden fpr tpr Hpos Hf) as [Hy Hlt].
  destruct (lookup_lt_is_Some_2 thresholds (get_optimal_idx fpr tpr)) as [t Ht]; [lia|].
  by exists fpr, tpr, thresholds, t.
Qed.

Lemma well_formed_returns csv_val csv_test hue :
  well_formed sk csv_val csv_test hue ->
  exists t,
    get_correct_and_misclassified_examples sk Patient_column csv_val csv_test hue
    = Ok (confusion_tables t (filter (fun r => Hue r = hue) csv_test)).
Proof.
  intros Hwf.
  destruct (well_formed_threshold _ _ _ Hwf) as (fpr & tpr & thresholds & t & Hroc & _ & Ht).
  destruct Hwf as (Hval & Htest & Hrows & _).
  exists t. by eapply get_correct_and_misclassified_examples_eq.
Qed.

Lemma predict_cases t (x : Row') :
  (predict t x = 1%Z /\ float_ge (ModelOutput x) t = true)
  \/ (predict t x = 0%Z /\ float_ge (ModelOutput x) t = false).
Proof. unfold predict. destruct (float_ge _ _); simpl; auto. Qed.

Lemma elem_of_table c t df (r : PredictedRow) :
  r ∈ table c (confusion_tables t df) <->
  row r ∈ df
  /\ predicted r = predict t (row r)
  /\ predicted r = (if ascending c then 0%Z else 1%Z)
  /\ float_eqb (Label (row r))
       (match c with TruePositive | FalseNegative => f1 | _ => f0 end) = true.
Proof.
  destruct c; simpl; rewrite list_elem_of_filter, list_elem_of_fmap, Is_true_true;
    (split; [intros ((Hp & Hl) & x & -> & Hx)|intros (Hx & Hp & Hc & Hl)]);
    simpl in *; try done;
    (split; [done|]); exists (row r); (split; [|done]); destruct r; simpl in *; congruence.
Qed.

Lemma table_disjoint c1 c2 t df (r : PredictedRow) :
  r ∈ table c1 (confusion_tables t df) -> r ∈ table c2 (confusion_tables t df) -> c1 = c2.
Proof.
  rewrite !elem_of_table. intros (_ & _ & Hp1 & Hl1) (_ & _ & Hp2 & Hl2).
  destruct c1, c2; simpl in *; try done; try congruence;
    exfalso; eauto using float_eqb_0_1.
Qed.

Lemma lands_table c t df (x : Row') :
  lands x (table c (confusion_tables t df)) <->
  x ∈ df
  /\ predict t x = (if ascending c then 0%Z else 1%Z)
  /\ float_eqb (Label x)
       (match c with TruePositive | FalseNegative => f1 | _ => f0 end) = true.
Proof.
  unfold lands. split.
  - intros (r & Hr & <-). apply elem_of_table in Hr as (? & ? & ? & ?).
    repeat split; try done. congruence.
  - intros (Hx & Hp & Hl). exists {| row := x; predicted := predict t x |}.
    split; [|done]. by apply elem_of_table.
Qed.

Lemma lands_unique c1 c2 t df (x : Row') :
  lands x (table c1 (confusion_tables t df)) ->
  lands x (table c2 (confusion_tables t df)) -> c1 = c2.
Proof.
  rewrite !lands_table. intros (_ & Hp1 & Hl1) (_ & Hp2 & Hl2).
  destruct c1, c2; simpl in *; try done; try congruence;
    exfalso; eauto using float_eqb_0_1.
Qed.

Lemma lands_somewhere t df (x : Row') :
  x ∈ df -> binary_label (Label x) -> exists c, lands x (table c (confusion_tables t df)).
Proof.
  intros Hx [Hl|Hl]; apply Is_true_true in Hl;
    destruct (predict_cases t x) as [[Hp _]|[Hp _]].
  - exists FalsePositive. by apply lands_table.
  - exists TrueNegative. by apply lands_table.
  - exists TruePositive. by apply lands_table.
  - exists FalseNegative. by apply lands_table.
Qed.

Lemma confusion_tables_length t df :
  Forall (fun r => binary_label (Label r)) df ->
  length (true_positives (confusion_tables t df))
  + length (false_positives (confusion_tables t df))
  + length (true_negatives (confusion_tables t df))
  + length (false_negatives (confusion_tables t df))
  = length df.
Proof.
  induction 1 as [|x df Hx _ IH]; [done|].
  unfold confusion_tables in *. cbn [true_positives false_positives true_negatives
    false_negatives] in *. rewrite fmap_cons.
  set (rows := (fun x => {| row := x; predicted := predict t x |}) <$> df) in *.
  rewrite !filter_cons. cbn [row predicted].
  assert (float_eqb (Label x) f0 = true /\ float_eqb (Label x) f1 = false
          \/ float_eqb (Label x) f0 = false /\ float_eqb (Label x) f1 = true) as Hl.
  { destruct Hx as [Hl|Hl]; apply Is_true_true in Hl; [left|right]; split; try done.
    - destruct (float_eqb (Label x) f1) eqn:E; [|done]. by destruct (float_eqb_0_1 _ Hl E).
    - destruct (float_eqb (Label x) f0) eqn:E; [|done]. by destruct (float_eqb_0_1 _ E Hl). }
  destruct Hl as [[-> ->]|[-> ->]];
    destruct (predict_cases t x) as [[-> _]|[-> _]];
    repeat match goal with
      | |- context [decide ?P] => destruct (decide P) as [[? ?]|?]
      end; cbn [length]; try done; try lia;
    exfalso;
    repeat match goal with
      | Hn : ~ _ |- _ => try (apply Hn; split; [reflexivity|exact I]); clear Hn
      end.
Qed.

(** ** Claims about the partition *)

(** C1. For a well-formed pair of metrics files the partition operation
    returns, and its four tables partition the test rows of the hue: their
    sizes add up to the number of those rows, no row of a table is in another
    table, every test row lands in exactly one table, and the tables hold
    nothing but test rows. *)
Theorem C1_partition_exhaustive_disjoint csv_val csv_test hue :
  well_formed sk csv_val csv_test hue ->
  exists results,
    get_correct_and_misclassified_examples sk Patient_column csv_val csv_test hue = Ok results
    /\ length (true_positives results) + length (false_positives results)
       + length (true_negatives results) + length (false_negatives results)
       = length (filter (fun r => Hue r = hue) csv_test)
    /\ (forall c1 c2 r, r ∈ table c1 results -> r ∈ table c2 results -> c1 = c2)
    /\ (forall x, x ∈ filter (fun r => Hue r = hue) csv_test ->
          exists c, lands x (table c results)
                    /\ forall c', lands x (table c' results) -> c' = c)
    /\ (forall c r, r ∈ table c results -> row r ∈ filter (fun r => Hue r = hue) csv_test).
Proof.
  intros Hwf. destruct (well_formed_returns _ _ _ Hwf) as [t Ht].
  destruct Hwf as (_ & _ & _ & Hbin & _).
  eexists. split; [exact Ht|]. split; [by apply confusion_tables_length|].
  split; [intros c1 c2 r; apply table_disjoint|]. split.
  - intros x Hx. rewrite Forall_forall in Hbin.
    destruct (lands_somewhere t _ x Hx (Hbin x Hx)) as [c Hc].
    exists c. split; [done|]. intros c' Hc'. by eapply lands_unique.
  - intros c r Hr. by apply elem_of_table in Hr as [? _].
Qed.


(** C5. A table in which, once filtered to the hue, some subject occurs in
    more than one row makes the read operation raise the duplicate-subject
    error ([ValueError] with the message of the source). The two-file pipeline
    raises it when the validation table has the duplicate; when the test table
    has it the pipeline never returns a result, and the error is the
    duplicate-subject error as soon as the validation table passed its own
    check and has a ROC curve. *)
Theorem C5_duplicate_subject_raises :
  (forall csv hue,
      has_duplicate_subject (filter (fun r => Hue r = hue) csv) ->
      read_csv_and_filter_hue Patient_column csv hue
      = Raise (ValueError (duplicate_subjects_message Patient_column))
      /\ get_labels_and_predictions Patient_column csv hue
         = Raise (ValueError (duplicate_subjects_message Patient_column)))
  /\ (forall csv_val csv_test hue,
        has_duplicate_subject (filter (fun r => Hue r = hue) csv_val) ->
        get_correct_and_misclassified_examples sk Patient_column csv_val csv_test hue
        = Raise (ValueError (duplicate_subjects_message Patient_column)))
  /\ (forall csv_val csv_test hue,
        has_duplicate_subject (filter (fun r => Hue r = hue) csv_test) ->
        raises (get_correct_and_misclassified_examples sk Patient_column csv_val csv_test hue)
        /\ (NoDup (Patient <$> filter (fun r => Hue r = hue) csv_val) ->
            roc_curve_ok sk (filter (fun r => Hue r = hue) csv_val) ->
            get_correct_and_misclassified_examples sk Patient_column csv_val csv_test hue
            = Raise (ValueError (duplicate_subjects_message Patient_column)))).
Proof.
  split; [|split].
  - intros csv hue Hdup. apply has_duplicate_subject_not_unique in Hdup.
    unfold get_labels_and_predictions. by rewrite (read_csv_not_unique _ _ Hdup).
  - intros csv_val csv_test hue Hdup. apply has_duplicate_subject_not_unique in Hdup.
    unfold get_correct_and_misclassified_examples. by rewrite (read_csv_not_unique _ _ Hdup).
  - intros csv_val csv_test hue Hdup. apply has_duplicate_subject_not_unique in Hdup. split.
    + destruct (get_correct_and_misclassified_examples sk Patient_column csv_val csv_test hue)
        as [results|e] eqn:Hres; [|by exists e].
      apply get_correct_and_misclassified_examples_inv in Hres
        as (_ & _ & _ & _ & _ & _ & Hnd & _). done.
    + intros Hval (fpr & tpr & thresholds & Hroc & Hf & Hth & Hpos).
      destruct (get_optimal_idx_youden fpr tpr Hpos Hf) as [_ Hlt].
      destruct (lookup_lt_is_Some_2 thresholds (get_optimal_idx fpr tpr)) as [t Ht]; [lia|].
      unfold get_correct_and_misclassified_examples.
      rewrite (read_csv_unique _ _ Hval). simpl. rewrite Hroc. simpl.
      unfold index, item_or. rewrite Ht. simpl.
      by rewrite (read_csv_not_unique _ _ Hdup).
Qed.

(** ** Claims about the best and worst rows *)

Lemma table_rank c (results : Results (Subject := Subject)) k :
  table c (rank np results k) = head k (sort_values np (ascending c) (table c results)).
Proof. by destruct c. Qed.

Lemma results_eq (r1 r2 : Results (Subject := Subject)) :
  (forall c, table c r1 = table c r2) -> r1 = r2.
Proof.
  intros Heq. destruct r1, r2.
  pose proof (Heq TruePositive). pose proof (Heq FalsePositive).
  pose proof (Heq TrueNegative). pose proof (Heq FalseNegative).
  simpl in *. congruence.
Qed.

(** The scores differ; rows with equal labels have different scores. *)
Abbreviation differ :=
  (fun x y : PredictedRow (Subject := Subject) => float_eqb (score x) (score y) = false).
Abbreviation untied :=
  (fun r r' : Row' =>
     float_eqb (Label r) (Label r') = true ->
     float_eqb (ModelOutput r) (ModelOutput r') = false).

Lemma StronglySorted_pairs {A} (R : relation A) (l : list A) :
  (forall i j x y, i < j -> l !! i = Some x -> l !! j = Some y -> R x y) ->
  StronglySorted R l.
Proof.
  induction l as [|a l IH]; intros Hpairs; constructor.
  - apply IH. intros i j x y Hij Hi Hj. apply (Hpairs (S i) (S j)); [lia|done..].
  - apply Forall_lookup. intros j y Hj. by apply (Hpairs 0 (S j)); [lia|..].
Qed.

Lemma StronglySorted_lookup {A} (R : relation A) (l : list A) i j x y :
  StronglySorted R l -> i < j -> l !! i = Some x -> l !! j = Some y -> R x y.
Proof.
  intros Hl. revert i j. induction Hl as [|a l Hl IH Hall]; intros i j Hij Hi Hj.
  - by rewrite lookup_nil in Hi.
  - destruct j as [|j]; [lia|]. cbn in Hj. destruct i as [|i].
    + injection Hi as ->. rewrite Forall_forall in Hall.
      apply Hall. by eapply list_elem_of_lookup_2.
    + cbn in Hi. apply (IH i j); [lia|done..].
Qed.

Lemma no_ties_untied df : no_ties df <-> StronglySorted untied df.
Proof.
  split.
  - intros Hties. apply StronglySorted_pairs. intros i j x y Hij Hi Hj.
    apply (Hties i j); [lia|done..].
  - intros Hdf i j ri rj Hij Hi Hj Hlabel.
    destruct (decide (i < j)) as [Hlt|Hge].
    + by apply (StronglySorted_lookup _ _ _ _ _ _ Hdf Hlt Hi Hj).
    + rewrite float_eqb_sym. rewrite float_eqb_sym in Hlabel.
      apply (StronglySorted_lookup _ _ j i _ _ Hdf); [lia|done..].
Qed.

Lemma differ_filter (P : PredictedRow (Subject := Subject) -> Prop)
    `{forall x, Decision (P x)} (label : float) t df :
  (forall x, P x -> float_eqb (Label (row x)) label = true) ->
  StronglySorted untied df ->
  StronglySorted differ
    (filter P ((fun x => {| row := x; predicted := predict t x |}) <$> df)).
Proof.
  intros Hlabel. induction 1 as [|r df _ IH Hr]; [constructor|].
  rewrite fmap_cons, filter_cons.
  destruct (decide (P {| row := r; predicted := predict t r |})) as [HP|_]; [|exact IH].
  constructor; [exact IH|].
  apply Forall_forall. intros y Hy.
  apply list_elem_of_filter in Hy as [HPy Hy].
  apply list_elem_of_fmap in Hy as (r' & -> & Hr').
  rewrite Forall_forall in Hr. unfold score. cbn. apply (Hr r' Hr').
  apply (float_eqb_trans _ label); [by apply (Hlabel _ HP)|].
  rewrite float_eqb_sym. by apply (Hlabel _ HPy).
Qed.

(** Without ties in the test table, no table of the partition has two rows
    with equal scores. *)
Lemma no_ties_tables t df c :
  no_ties df -> StronglySorted differ (table c (confusion_tables t df)).
Proof.
  intros Hties. apply no_ties_untied in Hties.
  destruct c; cbn [table confusion_tables true_positives false_positives
                     true_negatives false_negatives].
  - apply (differ_filter _ f1); [|done]. intros x [_ Hx]. by apply Is_true_true.
  - apply (differ_filter _ f0); [|done]. intros x [_ Hx]. by apply Is_true_true.
  - apply (differ_filter _ f0); [|done]. intros x [_ Hx]. by apply Is_true_true.
  - apply (differ_filter _ f1); [|done]. intros x [_ Hx]. by apply Is_true_true.
Qed.

(** Ranking twice is ranking once when no category holds a tie: a sort may
    arrange rows with equal scores differently each time. *)
Lemma rank_idempotent (results : Results (Subject := Subject)) k :
  (0 <= k)%Z ->
  (forall c, StronglySorted differ (table c results)) ->
  rank np (rank np results k) k = rank np results k.
Proof.
  intros Hk Hdiffer. apply results_eq. intros c.
  rewrite !table_rank, sort_values_head by apply Hdiffer. by rewrite head_head.
Qed.

Lemma rank_prefix (results : Results (Subject := Subject)) k' k c :
  (k' <= k)%Z -> (0 <= k' \/ k < 0)%Z ->
  table c (rank np results k') `prefix_of` table c (rank np results k).
Proof. intros Hle Hsign. rewrite !table_rank. by apply head_prefix. Qed.

(** C6 (amended). Whatever the partition and the integer [k], the rank
    operation returns: each table of the result is the head [k] of the
    sorted category. When [k] is at least the size of a category the result
    holds the whole category, sorted; for [k = 0] all four tables are empty;
    for [k < 0] each table is the sorted category without its last [-k] rows. *)
Theorem C6_rank_whole_empty_or_all_but_last (results : Results (Subject := Subject)) (k : Z) :
  (forall csv_val csv_test hue,
      get_correct_and_misclassified_examples sk Patient_column csv_val csv_test hue
      = Ok results ->
      get_k_best_and_worst_performing sk np Patient_column csv_val csv_test k hue
      = Ok (rank np results k))
  /\ (forall c,
        (Z.of_nat (length (table c results)) <= k)%Z ->
        table c (rank np results k) = sort_values np (ascending c) (table c results)
        /\ table c (rank np results k) ≡ₚ table c results)
  /\ (k = 0%Z -> forall c, table c (rank np results k) = [])
  /\ (forall c,
        (k < 0)%Z ->
        table c (rank np results k)
        = take (length (table c results) - Z.to_nat (- k))
               (sort_values np (ascending c) (table c results))).
Proof.
  split; [|split; [|split]].
  - intros csv_val csv_test hue Hres. unfold get_k_best_and_worst_performing.
    by rewrite Hres.
  - intros c Hk. rewrite table_rank, head_ge.
    + split; [done|]. apply sort_values_perm.
    + by rewrite length_sort_values.
  - intros -> c. by rewrite table_rank.
  - intros c Hk. by rewrite table_rank, head_negative, length_sort_values.
Qed.

(** C7 (amended). For a well-formed pair of metrics files the rank operation
    returns for every [k], with any sort that meets numpy's promise. For
    [k >= 0], ranking its result again with the same [k] changes nothing
    when no two test rows of the hue with equal labels have equal model
    outputs; the sort is free to arrange rows with equal scores differently
    each time. For [k' <= k] of one sign ([0 <= k'] or [k < 0]) every table
    of the [k']-result is a prefix of the same table of the [k]-result, ties
    or not. *)
Theorem C7_rank_idempotent_monotone csv_val csv_test hue (k' k : Z) :
  well_formed sk csv_val csv_test hue ->
  (k' <= k)%Z ->
  (0 <= k' \/ k < 0)%Z ->
  exists r r',
    get_k_best_and_worst_performing sk np Patient_column csv_val csv_test k hue = Ok r
    /\ get_k_best_and_worst_performing sk np Patient_column csv_val csv_test k' hue = Ok r'
    /\ (no_ties (filter (fun r => Hue r = hue) csv_test) ->
        (0 <= k)%Z -> rank np r k = r)
    /\ (no_ties (filter (fun r => Hue r = hue) csv_test) ->
        (0 <= k')%Z -> rank np r' k' = r')
    /\ (forall c, table c r' `prefix_of` table c r).
Proof.
  intros Hwf Hle Hsign. destruct (well_formed_returns _ _ _ Hwf) as [t Ht].
  unfold get_k_best_and_worst_performing. rewrite Ht. simpl.
  eexists _, _. split; [done|]. split; [done|].
  split; [|split].
  - intros Hties Hk. apply rank_idempotent; [done|].
    intros c. by apply no_ties_tables.
  - intros Hties Hk. apply rank_idempotent; [done|].
    intros c. by apply no_ties_tables.
  - intros c. by apply rank_prefix.
Qed.

(** ** Claims about [get_metric] *)

Implicit Types (val_metrics test_metrics : LabelsAndPredictions (Subject := Subject)).
Implicit Types (metric : ReportedMetrics) (o : option float).

(** The threshold [get_metric] works with is what it returns for
    [OptimalThreshold]; every other metric is computed as if that threshold
    had been supplied. *)
Lemma get_metric_threshold_first val_metrics test_metrics metric o :
  get_metric sk binary_classification_accuracy val_metrics test_metrics metric o
  = (t ← get_metric sk binary_classification_accuracy val_metrics test_metrics
           OptimalThreshold o;
     get_metric sk binary_classification_accuracy val_metrics test_metrics metric (Some t)).
Proof.
  unfold get_metric. destruct o as [t0|]; simpl; [destruct (truthy t0) eqn:Ht0; simpl|].
  1: by repeat (rewrite Ht0; simpl).
  all: destruct (roc_curve sk _ _) as [[[fpr tpr] thresholds]|]; simpl; [|done];
    destruct (index thresholds (get_optimal_idx fpr tpr)) as [t|]; simpl; [|done];
    destruct (truthy t) eqn:Ht; simpl; [|done];
    by repeat (rewrite Ht; simpl).
Qed.

Lemma get_metric_supplied val_metrics test_metrics t :
  truthy t = true ->
  get_metric sk binary_classification_accuracy val_metrics test_metrics
    OptimalThreshold (Some t) = Ok t.
Proof. intros Ht. unfold get_metric. simpl. by repeat (rewrite Ht; simpl). Qed.

Lemma get_metric_returns_truthy val_metrics test_metrics o t :
  get_metric sk binary_classification_accuracy val_metrics test_metrics OptimalThreshold o
  = Ok t -> truthy t = true.
Proof.
  unfold get_metric. intros Hres.
  destruct o as [t0|]; simpl in Hres; [destruct (truthy t0) eqn:Ht0; simpl in Hres|].
  1: rewrite Ht0 in Hres; simpl in Hres; congruence.
  all: destruct (roc_curve sk _ _) as [[[fpr tpr] thresholds]|]; simpl in Hres; [|done];
    destruct (index thresholds (get_optimal_idx fpr tpr)) as [t'|]; simpl in Hres; [|done];
    destruct (truthy t') eqn:Ht; simpl in Hres; congruence.
Qed.

Lemma get_metric_derived val_metrics test_metrics metric fpr tpr thresholds t :
  roc_curve sk (labels val_metrics) (model_outputs val_metrics) = Ok (fpr, tpr, thresholds) ->
  thresholds !! get_optimal_idx fpr tpr = Some t ->
  get_metric sk binary_classification_accuracy val_metrics test_metrics metric None
  = if truthy t
    then get_metric sk binary_classification_accuracy val_metrics test_metrics metric (Some t)
    else Raise AssertionError.
Proof.
  intros Hroc Ht. rewrite get_metric_threshold_first.
  replace (get_metric sk binary_classification_accuracy val_metrics test_metrics
             OptimalThreshold None)
    with (if truthy t then Ok t else @Raise float AssertionError).
  - by destruct (truthy t).
  - unfold get_metric. rewrite Hroc. simpl. unfold index, item_or. rewrite Ht. simpl.
    by destruct (truthy t).
Qed.

(** A supplied zero is not used: the call is the call without a threshold. *)
Lemma get_metric_zero val_metrics test_metrics metric t :
  truthy t = false ->
  get_metric sk binary_classification_accuracy val_metrics test_metrics metric (Some t)
  = get_metric sk binary_classification_accuracy val_metrics test_metrics metric None.
Proof. intros Ht. unfold get_metric. simpl. by rewrite Ht. Qed.

(** [len(set(labels)) < 2] says that the labels are all equal. *)
Lemma py_set_first (x : float) (a : list float) :
  py_set (x :: a)
  = foldl (fun acc y => if existsb (float_eqb y) acc then acc else acc ++ [y]) [x] a.
Proof. done. Qed.

Lemma py_set_grows (a acc : list float) :
  length acc <= length
    (foldl (fun acc y => if existsb (float_eqb y) acc then acc else acc ++ [y]) acc a).
Proof.
  revert acc. induction a as [|y a IH]; intros acc; simpl; [done|].
  etrans; [|apply IH]. destruct (existsb _ acc); [done|]. rewrite length_app. lia.
Qed.

Lemma py_set_one_class (x : float) (a : list float) :
  length (py_set (x :: a)) < 2 <-> Forall (fun y => float_eqb y x = true) a.
Proof.
  rewrite py_set_first. split.
  - induction a as [|y a IH]; intros Hlen; [done|]. simpl in Hlen.
    rewrite orb_false_r in Hlen. destruct (float_eqb y x) eqn:Hy.
    + constructor; [done|]. by apply IH.
    + pose proof (py_set_grows a ([x] ++ [y])). simpl in *. lia.
  - induction 1 as [|y a Hy _ IH]; simpl; [lia|].
    by rewrite orb_false_r, Hy.
Qed.

Lemma only_one_class_present_spec (a : list float) :
  only_one_class_present a = true <-> fewer_than_two_distinct a.
Proof.
  unfold only_one_class_present. rewrite bool_decide_eq_true.
  destruct a as [|x a].
  - split; [|simpl; lia]. intros _ i j u v _ Hu. done.
  - rewrite py_set_one_class, Forall_forall. split.
    + intros Hall i j u v Hij Hu Hv.
      destruct i as [|i], j as [|j]; simpl in *; try done.
      * injection Hu as <-. rewrite float_eqb_sym. apply Hall.
        by eapply list_elem_of_lookup_2.
      * injection Hv as <-. apply Hall. by eapply list_elem_of_lookup_2.
      * eapply float_eqb_trans; [apply Hall; by eapply list_elem_of_lookup_2|].
        rewrite float_eqb_sym. apply Hall. by eapply list_elem_of_lookup_2.
    + intros Hfew y Hy. apply list_elem_of_lookup_1 in Hy as [j Hj].
      by apply (Hfew (S j) 0 y x).
Qed.


(** C4 (amended). When the labels of the test split have fewer than two
    distinct values, [get_metric] returns NaN for [AUC_ROC] and [AUC_PR] as
    soon as it has its threshold (which is always the case for a supplied
    threshold that is not zero), without calling the scorers; [Accuracy],
    [FalsePositiveRate] and [FalseNegativeRate] are not guarded: they are what
    the accuracy and recall routines compute from the outputs compared with
    the threshold. An exception can only come from the threshold step, and
    NaN is a returned value, not an exception. *)
Theorem C4_one_class_auc_is_nan val_metrics test_metrics o :
  fewer_than_two_distinct (labels test_metrics) ->
  (forall t,
      get_metric sk binary_classification_accuracy val_metrics test_metrics
        OptimalThreshold o = Ok t ->
      get_metric sk binary_classification_accuracy val_metrics test_metrics AUC_ROC o
      = Ok NaN
      /\ get_metric sk binary_classification_accuracy val_metrics test_metrics AUC_PR o
         = Ok NaN
      /\ get_metric sk binary_classification_accuracy val_metrics test_metrics Accuracy o
         = binary_classification_accuracy (model_outputs test_metrics) (labels test_metrics) t
      /\ get_metric sk binary_classification_accuracy val_metrics test_metrics
           FalsePositiveRate o
         = (tnr ← recall_score sk (labels test_metrics)
                    (ge_threshold (model_outputs test_metrics) t) 0;
            Ok (float_sub f1 tnr))
      /\ get_metric sk binary_classification_accuracy val_metrics test_metrics
           FalseNegativeRate o
         = (r ← recall_score sk (labels test_metrics)
                  (ge_threshold (model_outputs test_metrics) t) 1;
            Ok (float_sub f1 r)))
  /\ (forall t,
        truthy t = true ->
        get_metric sk binary_classification_accuracy val_metrics test_metrics
          OptimalThreshold (Some t) = Ok t)
  /\ (forall e metric,
        get_metric sk binary_classification_accuracy val_metrics test_metrics
          OptimalThreshold o = Raise e ->
        get_metric sk binary_classification_accuracy val_metrics test_metrics metric o
        = Raise e)
  /\ (forall e, @Ok float NaN <> Raise e).
Proof.
  intros Hone. apply only_one_class_present_spec in Hone.
  split; [|split; [|split]].
  - intros t Ht. pose proof (get_metric_returns_truthy _ _ _ _ Ht) as Htruthy.
    rewrite (get_metric_threshold_first _ _ AUC_ROC o),
      (get_metric_threshold_first _ _ AUC_PR o),
      (get_metric_threshold_first _ _ Accuracy o),
      (get_metric_threshold_first _ _ FalsePositiveRate o),
      (get_metric_threshold_first _ _ FalseNegativeRate o), Ht. simpl.
    unfold get_metric. simpl. rewrite Htruthy. simpl. rewrite ?Htruthy, ?Hone. simpl.
    done.
  - intros t Ht. by apply get_metric_supplied.
  - intros e metric He. by rewrite get_metric_threshold_first, He.
  - done.
Qed.

(** C9. A supplied threshold of zero is treated as absent: the call is the
    call without a threshold, so the threshold is recomputed from the
    validation split, and the [OptimalThreshold] metric never returns the
    supplied zero but the recomputed threshold. A supplied threshold that is
    not zero is used as given: [OptimalThreshold] returns it, and no metric
    depends on the validation split. *)
Theorem C9_zero_threshold_is_recomputed val_metrics test_metrics metric :
  (forall t,
      float_eqb t f0 = true ->
      get_metric sk binary_classification_accuracy val_metrics test_metrics metric (Some t)
      = get_metric sk binary_classification_accuracy val_metrics test_metrics metric None)
  /\ (forall t r,
        float_eqb t f0 = true ->
        get_metric sk binary_classification_accuracy val_metrics test_metrics
          OptimalThreshold (Some t) = Ok r ->
        float_eqb r f0 = false)
  /\ (forall fpr tpr thresholds t',
        roc_curve sk (labels val_metrics) (model_outputs val_metrics)
        = Ok (fpr, tpr, thresholds) ->
        thresholds !! get_optimal_idx fpr tpr = Some t' ->
        truthy t' = true ->
        get_metric sk binary_classification_accuracy val_metrics test_metrics
          OptimalThreshold (Some f0) = Ok t')
  /\ (forall t,
        float_eqb t f0 = false ->
        get_metric sk binary_classification_accuracy val_metrics test_metrics
          OptimalThreshold (Some t) = Ok t
        /\ forall val_metrics',
             get_metric sk binary_classification_accuracy val_metrics test_metrics metric
               (Some t)
             = get_metric sk binary_classification_accuracy val_metrics' test_metrics metric
                 (Some t)).
Proof.
  split; [|split; [|split]].
  - intros t Ht. apply get_metric_zero. by apply truthy_false_iff.
  - intros t r Ht Hr. apply get_metric_returns_truthy in Hr.
    unfold truthy in Hr. by apply negb_true_iff in Hr.
  - intros fpr tpr thresholds t' Hroc Ht' Htruthy.
    rewrite get_metric_zero by done.
    rewrite (get_metric_derived _ _ _ _ _ _ _ Hroc Ht'), Htruthy.
    by apply get_metric_supplied.
  - intros t Ht. assert (truthy t = true) as Htruthy by (unfold truthy; by rewrite Ht).
    split; [by apply get_metric_supplied|].
    intros val_metrics'. unfold get_metric. simpl. by rewrite Htruthy.
Qed.

End Claims.

(** ** The claims on the tables of the test suite *)

Import SklearnModel NumpyModel NumpyFacts Fixtures.

Abbreviation subjects := (fmap (M := list) (fun r : PredictedRow (Subject := Z) => Patient (row r))).

(** The tables of the test suite are a well-formed pair. *)
Lemma fixtures_well_formed :
  well_formed sk_model val_metrics_classification test_metrics_classification "Default".
Proof.
  split; [|split; [|split; [|split]]].
  - apply (bool_decide_unpack _). vm_compute. exact I.
  - apply (bool_decide_unpack _). vm_compute. exact I.
  - vm_compute. discriminate.
  - apply (bool_decide_unpack _). vm_compute. exact I.
  - eexists _, _, _. split; [vm_compute; reflexivity|]. vm_compute. lia.
Defined.

(** C1 on the tables of the test suite: the four tables hold the twelve test
    rows. *)
Lemma C1_witness :
  exists results,
    get_correct_and_misclassified_examples sk_model Patient_column
      val_metrics_classification test_metrics_classification "Default" = Ok results
    /\ length (true_positives results) + length (false_positives results)
       + length (true_negatives results) + length (false_negatives results)
       = 12.
Proof.
  destruct (C1_partition_exhaustive_disjoint sk_model Patient_column
              val_metrics_classification test_metrics_classification "Default"
              fixtures_well_formed) as (results & Hres & Hlen & _).
  exists results. split; [exact Hres|exact Hlen].
Defined.

(** The validation curve of the fixture, as the model of [roc_curve] returns
    it. *)
Lemma fixture_roc_curve :
  roc_curve sk_model (labels (columns val_metrics_classification))
                     (model_outputs (columns val_metrics_classification))
  = Ok ([Fin 0; Fin 0; Fin 0; Fin 1], [Fin 0; Fin (1 # 3); Fin 1; Fin 1],
        [Fin 2.0; Fin 1.0; Fin 0.6; Fin 0.0]).
Proof. vm_compute. reflexivity. Defined.


(** C4 on a test table with the single class [1]: both areas are NaN. *)
Lemma C4_witness :
  get_metric sk_model accuracy_by_counting (columns val_metrics_classification)
    (columns test_metrics_one_class) AUC_ROC None = Ok NaN
  /\ get_metric sk_model accuracy_by_counting (columns val_metrics_classification)
       (columns test_metrics_one_class) AUC_PR None = Ok NaN.
Proof.
  assert (fewer_than_two_distinct (labels (columns test_metrics_one_class))) as Hone.
  { apply only_one_class_present_spec. vm_compute. reflexivity. }
  destruct (C4_one_class_auc_is_nan sk_model accuracy_by_counting
              (columns val_metrics_classification) (columns test_metrics_one_class)
              None Hone) as (Hnan & _).
  destruct (Hnan (Fin 0.6)) as (Hroc & Hpr & _).
  - vm_compute. reflexivity.
  - split; [exact Hroc|exact Hpr].
Defined.

(** In the test table of the test suite no two rows with equal labels have
    equal outputs. *)
Lemma fixtures_no_ties :
  no_ties (filter (fun r => Hue r = "Default") test_metrics_classification).
Proof.
  apply no_ties_untied. apply (bool_decide_unpack _). vm_compute. exact I.
Defined.

(** C7 on the tables of the test suite, for [k' = 1] and [k = 2]. *)
Lemma C7_witness :
  exists r r',
    get_k_best_and_worst_performing sk_model np_model Patient_column
      val_metrics_classification test_metrics_classification 2 "Default" = Ok r
    /\ get_k_best_and_worst_performing sk_model np_model Patient_column
         val_metrics_classification test_metrics_classification 1 "Default" = Ok r'
    /\ rank np_model r 2 = r
    /\ (forall c, table c r' `prefix_of` table c r).
Proof.
  destruct (C7_rank_idempotent_monotone sk_model np_model Patient_column
              val_metrics_classification test_metrics_classification "Default" 1 2
              fixtures_well_formed) as (r & r' & Hr & Hr' & Hidem & _ & Hprefix).
  - lia.
  - left. lia.
  - exists r, r'. split; [exact Hr|]. split; [exact Hr'|].
    split; [apply Hidem; [exact fixtures_no_ties|lia]|exact Hprefix].
Defined.

(** C4, the claim as stated fails: the test split has a single class, and
    [get_metric] raises for [AUC_ROC] instead of returning NaN, because the
    threshold step comes first. On a validation split without rows the ROC
    routine raises; on a validation split whose Youden threshold is [0.0] the
    assertion on the threshold fails. *)
Lemma C4_counterexample_threshold_step_raises :
  only_one_class_present (labels (columns test_metrics_one_class)) = true
  /\ (exists msg,
        get_metric sk_model accuracy_by_counting (columns empty_metrics)
          (columns test_metrics_one_class) AUC_ROC None = Raise (ValueError msg))
  /\ get_metric sk_model accuracy_by_counting (columns val_metrics_zero_threshold)
       (columns test_metrics_one_class) AUC_ROC None = Raise AssertionError.
Proof.
  split; [vm_compute; reflexivity|]. split.
  - eexists. vm_compute. reflexivity.
  - vm_compute. reflexivity.
Qed.

(** C6, the claim as stated fails: with [k = -1] the tables of the result are
    not empty; each category has lost its last row only. *)
Lemma C6_counterexample_negative_k :
  (-1 <= 0)%Z
  /\ exists r,
       get_k_best_and_worst_performing sk_model np_model Patient_column
         val_metrics_classification test_metrics_classification (-1) "Default" = Ok r
       /\ subjects (true_positives r) = [5; 4]%Z
       /\ subjects (true_negatives r) = [6; 7]%Z
       /\ subjects (false_positives r) = [11; 10]%Z
       /\ subjects (false_negatives r) = [0; 1]%Z.
Proof. split; [lia|]. eexists. split; [vm_compute; reflexivity|]. done. Qed.

(** C7, the claim as stated fails for a negative [k]: ranking the [k = -1]
    result again with [k = -1] removes one more row of each table, and the
    [k' = -1] result is not a prefix of the [k = 0] result, which is empty. *)
Lemma C7_counterexample_negative_k :
  exists r r0,
    get_k_best_and_worst_performing sk_model np_model Patient_column
      val_metrics_classification test_metrics_classification (-1) "Default" = Ok r
    /\ get_k_best_and_worst_performing sk_model np_model Patient_column
         val_metrics_classification test_metrics_classification 0 "Default" = Ok r0
    /\ subjects (true_positives r) = [5; 4]%Z
    /\ subjects (true_positives (rank np_model r (-1))) = [5]%Z
    /\ rank np_model r (-1) <> r
    /\ ~ (true_positives r `prefix_of` true_positives r0).
Proof.
  eexists _, _. split; [vm_compute; reflexivity|]. split; [vm_compute; reflexivity|].
  split; [done|]. split; [done|]. split.
  - intros Heq. apply (f_equal (fun r => length (true_positives r))) in Heq.
    vm_compute in Heq. done.
  - intros [l Hl]. done.
Qed.

(** Why C7 asks for a table without ties: numpy promises a sorted
    arrangement, not which one. With the sort that swaps equal entries the
    two tied true positives come out as [1; 0], and ranking that result
    again with the same [k = 2] swaps them back; with the stable sort
    ranking again changes nothing. *)
Example rank_twice_reorders_ties :
  exists r,
    get_k_best_and_worst_performing sk_model np_swapping Patient_column
      val_metrics_classification test_metrics_tied 2 "Default" = Ok r
    /\ subjects (true_positives r) = [1; 0]%Z
    /\ subjects (true_positives (rank np_swapping r 2)) = [0; 1]%Z
    /\ rank np_swapping r 2 <> r
    /\ rank np_model (rank np_model r 2) 2 = rank np_model r 2.
Proof.
  eexists. split; [vm_compute; reflexivity|].
  split; [done|]. split; [done|]. split; [|done].
  intros Heq. apply (f_equal (fun r => subjects (true_positives r))) in Heq.
  vm_compute in Heq. done.
Qed.

(** *** The expectations of [test_classification_report.py] *)

Example test_get_metric_optimal_threshold :
  get_metric sk_model accuracy_by_counting (columns val_metrics_classification)
    (columns test_metrics_classification) OptimalThreshold None = Ok (Fin 0.6)
  /\ get_metric sk_model accuracy_by_counting (columns val_metrics_classification)
       (columns test_metrics_classification) OptimalThreshold (Some (Fin 0.3)) = Ok (Fin 0.3).
Proof. split; vm_compute; reflexivity. Qed.

Example test_get_metric_auc :
  get_metric sk_model accuracy_by_counting (columns val_metrics_classification)
    (columns test_metrics_classification) AUC_ROC None = Ok (Fin (1 # 2))
  /\ get_metric sk_model accuracy_by_counting (columns val_metrics_classification)
       (columns test_metrics_classification) AUC_PR None = Ok (Fin (13 # 24)).
Proof. split; vm_compute; reflexivity. Qed.

Example test_get_metric_rates :
  get_metric sk_model accuracy_by_counting (columns val_metrics_classification)
    (columns test_metrics_classification) FalsePositiveRate None = Ok (Fin (1 # 2))
  /\ get_metric sk_model accuracy_by_counting (columns val_metrics_classification)
       (columns test_metrics_classification) FalsePositiveRate (Some (Fin 0.1))
     = Ok (Fin (5 # 6))
  /\ get_metric sk_model accuracy_by_counting (columns val_metrics_classification)
       (columns test_metrics_classification) FalseNegativeRate None = Ok (Fin (1 # 2))
  /\ get_metric sk_model accuracy_by_counting (columns val_metrics_classification)
       (columns test_metrics_classification) FalseNegativeRate (Some (Fin 0.1))
     = Ok (Fin (1 # 6)).
Proof. repeat split; vm_compute; reflexivity. Qed.

Example test_get_correct_and_misclassified_examples :
  exists r,
    get_correct_and_misclassified_examples sk_model Patient_column
      val_metrics_classification test_metrics_classification "Default" = Ok r
    /\ subjects (true_positives r) = [3; 4; 5]%Z
    /\ subjects (true_negatives r) = [6; 7; 8]%Z
    /\ subjects (false_positives r) = [9; 10; 11]%Z
    /\ subjects (false_negatives r) = [0; 1; 2]%Z.
Proof. eexists. split; [vm_compute; reflexivity|]. done. Qed.

Example test_get_k_best_and_worst_performing :
  exists r,
    get_k_best_and_worst_performing sk_model np_model Patient_column
      val_metrics_classification test_metrics_classification 2 "Default" = Ok r
    /\ subjects (true_positives r) = [5; 4]%Z
    /\ subjects (true_negatives r) = [6; 7]%Z
    /\ subjects (false_positives r) = [11; 10]%Z
    /\ subjects (false_negatives r) = [0; 1]%Z.
Proof. eexists. split; [vm_compute; reflexivity|]. done. Qed.

Example test_functions_with_invalid_csv :
  get_labels_and_predictions Patient_column invalid_metrics_classification "Default"
  = Raise (ValueError (duplicate_subjects_message Patient_column))
  /\ get_correct_and_misclassified_examples sk_model Patient_column
       invalid_metrics_classification test_metrics_classification "Default"
     = Raise (ValueError (duplicate_subjects_message Patient_column))
  /\ get_correct_and_misclassified_examples sk_model Patient_column
       val_metrics_classification invalid_metrics_classification "Default"
     = Raise (ValueError (duplicate_subjects_message Patient_column)).
Proof. repeat split; vm_compute; reflexivity. Qed.

(** When the validation table has no row for the hue, the error of the ROC
    routine comes first: a duplicate in the test table is not reached. *)
Example duplicate_in_test_after_failing_validation :
  get_correct_and_misclassified_examples sk_model Patient_column
    empty_metrics invalid_metrics_classification "Default"
  = Raise (ValueError "y_true is not a binary target with classes in {0, 1} or {-1, 1}").
Proof. vm_compute. reflexivity. Qed.

(** A validation table whose Youden threshold is [0.0]: the partition uses
    that threshold, and [get_metric] fails its assertion. *)
Example zero_threshold_fails_the_assertion :
  (exists r,
     get_correct_and_misclassified_examples sk_model Patient_column
       val_metrics_zero_threshold test_metrics_one_class "Default" = Ok r
     /\ subjects (true_positives r) = [0; 1]%Z)
  /\ get_metric sk_model accuracy_by_counting (columns val_metrics_zero_threshold)
       (columns test_metrics_one_class) Accuracy None = Raise AssertionError
  /\ get_metric sk_model accuracy_by_counting (columns val_metrics_zero_threshold)
       (columns test_metrics_one_class) OptimalThreshold (Some (Fin 0.0))
     = Raise AssertionError.
Proof.
  split; [|split; vm_compute; reflexivity].
  eexists. split; [vm_compute; reflexivity|]. done.
Qed.

(** A test table without a row for the hue: the assignment of the column
    ["predicted"] raises. *)
Example empty_test_table_raises :
  raises (get_correct_and_misclassified_examples sk_model Patient_column
            val_metrics_classification empty_metrics "Default").
Proof. eexists. vm_compute. reflexivity. Qed.

(** A test row whose label is neither [0] nor [1] is in none of the four
    tables, and no error is raised for it. *)
Example row_with_other_label_is_dropped :
  exists r,
    get_correct_and_misclassified_examples sk_model Patient_column
      val_metrics_classification
      (test_metrics_classification ++ [csv_row "Test" 12 0.5 2]) "Default" = Ok r
    /\ length (true_positives r) + length (false_positives r)
       + length (true_negatives r) + length (false_negatives r) = 12.
Proof. eexists. split; [vm_compute; reflexivity|]. done. Qed.

End ReportFacts.

(** * Facts about the batch transfer *)

Module LightningFacts.
Import LightningModels.

Lemma mapM_Ok {A B} (f : A -> result B) (l : list A) (k : list B) :
  mapM f l = Ok k -> Forall2 (fun x y => f x = Ok y) l k.
Proof.
  revert k. induction l as [|x l IH]; intros k; simpl.
  - intros [= <-]. constructor.
  - destruct (f x) as [y|] eqn:Hy; simpl; [|done].
    destruct (mapM f l) as [k'|]; simpl; [|done].
    intros [= <-]. constructor; [done|]. by apply IH.
Qed.

Lemma mapM_Raise {A B} (f : A -> result B) (l : list A) (x : A) :
  x ∈ l -> raises (f x) -> raises (mapM f l).
Proof.
  intros Hx [e He]. induction Hx as [x l|x y l _ IH]; simpl.
  - rewrite He. by exists e.
  - destruct IH as [e1 He1]; [done|]. rewrite He1.
    destruct (f y) as [z|e2]; simpl; [by exists e1|by exists e2].
Qed.

Section Transfer.

Variables Tensor Device ScalarItem : Type.
Abbreviation value := (value Tensor ScalarItem).
Implicit Types (batch items : value) (device : Device).
Variable to_device : ScalarItem -> Device -> result ScalarItem.
Variable move_data_to_device : value -> Device -> result value.
Variable tensor_iter : Tensor -> result (list Tensor).

Abbreviation transfer :=
  (transfer_batch_to_device to_device move_data_to_device tensor_iter).
Abbreviation items_to_device := (transfer_items to_device tensor_iter).
Abbreviation iter := (py_iter tensor_iter).
Abbreviation transferred := (transferred to_device tensor_iter).

Lemma call_to_device_Ok device (j j' : value) :
  call_to_device to_device device j = Ok j' ->
  exists s s', j = VScalarItem s /\ to_device s device = Ok s' /\ j' = VScalarItem s'.
Proof.
  destruct j; simpl; try done.
  destruct (to_device s device) as [s'|] eqn:Hs; simpl; [|done].
  intros [= <-]. by exists s, s'.
Qed.

Lemma transfer_items_Ok device (items new_items : value) :
  items_to_device device items = Ok new_items ->
  exists rows new_rows,
    iter items = Ok rows /\ new_items = VList new_rows
    /\ Forall2 (transferred device) rows new_rows.
Proof.
  unfold transfer_items. destruct (iter items) as [rows|] eqn:Hrows; simpl; [|done].
  destruct (mapM _ rows) as [new_rows|] eqn:Hmap; simpl; [|done].
  intros [= <-]. exists rows, new_rows. split; [done|]. split; [done|].
  apply mapM_Ok in Hmap. eapply Forall2_impl; [exact Hmap|].
  intros i i'. simpl. destruct (iter i) as [js|] eqn:Hjs; simpl; [|done].
  destruct (mapM _ js) as [js'|] eqn:Hmap'; simpl; [|done].
  intros [= <-]. exists js, js'. split; [done|]. split; [done|].
  apply mapM_Ok in Hmap'. eapply Forall2_impl; [exact Hmap'|].
  intros j j'. apply call_to_device_Ok.
Qed.

(** A leaf that cannot be moved makes the whole comprehension fail. *)
Lemma transfer_items_Raise device (rows js : list value) (s : ScalarItem) :
  VList js ∈ rows -> VScalarItem s ∈ js -> raises (to_device s device) ->
  raises (items_to_device device (VList rows)).
Proof.
  intros Hrow Hj [e He]. unfold transfer_items. simpl.
  destruct (mapM_Raise
    (fun i => js ← iter i;
              new_js ← mapM (call_to_device to_device device) js;
              Ok (VList new_js)) rows (VList js) Hrow) as [e' He'].
  - simpl.
    destruct (mapM_Raise (call_to_device to_device device)
                js (VScalarItem s) Hj) as [e' He'].
    + simpl. rewrite He. by exists e.
    + rewrite He'. by exists e'.
  - rewrite He'. by exists e'.
Qed.

(** C8. A batch that is not a dictionary makes the transfer raise the
    malformed-batch error ([ValueError] with the message of the source), and
    nothing is transferred. For every batch the transfer is all or nothing:
    when it raises, the batch is left as it was; when the sequence branch
    returns, every item of every row has been moved; and an item that cannot
    be moved makes the call raise. *)
Theorem C8_non_dict_batch_raises :
  (forall (batch : value) (device : Device),
      is_dict batch = false ->
      transfer batch device
      = (batch,
         Raise (ValueError ("This function expects a dictionary input, but got: "
                            +:+ type_repr batch))))
  /\ (forall (batch batch' : value) device e,
        transfer batch device = (batch', Raise e) -> batch' = batch)
  /\ (forall d device items (batch' result : value),
        d !! "items" = Some items ->
        is_sequence_batch items = Ok true ->
        transfer (VDict d) device = (batch', Ok result) ->
        exists rows new_rows,
          iter items = Ok rows
          /\ Forall2 (transferred device) rows new_rows
          /\ result = VDict (<["items" := VList new_rows]> d)
          /\ batch' = result)
  /\ (forall d device rows js s,
        d !! "items" = Some (VList rows) ->
        is_sequence_batch (VList rows) = Ok true ->
        VList js ∈ rows -> VScalarItem s ∈ js -> raises (to_device s device) ->
        exists e, transfer (VDict d) device = (VDict d, Raise e)).
Proof.
  split; [|split; [|split]].
  - intros batch device Hdict. by destruct batch.
  - intros batch batch' device e. destruct batch; simpl; try by intros [= <-].
    destruct (is_sequence_batch _) as [[]|]; try by intros [= <-].
    destruct (items_to_device _ _); by intros [= <-].
  - intros d device items batch' result Hitems Hseq. simpl. rewrite Hitems. simpl.
    rewrite Hseq. destruct (items_to_device device items) as [new_items|] eqn:Hnew; [|done].
    intros [= <- <-].
    apply transfer_items_Ok in Hnew as (rows & new_rows & Hrows & -> & Hall).
    by exists rows, new_rows.
  - intros d device rows js s Hitems Hseq Hrow Hj Hfail.
    unfold transfer_batch_to_device. rewrite Hitems. cbn [default from_option id].
    rewrite Hseq.
    destruct (transfer_items_Raise device rows js s Hrow Hj Hfail) as [e ->].
    by exists e.
Qed.

(** C10. A dictionary whose ["items"] entry is an empty list makes the
    transfer raise [IndexError] from the type test, before the fallback and
    without the malformed-batch error. So the transfer returns a value only
    when the entry is absent, [None], not a list, or a list that is not
    empty; and a list that is not empty is not enough, since an empty first
    row raises the same error. *)
Theorem C10_empty_items_raises_IndexError :
  (forall d device,
      d !! "items" = Some (VList []) ->
      transfer (VDict d) device = (VDict d, Raise (IndexError "list index out of range")))
  /\ (forall d device (result : value),
        (transfer (VDict d) device).2 = Ok result ->
        d !! "items" = None
        \/ d !! "items" = Some VNone
        \/ (exists items, d !! "items" = Some items /\ is_list items = false)
        \/ (exists x l, d !! "items" = Some (VList (x :: l))))
  /\ (forall d device l,
        d !! "items" = Some (VList (VList [] :: l)) ->
        transfer (VDict d) device = (VDict d, Raise (IndexError "list index out of range"))).
Proof.
  split; [|split].
  - intros d device Hitems. simpl. by rewrite Hitems.
  - intros d device result. simpl.
    destruct (d !! "items") as [items|] eqn:Hitems; [|by left].
    destruct items as [|s|t|s|[|x l]|d']; simpl; intros Hres.
    + right. by left.
    + right. right. left. by eexists.
    + right. right. left. by eexists.
    + right. right. left. by eexists.
    + done.
    + right. right. right. by exists x, l.
    + right. right. left. by eexists.
  - intros d device l Hitems. simpl. by rewrite Hitems.
Qed.

End Transfer.

(** Batches over one-point tensors, devices and items, every move
    succeeding. *)
Example transfer_non_dict :
  transfer_batch_to_device (fun s _ => Ok s) (fun v _ => Ok v) (fun _ => Ok [])
    (VList [VTensor tt] : value unit unit) tt
  = (VList [VTensor tt],
     Raise (ValueError "This function expects a dictionary input, but got: <class 'list'>")).
Proof. reflexivity. Qed.

Example transfer_empty_items :
  (transfer_batch_to_device (fun s _ => Ok s) (fun v _ => Ok v) (fun _ => Ok [])
     (VDict {[ "items" := VList [] ]} : value unit unit) tt).2
  = Raise (IndexError "list index out of range").
Proof. vm_compute. reflexivity. Qed.

Example transfer_items_absent :
  (transfer_batch_to_device (fun s _ => Ok s) (fun v _ => Ok v) (fun _ => Ok [])
     (VDict {[ "images" := VTensor tt ]} : value unit unit) tt).2
  = Ok (VDict {[ "images" := VTensor tt ]}).
Proof. vm_compute. reflexivity. Qed.

Example transfer_sequence_items :
  (transfer_batch_to_device (fun s _ => Ok (negb s)) (fun v _ => Ok v) (fun _ => Ok [])
     (VDict {[ "items" := VList [VList [VScalarItem false; VScalarItem false]] ]}
      : value unit bool) tt).2
  = Ok (VDict {[ "items" := VList [VList [VScalarItem true; VScalarItem true]] ]}).
Proof. vm_compute. reflexivity. Qed.

End LightningFacts.

(** * classification_report.py: reading the metrics files and ranking *)

Module ReportExtras.
Import ClassificationReport ReportVocabulary FloatFacts ReportFacts.

Section Reading.

Context {Subject : Type} `{EqDecision Subject}.

Variable sk : Sklearn.
Variable binary_classification_accuracy : list float -> list float -> float -> result float.
Variable Patient_column : string.

Abbreviation Row' := (Row (Subject := Subject)).

Implicit Types (csv df : list Row') (hue : string).

Lemma NoDup_hue_subject csv :
  NoDup ((fun r => (Hue r, Patient r)) <$> csv)
  <-> forall hue, NoDup (Patient <$> filter (fun r => Hue r = hue) csv).
Proof.
  induction csv as [|x csv IH].
  - split; [intros _ hue; constructor|intros _; constructor].
  - rewrite fmap_cons, NoDup_cons, IH. split.
    + intros [Hx Hall] hue. rewrite filter_cons.
      destruct (decide (Hue x = hue)) as [Heq|Hne]; [|apply Hall].
      rewrite fmap_cons. apply NoDup_cons. split; [|apply Hall].
      intros Hin. apply Hx.
      apply list_elem_of_fmap in Hin as (r & Hr & Hin).
      apply list_elem_of_filter in Hin as [Hhue Hin].
      apply list_elem_of_fmap. exists r. split; [|exact Hin].
      by rewrite Hr, Hhue, Heq.
    + intros Hall. split.
      * intros Hin. apply list_elem_of_fmap in Hin as (r & Hr & Hin).
        injection Hr as Hhue Hpat.
        specialize (Hall (Hue x)). rewrite filter_cons in Hall.
        destruct (decide (Hue x = Hue x)) as [_|Hne]; [|done].
        rewrite fmap_cons in Hall. apply NoDup_cons in Hall as [Hx _].
        apply Hx. apply list_elem_of_fmap. exists r. split; [exact Hpat|].
        apply list_elem_of_filter. by split.
      * intros hue. specialize (Hall hue). rewrite filter_cons in Hall.
        destruct (decide (Hue x = hue)); [|exact Hall].
        rewrite fmap_cons in Hall. by apply NoDup_cons in Hall as [_ Hall].
Qed.

(** X1. When [get_labels_and_predictions] returns, its three arrays have one
    length, no subject occurs twice, every position holds the subject, the
    label and the model output of one row of the hue, and every row of the
    hue has its subject in the result. *)
Theorem get_labels_and_predictions_aligned csv hue lp :
  get_labels_and_predictions Patient_column csv hue = Ok lp ->
  length (labels lp) = length (subject_ids lp)
  /\ length (model_outputs lp) = length (subject_ids lp)
  /\ NoDup (subject_ids lp)
  /\ (forall i s,
        subject_ids lp !! i = Some s ->
        exists r, r ∈ csv /\ Hue r = hue /\ Patient r = s
                  /\ labels lp !! i = Some (Label r)
                  /\ model_outputs lp !! i = Some (ModelOutput r))
  /\ (forall r, r ∈ csv -> Hue r = hue -> Patient r ∈ subject_ids lp).
Proof.
  unfold get_labels_and_predictions. intros Hlp.
  destruct (read_csv_and_filter_hue Patient_column csv hue) as [df|e] eqn:Hread;
    [|discriminate].
  apply read_csv_returns_filter in Hread as [-> Hnodup].
  injection Hlp as <-. cbn [subject_ids labels model_outputs].
  split; [by rewrite !length_fmap|]. split; [by rewrite !length_fmap|].
  split; [exact Hnodup|]. split.
  - intros i s Hi. rewrite list_lookup_fmap in Hi.
    destruct (filter (fun r => Hue r = hue) csv !! i) as [r|] eqn:Hr; [|discriminate].
    injection Hi as <-. exists r.
    pose proof (list_elem_of_lookup_2 _ _ _ Hr) as Hin.
    apply list_elem_of_filter in Hin as [Hhue Hin].
    rewrite !list_lookup_fmap, Hr. by repeat split.
  - intros r Hin Hhue. apply list_elem_of_fmap. exists r. split; [done|].
    apply list_elem_of_filter. by split.
Qed.

(** X2. [read_csv_and_filter_hue] returns for every hue exactly when the
    file has at most one row per hue and subject. *)
Theorem read_csv_returns_iff_one_row_per_hue_and_subject csv :
  (forall hue, returns (read_csv_and_filter_hue Patient_column csv hue))
  <-> NoDup ((fun r => (Hue r, Patient r)) <$> csv).
Proof.
  rewrite NoDup_hue_subject. split.
  - intros Hall hue. destruct (Hall hue) as [df Hdf].
    by apply read_csv_returns_filter in Hdf as [-> Hnodup].
  - intros Hall hue. exists (filter (fun r => Hue r = hue) csv).
    by apply read_csv_unique.
Qed.

(** X3. A hue that no row of the file has is not an error: the table read
    for it is empty and so are the three arrays, whatever the rows of the
    other hues are. *)
Theorem read_csv_absent_hue csv hue :
  (forall r, r ∈ csv -> Hue r <> hue) ->
  read_csv_and_filter_hue Patient_column csv hue = Ok []
  /\ get_labels_and_predictions Patient_column csv hue
     = Ok {| subject_ids := []; labels := []; model_outputs := [] |}.
Proof.
  intros Habsent.
  assert (filter (fun r => Hue r = hue) csv = []) as Hnil.
  { apply filter_Forall_nil, Forall_forall. exact Habsent. }
  assert (read_csv_and_filter_hue Patient_column csv hue = Ok []) as Hread.
  { pose proof (read_csv_unique Patient_column csv hue) as Hread.
    rewrite Hnil in Hread. apply Hread. constructor. }
  split; [exact Hread|].
  unfold get_labels_and_predictions. by rewrite Hread.
Qed.

Implicit Types (val_metrics test_metrics : LabelsAndPredictions (Subject := Subject)).
Implicit Types (metric : ReportedMetrics) (o : option float).

(** X4. Asking [get_metric] for a metric is the same as asking it for the
    optimal threshold first and then for the metric with that threshold
    supplied; and the optimal threshold does not depend on the test split. *)
Theorem get_metric_through_the_threshold val_metrics test_metrics metric o :
  get_metric sk binary_classification_accuracy val_metrics test_metrics metric o
  = (t ← get_metric sk binary_classification_accuracy val_metrics test_metrics
           OptimalThreshold o;
     get_metric sk binary_classification_accuracy val_metrics test_metrics metric (Some t))
  /\ forall test_metrics',
       get_metric sk binary_classification_accuracy val_metrics test_metrics
         OptimalThreshold o
       = get_metric sk binary_classification_accuracy val_metrics test_metrics'
           OptimalThreshold o.
Proof.
  split; [apply get_metric_threshold_first|].
  intros test_metrics'. reflexivity.
Qed.

(** X5. The two areas under a curve do not depend on the threshold: with any
    two supplied thresholds that are not zero, and any two validation
    splits, [get_metric] gives the same area. *)
Theorem auc_ignores_the_threshold val_metrics val_metrics' test_metrics metric t t' :
  metric = AUC_ROC \/ metric = AUC_PR ->
  truthy t = true ->
  truthy t' = true ->
  get_metric sk binary_classification_accuracy val_metrics test_metrics metric (Some t)
  = get_metric sk binary_classification_accuracy val_metrics' test_metrics metric (Some t').
Proof.
  intros Hmetric Ht Ht'. unfold get_metric, py_not.
  rewrite Ht, Ht'. unfold mbind, result_bind, py_assert; cbn [negb].
  rewrite Ht, Ht'. by destruct Hmetric as [-> | ->].
Qed.

End Reading.

Section Ranking.

Context {Subject : Type}.
Variable np : Numpy.

Implicit Types (x y : PredictedRow (Subject := Subject)).
Implicit Types (l df : list (PredictedRow (Subject := Subject))).

#[local] Instance score_le_trans : Transitive (score_le (Subject := Subject)).
Proof. intros x y z. unfold score_le. apply float_le_trans. Qed.

Lemma StronglySorted_lookup_lt {A} (R : A -> A -> Prop) (l : list A) i j a b :
  StronglySorted R l -> i < j -> l !! i = Some a -> l !! j = Some b -> R a b.
Proof.
  intros Hl. revert i j. induction Hl as [|c l Hl IH Hall]; intros i j Hij Hi Hj.
  - by rewrite lookup_nil in Hi.
  - destruct j as [|j]; [lia|]. cbn in Hj. destruct i as [|i].
    + injection Hi as ->. rewrite Forall_forall in Hall.
      apply Hall. by eapply list_elem_of_lookup_2.
    + cbn in Hi. apply (IH i j); [lia|done..].
Qed.

Lemma in_order_lookup_lt asc df i j x y :
  in_order asc df -> i < j -> df !! i = Some x -> df !! j = Some y -> goes_before asc x y.
Proof.
  intros (scored & unscored & -> & Hscored & Hunscored & Hsorted) Hij Hi Hj.
  destruct (decide (j < length scored)) as [Hj'|Hj'].
  - rewrite lookup_app_l in Hj by done. rewrite lookup_app_l in Hi by lia.
    right. split.
    { rewrite Forall_forall in Hscored. apply Hscored. by eapply list_elem_of_lookup_2. }
    apply Sorted_StronglySorted in Hsorted; [|apply _].
    destruct asc.
    + by apply (StronglySorted_lookup_lt _ scored i j).
    + apply (StronglySorted_lookup_lt _ (reverse scored)
               (length scored - S j) (length scored - S i)); [done|lia|..].
      * rewrite reverse_lookup by lia.
        replace (length scored - S (length scored - S j)) with j by lia. done.
      * rewrite reverse_lookup by lia.
        replace (length scored - S (length scored - S i)) with i by lia. done.
  - left. rewrite lookup_app_r in Hj by lia.
    rewrite Forall_forall in Hunscored. apply Hunscored. by eapply list_elem_of_lookup_2.
Qed.

Lemma head_take k df : exists n, head k df = take n df.
Proof. unfold head. destruct (0 <=? k)%Z; eauto. Qed.

(** X6. For every [k], each table of the ranking is a selection of the
    extremes of its category: the rows left out, put after the rows kept,
    give the category back; every row kept goes before every row left out
    in the direction of the category (descending scores for the positives,
    ascending for the negatives, rows without a score last); and the rows
    kept are listed in that order. *)
Theorem rank_keeps_the_extremes (results : Results (Subject := Subject)) (k : Z)
    (c : Category) :
  exists rest,
    table c (rank np results k) ++ rest ≡ₚ table c results
    /\ (forall x y, x ∈ table c (rank np results k) -> y ∈ rest ->
          goes_before (ascending c) x y)
    /\ in_order (ascending c) (table c (rank np results k)).
Proof.
  rewrite table_rank.
  destruct (head_take k (sort_values np (ascending c) (table c results))) as [n Hn].
  rewrite Hn. exists (drop n (sort_values np (ascending c) (table c results))).
  split; [by rewrite take_drop, sort_values_perm|]. split.
  - intros x y Hx Hy.
    apply list_elem_of_lookup in Hx as [i Hi]. apply list_elem_of_lookup in Hy as [j Hj].
    pose proof (lookup_lt_Some _ _ _ Hi) as Hlt. rewrite length_take in Hlt.
    rewrite lookup_take_lt in Hi by lia. rewrite lookup_drop in Hj.
    apply (in_order_lookup_lt (ascending c)
             (sort_values np (ascending c) (table c results)) i (n + j) x y);
      [apply sort_values_in_order|lia|done..].
  - apply in_order_take, sort_values_in_order.
Qed.

(** X7. The size of a table of the ranking: [k] rows or the whole category
    if it has fewer, for [k >= 0]; the category less [-k] rows for [k < 0]. *)
Theorem rank_table_length (results : Results (Subject := Subject)) (k : Z) (c : Category) :
  length (table c (rank np results k))
  = if (0 <=? k)%Z then Z.to_nat k `min` length (table c results)
    else length (table c results) - Z.to_nat (- k).
Proof.
  rewrite table_rank. unfold head.
  destruct (0 <=? k)%Z; rewrite length_take, length_sort_values; lia.
Qed.

End Ranking.

Import SklearnModel Fixtures.

Lemma get_labels_and_predictions_aligned_witness :
  exists lp,
    get_labels_and_predictions Patient_column test_metrics_classification "Default" = Ok lp
    /\ length (labels lp) = length (subject_ids lp)
    /\ NoDup (subject_ids lp).
Proof.
  destruct (get_labels_and_predictions Patient_column test_metrics_classification "Default")
    as [lp|e] eqn:Hlp; [|vm_compute in Hlp; discriminate].
  exists lp. split; [reflexivity|].
  destruct (get_labels_and_predictions_aligned Patient_column
              test_metrics_classification "Default" lp Hlp) as (Hlen & _ & Hnodup & _).
  split; [exact Hlen|exact Hnodup].
Defined.

Lemma read_csv_absent_hue_witness :
  read_csv_and_filter_hue Patient_column test_metrics_classification "Other" = Ok [].
Proof.
  apply (read_csv_absent_hue Patient_column test_metrics_classification "Other").
  apply Forall_forall. apply (bool_decide_unpack _). vm_compute. exact I.
Defined.

Lemma auc_ignores_the_threshold_witness :
  get_metric sk_model accuracy_by_counting (columns val_metrics_classification)
    (columns test_metrics_classification) AUC_ROC (Some (Fin 0.5))
  = get_metric sk_model accuracy_by_counting (columns test_metrics_classification)
      (columns test_metrics_classification) AUC_ROC (Some (Fin 0.6)).
Proof.
  apply (auc_ignores_the_threshold sk_model accuracy_by_counting);
    [left; reflexivity|reflexivity|reflexivity].
Defined.

End ReportExtras.

(** * classification_report.py: what the report prints *)

Module PrintingFacts.
Import ClassificationReport ReportPrinting ReportVocabulary FloatFacts ReportFacts.

Section Printing.

Context {Subject : Type} `{EqDecision Subject}.

Variable sk : Sklearn.
Variable np : Numpy.
Variable binary_classification_accuracy : list float -> list float -> float -> result float.
Variable Patient_column : string.
Variable format_float : string -> float -> string.
Variable format_subject : Subject -> string.

Implicit Types (val_metrics test_metrics : LabelsAndPredictions (Subject := Subject)).
Implicit Types (metric : ReportedMetrics) (out : list Header).

Abbreviation print_metrics' :=
  (print_metrics sk binary_classification_accuracy format_float).
Abbreviation get_metric' := (get_metric sk binary_classification_accuracy).

Lemma get_metric_supplied_any_validation val_metrics val_metrics' test_metrics metric t :
  truthy t = true ->
  get_metric' val_metrics test_metrics metric (Some t)
  = get_metric' val_metrics' test_metrics metric (Some t).
Proof. intros Ht. unfold get_metric, py_not. by rewrite Ht. Qed.


(** X9. Without [exclusive], when the optimal threshold cannot be derived
    from the validation split the report prints nothing: the first call of
    [get_metric] raises the exception of the derivation. *)
Theorem print_metrics_prints_nothing_without_threshold val_metrics test_metrics out e :
  get_metric sk binary_classification_accuracy val_metrics test_metrics
    OptimalThreshold None = Raise e ->
  print_metrics sk binary_classification_accuracy format_float
    val_metrics test_metrics false out
  = (out, Raise e).
Proof.
  intros He. unfold print_metrics. cbn [negb].
  unfold mbind at 1, printer_bind at 1. unfold mbind at 1, printer_bind at 1.
  unfold call at 1.
  by rewrite (get_metric_threshold_first _ _ _ _ AUC_ROC), He.
Qed.

(** X10. Whatever happens, the report only adds lines of level 4 to the
    output. When it returns it has added four lines with [exclusive] and
    seven without, the last one empty; when it raises it has added fewer. *)
Theorem print_metrics_lines val_metrics test_metrics (exclusive : bool) out :
  exists lines,
    (print_metrics sk binary_classification_accuracy format_float
       val_metrics test_metrics exclusive out).1
    = out ++ lines
    /\ Forall (fun h => h.2 = 4%Z) lines
    /\ match (print_metrics sk binary_classification_accuracy format_float
                val_metrics test_metrics exclusive out).2 with
       | Ok _ =>
           length lines = (if exclusive then 4 else 7)
           /\ last lines = Some ("", 4%Z)
       | Raise _ => length lines < (if exclusive then 4 else 7)
       end.
Proof.
  unfold print_metrics, mbind, printer_bind, mret, printer_ret, call, print_header.
  destruct exclusive; cbn [negb]; cbv beta;
    repeat match goal with
           | |- context [get_metric ?a ?b ?c ?d ?e ?f] =>
               destruct (get_metric a b c d e f); cbn [fst snd]
           end;
    rewrite <- ?app_assoc; cbn [app];
    eexists; (split; [try reflexivity; by rewrite app_nil_r|]);
    (split; [repeat constructor|]); cbn; try done; lia.
Qed.

(** X11. A test split with a single class does not stop the report: when
    the threshold [t] can be derived, the report without [exclusive] starts
    with NaN for both areas and with [t]. *)
Theorem print_metrics_one_class val_metrics test_metrics out t :
  fewer_than_two_distinct (labels test_metrics) ->
  get_metric sk binary_classification_accuracy val_metrics test_metrics
    OptimalThreshold None = Ok t ->
  exists lines,
    (print_metrics sk binary_classification_accuracy format_float
       val_metrics test_metrics false out).1
    = out ++ [("Area under ROC Curve: " +:+ format_float ".4f" NaN, 4%Z);
              ("Area under PR Curve: " +:+ format_float ".4f" NaN, 4%Z);
              ("Optimal threshold: " +:+ format_float " .4f" t, 4%Z)] ++ lines.
Proof.
  intros Hone Ht.
  apply only_one_class_present_spec in Hone.
  pose proof (get_metric_returns_truthy _ _ _ _ _ _ Ht) as Htruthy.
  assert (forall metric, metric = AUC_ROC \/ metric = AUC_PR ->
            get_metric' val_metrics test_metrics metric None = Ok NaN) as Hauc.
  { intros metric Hmetric. rewrite get_metric_threshold_first, Ht.
    unfold get_metric, py_not, mbind, result_bind, py_assert. rewrite Htruthy, Hone.
    cbn [negb]. rewrite Htruthy. by destruct Hmetric as [-> | ->]. }
  unfold print_metrics, mbind, printer_bind, mret, printer_ret, call, print_header.
  cbn [negb]; cbv beta.
  rewrite !Hauc, Ht by auto.
  repeat match goal with
         | |- context [get_metric ?a ?b ?c ?d ?e ?f] =>
             destruct (get_metric a b c d e f); cbn [fst snd]
         end;
    rewrite <- ?app_assoc; cbn [app]; eexists; reflexivity.
Qed.

Implicit Types (csv_val csv_test : list (Row (Subject := Subject))) (hue : string).

Abbreviation print_k' :=
  (print_k_best_and_worst_performing sk np Patient_column format_float format_subject).

Lemma print_rows_lines (rows : list (PredictedRow (Subject := Subject))) index out :
  print_rows format_float format_subject index rows out
  = (out ++ imap (fun i => entry_line format_float format_subject (index + i)) rows, Ok tt).
Proof.
  revert index out. induction rows as [|r rows IH]; intros index out.
  - cbn. by rewrite app_nil_r.
  - cbn [print_rows]. unfold mbind, printer_bind, print_header at 1.
    rewrite IH. rewrite <- app_assoc. cbn [app imap]. unfold entry_line at 2.
    rewrite Nat.add_0_r. do 3 f_equal.
    apply imap_ext. intros i x _. cbn. f_equal. lia.
Qed.

(** X12. When [get_k_best_and_worst_performing] raises, the printing
    function prints nothing and raises the same exception. *)
Theorem print_k_best_prints_nothing_on_error csv_val csv_test k hue out e :
  get_k_best_and_worst_performing sk np Patient_column csv_val csv_test k hue = Raise e ->
  print_k' csv_val csv_test k hue out = (out, Raise e).
Proof.
  intros He. unfold print_k_best_and_worst_performing.
  unfold mbind at 1, printer_bind at 1, call. by rewrite He.
Qed.

(** X13. For a well-formed pair of files the printing function returns,
    having printed four parts in the order false positives, false
    negatives, true positives, true negatives: each is its title at level 2
    followed by the rows of the ranked table, numbered from 1, at level 4;
    for [k >= 0] a part has at most [k] rows. *)
Theorem print_k_best_parts csv_val csv_test k hue out :
  well_formed sk csv_val csv_test hue ->
  exists results,
    get_k_best_and_worst_performing sk np Patient_column csv_val csv_test k hue = Ok results
    /\ print_k' csv_val csv_test k hue out
       = (out
          ++ part_lines format_float format_subject k "false positives"
               (false_positives results)
          ++ part_lines format_float format_subject k "false negatives"
               (false_negatives results)
          ++ part_lines format_float format_subject k "true positives"
               (true_positives results)
          ++ part_lines format_float format_subject k "true negatives"
               (true_negatives results),
          Ok tt)
    /\ ((0 <= k)%Z -> forall c, (Z.of_nat (length (table c results)) <= k)%Z).
Proof.
  intros Hwf. destruct (well_formed_returns sk Patient_column _ _ _ Hwf) as [t Ht].
  unfold print_k_best_and_worst_performing, get_k_best_and_worst_performing.
  rewrite Ht. cbn [mbind result_bind mret result_ret].
  eexists. split; [reflexivity|]. split.
  - unfold mbind, printer_bind, call, print_header, mret, result_ret.
    cbv beta iota. repeat (rewrite print_rows_lines; cbv beta iota).
    unfold part_lines. rewrite <- !app_assoc. reflexivity.
  - intros Hk c. rewrite table_rank. unfold head.
    destruct (Z.leb_spec 0 k); [|lia]. rewrite length_take. lia.
Qed.

End Printing.

Import SklearnModel NumpyFacts Fixtures.

(** The witnesses print a float as [?] and a subject as its number. *)
Lemma print_metrics_prints_nothing_without_threshold_witness :
  exists e,
    print_metrics sk_model accuracy_by_counting (fun _ _ => "?")
      (columns empty_metrics) (columns test_metrics_classification) false []
    = ([], Raise e).
Proof.
  eexists.
  apply (print_metrics_prints_nothing_without_threshold sk_model accuracy_by_counting
           (fun _ _ => "?") (columns empty_metrics) (columns test_metrics_classification)).
  vm_compute. reflexivity.
Defined.

Lemma print_metrics_one_class_witness :
  exists lines,
    (print_metrics sk_model accuracy_by_counting (fun _ _ => "?")
       (columns val_metrics_classification) (columns test_metrics_one_class) false []).1
    = [] ++ [("Area under ROC Curve: ?", 4%Z); ("Area under PR Curve: ?", 4%Z);
             ("Optimal threshold: ?", 4%Z)] ++ lines.
Proof.
  apply (print_metrics_one_class sk_model accuracy_by_counting (fun _ _ => "?")
           (columns val_metrics_classification) (columns test_metrics_one_class) []
           (Fin 0.6)).
  - apply only_one_class_present_spec. vm_compute. reflexivity.
  - vm_compute. reflexivity.
Defined.

Lemma print_k_best_prints_nothing_on_error_witness :
  exists e,
    print_k_best_and_worst_performing sk_model np_model Patient_column (fun _ _ => "?") pretty
      val_metrics_classification invalid_metrics_classification 2 "Default" []
    = ([], Raise e).
Proof.
  eexists.
  apply (print_k_best_prints_nothing_on_error sk_model np_model Patient_column (fun _ _ => "?") pretty
           val_metrics_classification invalid_metrics_classification 2 "Default").
  vm_compute. reflexivity.
Defined.

Lemma print_k_best_parts_witness :
  exists results,
    get_k_best_and_worst_performing sk_model np_model Patient_column
      val_metrics_classification test_metrics_classification 2 "Default" = Ok results
    /\ forall c, (Z.of_nat (length (table c results)) <= 2)%Z.
Proof.
  destruct (print_k_best_parts sk_model np_model Patient_column (fun _ _ => "?") pretty
              val_metrics_classification test_metrics_classification 2 "Default" []
              fixtures_well_formed) as (results & Hres & _ & Hsize).
  exists results. split; [exact Hres|]. apply Hsize. lia.
Defined.

End PrintingFacts.

(** * classification_report.py: looking a subject up in the dataset *)

Module LookupFacts.
Import DatasetLookup LookupVocabulary FloatFacts.

Lemma select_fmap {A} (p : A -> bool) (l : list A) :
  select (p <$> l) l = filter (fun x => p x) l.
Proof.
  induction l as [|x l IH]; [done|].
  rewrite fmap_cons, filter_cons. cbn [select]. rewrite IH.
  destruct (p x) eqn:Hp; destruct (decide (p x)) as [Hd|Hd]; try done;
    by rewrite Hp in Hd.
Qed.

Lemma select_cell_is (column value : string) (l : list (gmap string string)) :
  select (cell_is value <$> ((fun r => r !! column) <$> l)) l = rows_of column value l.
Proof.
  rewrite <- list_fmap_compose, select_fmap. unfold rows_of.
  apply list_filter_iff. intros r. cbn. unfold cell_is.
  destruct (r !! column) as [s|]; [|by split].
  rewrite bool_decide_spec. split; [by intros ->|by intros [= ->]].
Qed.

Lemma select_cell_isin (column : string) (values : list string)
    (l : list (gmap string string)) :
  select (cell_isin values <$> ((fun r => r !! column) <$> l)) l
  = filter (fun r => cell_isin values (r !! column)) l.
Proof. by rewrite <- list_fmap_compose, select_fmap. Qed.

Lemma mapM_Return {A B} (f : A -> outcome B) (l : list A) (k : list B) :
  mapM f l = Return k -> Forall2 (fun x y => f x = Return y) l k.
Proof.
  revert k. induction l as [|x l IH]; intros k; simpl.
  - intros [= <-]. constructor.
  - destruct (f x) as [y|] eqn:Hy; simpl; [|done].
    destruct (mapM f l) as [k'|]; simpl; [|done].
    intros [= <-]. constructor; [done|]. by apply IH.
Qed.

Lemma has_column_spec (df : Frame) (column : string) :
  has_column df column = true <-> column ∈ columns df.
Proof. unfold has_column. apply bool_decide_eq_true. Qed.

Lemma column_of_eq (df : Frame) (column : string) :
  column_of df column
  = if has_column df column then Return ((fun r => r !! column) <$> rows df)
    else Throw (KeyError column).
Proof. reflexivity. Qed.

Lemma column_of_where_mask (df : Frame) (mask : list bool) (column : string) :
  column_of (where_mask df mask) column
  = if has_column df column
    then Return ((fun r => r !! column) <$> select mask (rows df))
    else Throw (KeyError column).
Proof. reflexivity. Qed.

Lemma has_column_where_mask (df : Frame) (mask : list bool) (column : string) :
  has_column (where_mask df mask) column = has_column df column.
Proof. reflexivity. Qed.

Lemma mapM_path_Throw {A B} (f : A -> outcome B) (l : list A) (x : A) e :
  x ∈ l -> f x = Throw e -> (forall y e', f y = Throw e' -> e' = e) -> mapM f l = Throw e.
Proof.
  intros Hx He Hsame. induction Hx as [x l|x y l _ IH]; simpl.
  - by rewrite He.
  - destruct (f y) as [z|e'] eqn:Hy; simpl; [by rewrite IH|].
    by rewrite (Hsame _ _ Hy).
Qed.

Lemma distinct_cells_two (cells : list Cell) (c1 c2 : Cell) :
  c1 ∈ cells -> c2 ∈ cells -> c1 <> c2 -> 1 < length (distinct_cells cells).
Proof.
  unfold distinct_cells. intros H1 H2 Hne.
  apply elem_of_remove_dups in H1, H2.
  destruct (remove_dups cells) as [|a [|b l]]; cbn; [|exfalso|lia].
  - by apply elem_of_nil in H1.
  - apply list_elem_of_singleton in H1, H2. congruence.
Qed.

Lemma distinct_cells_nil (cells : list Cell) : cells = [] -> distinct_cells cells = [].
Proof. by intros ->. Qed.

Lemma nonzero_from (k : nat) (v : list float) :
  let idxs :=
    (fun p : nat * float => p.1)
      <$> List.filter (fun p => negb (float_eqb p.2 f0)) (imap (fun i => pair (k + i)) v) in
  StronglySorted lt idxs /\ Forall (fun i => k <= i) idxs.
Proof.
  revert k. induction v as [|x v IH]; intros k; cbn zeta.
  - split; constructor.
  - rewrite imap_cons.
    rewrite (imap_ext _ (fun i => pair (S k + i)) v)
      by (intros i y _; cbn; f_equal; lia).
    destruct (IH (S k)) as [Hsorted Hge]. cbn [List.filter].
    destruct (negb (float_eqb (k + 0, x).2 f0)).
    + rewrite fmap_cons. cbn [fst]. split.
      * constructor; [done|]. eapply Forall_impl; [exact Hge|]. cbn. lia.
      * constructor; [lia|]. eapply Forall_impl; [exact Hge|]. cbn. lia.
    + split; [done|]. eapply Forall_impl; [exact Hge|]. cbn. lia.
Qed.

Lemma nonzero_sorted (v : list float) : StronglySorted lt (nonzero v).
Proof. apply (nonzero_from 0 v). Qed.

Lemma list_item_eq {A} (l : list A) (i : nat) :
  list_item l i
  = match l !! i with
    | Some x => Ok x
    | None => Raise (IndexError "list index out of range")
    end.
Proof. reflexivity. Qed.

Lemma lookups_sublist {A} (l : list A) (idxs : list nat) (names : list A) (k : nat) :
  StronglySorted lt idxs ->
  Forall (fun i => k <= i) idxs ->
  mapM (fun i => of_result (list_item l i)) idxs = Return names ->
  names `sublist_of` drop k l.
Proof.
  intros Hsorted. revert k names.
  induction Hsorted as [|i idxs Hsorted IH Hlt]; intros k names Hge; simpl.
  - intros [= <-]. apply sublist_nil_l.
  - rewrite (list_item_eq l i).
    destruct (l !! i) as [x|] eqn:Hi; simpl; [|done].
    destruct (mapM _ idxs) as [names'|] eqn:Hnames; simpl; [|done].
    intros [= <-]. apply Forall_cons in Hge as [Hki _].
    assert (names' `sublist_of` drop (S i) l) as Hsub.
    { apply IH; [|done]. eapply Forall_impl; [exact Hlt|]. cbn. lia. }
    rewrite <- (take_drop (i - k) (drop k l)), drop_drop.
    replace (k + (i - k)) with i by lia.
    rewrite (drop_S _ _ _ Hi).
    apply sublist_inserts_l. by apply sublist_skip.
Qed.

Lemma Forall2_zip_fmap {A B C D} (f : A -> B) (g : A -> C) (P : C -> D -> Prop)
    (l : list A) (k : list D) :
  Forall2 P (g <$> l) k ->
  Forall2 (fun x o => o.1 = f x /\ P (g x) o.2) l (zip (f <$> l) k).
Proof.
  revert k. induction l as [|x l IH]; intros k Hk.
  - apply Forall2_nil_inv_l in Hk as ->. constructor.
  - rewrite fmap_cons in Hk. apply Forall2_cons_inv_l in Hk as (y & k' & Hy & Hk' & ->).
    cbn. constructor; [done|]. by apply IH.
Qed.

Section Lookup.

Variable Path : Type.
Variable truediv : Path -> string -> Path.
Variable extract_label_classification : Cell -> string -> nat -> bool -> result (list float).
Variable format_labels : list Cell -> string.
Variable float_of_string : string -> result float.
Variables Patient_column Hue_column ModelOutput_column : string.

Implicit Types (subject_id : string) (dataset_df metrics_df : Frame).
Implicit Types (config : ScalarModelBase) (dataset_dir : Path).

Abbreviation filepath' := (get_image_filepath_from_subject_id Path truediv).
Abbreviation labels' :=
  (get_image_labels_from_subject_id extract_label_classification format_labels).
Abbreviation outputs' :=
  (get_image_outputs_from_subject_id float_of_string Patient_column Hue_column
     ModelOutput_column).

Lemma get_image_filepath_cases subject_id dataset_df config dataset_dir :
  filepath' subject_id dataset_df config dataset_dir
  = if has_column dataset_df (subject_column config) then
      if has_column dataset_df (image_file_column config) then
        mapM (path_of Path truediv dataset_dir)
          ((fun r => r !! image_file_column config)
             <$> image_rows subject_id dataset_df config)
      else Throw (KeyError (image_file_column config))
    else Throw (KeyError (subject_column config)).
Proof.
  unfold get_image_filepath_from_subject_id, image_rows.
  destruct (bool_decide (image_channels config <> [])
            && has_column dataset_df (channel_column config)) eqn:Hchannel.
  - apply andb_true_iff in Hchannel as [_ Hchannel].
    rewrite (column_of_eq dataset_df (channel_column config)), Hchannel.
    cbn [mbind outcome_bind mret outcome_ret].
    rewrite !column_of_where_mask.
    destruct (has_column dataset_df (subject_column config)); [|done].
    cbn [mbind outcome_bind].
    rewrite !column_of_where_mask, !has_column_where_mask.
    destruct (has_column dataset_df (image_file_column config)); [|done].
    cbn [mbind outcome_bind rows where_mask].
    by rewrite select_cell_isin, select_cell_is.
  - cbn [mbind outcome_bind mret outcome_ret].
    rewrite (column_of_eq dataset_df (subject_column config)).
    destruct (has_column dataset_df (subject_column config)); [|done].
    cbn [mbind outcome_bind].
    rewrite !column_of_where_mask.
    destruct (has_column dataset_df (image_file_column config)); [|done].
    cbn [mbind outcome_bind]. by rewrite select_cell_is.
Qed.

(** X14. When [get_image_filepath_from_subject_id] returns, it returns one
    path per row of the subject (of the image channels, when the table has
    a channel column and the configuration names image channels), in the
    order of the rows: the file name of the row under the dataset folder. *)
Theorem get_image_filepath_one_per_row subject_id dataset_df config dataset_dir paths :
  filepath' subject_id dataset_df config dataset_dir = Return paths ->
  Forall2 (fun r path =>
             exists filepath,
               r !! image_file_column config = Some filepath
               /\ path = truediv dataset_dir filepath)
    (image_rows subject_id dataset_df config) paths.
Proof.
  rewrite get_image_filepath_cases.
  destruct (has_column dataset_df (subject_column config)); [|done].
  destruct (has_column dataset_df (image_file_column config)); [|done].
  intros Hpaths. apply mapM_Return in Hpaths.
  apply Forall2_fmap_l in Hpaths. eapply Forall2_impl; [exact Hpaths|].
  intros r path. cbn. unfold path_of.
  destruct (r !! image_file_column config) as [filepath|]; [|done].
  intros [= <-]. by exists filepath.
Qed.

(** X15. A subject that no row of the table has gives the empty list, not
    [None] and not an error, when the table has the subject column and the
    file column. *)
Theorem get_image_filepath_absent_subject subject_id dataset_df config dataset_dir :
  subject_column config ∈ columns dataset_df ->
  image_file_column config ∈ columns dataset_df ->
  (forall r, r ∈ rows dataset_df -> r !! subject_column config <> Some subject_id) ->
  filepath' subject_id dataset_df config dataset_dir = Return [].
Proof.
  intros Hsubject Hfile Habsent. rewrite get_image_filepath_cases.
  apply has_column_spec in Hsubject, Hfile. rewrite Hsubject, Hfile.
  assert (image_rows subject_id dataset_df config = []) as ->; [|done].
  unfold image_rows, rows_of. apply ReportFacts.filter_Forall_nil, Forall_forall.
  intros r Hr. apply Habsent.
  destruct (bool_decide (image_channels config <> [])
            && has_column dataset_df (channel_column config)); [|done].
  by apply list_elem_of_filter in Hr as [_ Hr].
Qed.

(** X16. A table without the subject column or without the file column
    gives [KeyError] for a column it does not have, whether it has a row
    for the subject or not; the subject column is looked up first. *)
Theorem get_image_filepath_missing_column subject_id dataset_df config dataset_dir :
  (subject_column config ∉ columns dataset_df)
  \/ (image_file_column config ∉ columns dataset_df) ->
  exists column,
    filepath' subject_id dataset_df config dataset_dir = Throw (KeyError column)
    /\ (column ∉ columns dataset_df)
    /\ (subject_column config ∉ columns dataset_df -> column = subject_column config).
Proof.
  intros Hmissing. rewrite get_image_filepath_cases.
  destruct (has_column dataset_df (subject_column config)) eqn:Hsubject.
  - apply has_column_spec in Hsubject.
    destruct Hmissing as [Hmissing|Hmissing]; [done|].
    destruct (has_column dataset_df (image_file_column config)) eqn:Hfile.
    { by apply has_column_spec in Hfile. }
    by exists (image_file_column config).
  - exists (subject_column config). split; [done|]. split; [|done].
    intros Hin. apply has_column_spec in Hin. congruence.
Qed.

(** X17. A row of the subject whose file cell is empty makes the call
    raise [TypeError]: an empty cell is a NaN, which is not a path. *)
Theorem get_image_filepath_empty_cell subject_id dataset_df config dataset_dir r :
  subject_column config ∈ columns dataset_df ->
  image_file_column config ∈ columns dataset_df ->
  r ∈ image_rows subject_id dataset_df config ->
  r !! image_file_column config = None ->
  filepath' subject_id dataset_df config dataset_dir
  = Throw (Builtin (TypeError "expected str, bytes or os.PathLike object, not float")).
Proof.
  intros Hsubject Hfile Hr Hcell. rewrite get_image_filepath_cases.
  apply has_column_spec in Hsubject, Hfile. rewrite Hsubject, Hfile.
  apply (mapM_path_Throw _ _ (r !! image_file_column config)).
  - apply list_elem_of_fmap. by exists r.
  - by rewrite Hcell.
  - intros [y|] e'; cbn; [done|]. by intros [= <-].
Qed.

Lemma get_image_labels_single_channel subject_id dataset_df config :
  length (label_channels config) <= 1 ->
  labels' subject_id dataset_df config
  = if has_column dataset_df (subject_column config) then
      if has_column dataset_df (label_value_column config) then
        match distinct_cells ((fun r => r !! label_value_column config)
                                <$> label_rows subject_id dataset_df config) with
        | [] => Return []
        | label :: others =>
            if bool_decide (1 < length (label :: others)) then
              Throw (Builtin (ValueError
                ("Labels inconsistent, expect the same set of labels for all hues per subject. "
                 +:+ "Got labels " +:+ format_labels (label :: others))))
            else
              one_hot ← of_result (extract_label_classification label subject_id
                                     (length (class_names config))
                                     (is_classification_model config));
              mapM (fun label => of_result (list_item (class_names config) label))
                (nonzero one_hot)
        end
      else Throw (KeyError (label_value_column config))
    else Throw (KeyError (subject_column config)).
Proof.
  intros Hone. unfold get_image_labels_from_subject_id, label_rows.
  destruct (label_channels config) as [|label_channel others] eqn:Hchannels.
  - rewrite bool_decide_false by (intros Hne; by apply Hne).
    cbn [andb mbind outcome_bind mret outcome_ret].
    rewrite (column_of_eq dataset_df (subject_column config)).
    destruct (has_column dataset_df (subject_column config)); [|done].
    cbn [mbind outcome_bind]. rewrite !column_of_where_mask.
    destruct (has_column dataset_df (label_value_column config)); [|done].
    cbn [mbind outcome_bind]. rewrite select_cell_is. by destruct (distinct_cells _).
  - rewrite bool_decide_true by done. cbn [andb].
    destruct (has_column dataset_df (channel_column config)) eqn:Hchannel.
    + rewrite bool_decide_false by lia.
      rewrite (column_of_eq dataset_df (channel_column config)), Hchannel.
      cbn [mbind outcome_bind mret outcome_ret list_item item_or lookup list_lookup of_result].
      rewrite !column_of_where_mask.
      destruct (has_column dataset_df (subject_column config)); [|done].
      cbn [mbind outcome_bind]. rewrite !column_of_where_mask, !has_column_where_mask.
      destruct (has_column dataset_df (label_value_column config)); [|done].
      cbn [mbind outcome_bind rows where_mask]. rewrite !select_cell_is.
      by destruct (distinct_cells _).
    + cbn [mbind outcome_bind mret outcome_ret].
      rewrite (column_of_eq dataset_df (subject_column config)).
      destruct (has_column dataset_df (subject_column config)); [|done].
      cbn [mbind outcome_bind]. rewrite !column_of_where_mask.
      destruct (has_column dataset_df (label_value_column config)); [|done].
      cbn [mbind outcome_bind]. rewrite select_cell_is. by destruct (distinct_cells _).
Qed.

(** X18. A configuration with more than one label channel is refused with
    [ValueError] when the table has the channel column, before any row is
    read: for every subject, in the table or not. *)
Theorem get_image_labels_many_label_channels subject_id dataset_df config :
  1 < length (label_channels config) ->
  channel_column config ∈ columns dataset_df ->
  labels' subject_id dataset_df config
  = Throw (Builtin (ValueError
      ("Single label channel expected in multilabel datasets, got "
       +:+ pretty (length (label_channels config)) +:+ " channels."))).
Proof.
  intros Hmany Hchannel. apply has_column_spec in Hchannel.
  unfold get_image_labels_from_subject_id. rewrite Hchannel.
  rewrite bool_decide_true by (intros Hnil; rewrite Hnil in Hmany; cbn in Hmany; lia).
  cbn [andb]. by rewrite bool_decide_true by done.
Qed.

(** X19. A subject without a row in the table has no labels: the empty
    list, and [extract_label_classification] is not called. *)
Theorem get_image_labels_absent_subject subject_id dataset_df config :
  length (label_channels config) <= 1 ->
  subject_column config ∈ columns dataset_df ->
  label_value_column config ∈ columns dataset_df ->
  (forall r, r ∈ rows dataset_df -> r !! subject_column config <> Some subject_id) ->
  labels' subject_id dataset_df config = Return [].
Proof.
  intros Hone Hsubject Hlabel Habsent.
  rewrite get_image_labels_single_channel by done.
  apply has_column_spec in Hsubject, Hlabel. rewrite Hsubject, Hlabel.
  assert (label_rows subject_id dataset_df config = []) as ->; [|done].
  unfold label_rows, rows_of at 1.
  apply ReportFacts.filter_Forall_nil, Forall_forall.
  intros r Hr. apply Habsent.
  destruct (label_channels config) as [|label_channel others]; [done|].
  destruct (has_column dataset_df (channel_column config)); [|done].
  by apply list_elem_of_filter in Hr as [_ Hr].
Qed.

(** X20. Two rows of the subject whose label cells differ (two strings, or
    a string and an empty cell) make the call raise [ValueError]. *)
Theorem get_image_labels_inconsistent subject_id dataset_df config r1 r2 :
  length (label_channels config) <= 1 ->
  subject_column config ∈ columns dataset_df ->
  label_value_column config ∈ columns dataset_df ->
  r1 ∈ label_rows subject_id dataset_df config ->
  r2 ∈ label_rows subject_id dataset_df config ->
  r1 !! label_value_column config <> r2 !! label_value_column config ->
  exists labels,
    1 < length labels
    /\ labels' subject_id dataset_df config
       = Throw (Builtin (ValueError
           ("Labels inconsistent, expect the same set of labels for all hues per subject. "
            +:+ "Got labels " +:+ format_labels labels))).
Proof.
  intros Hone Hsubject Hlabel Hr1 Hr2 Hne.
  rewrite get_image_labels_single_channel by done.
  apply has_column_spec in Hsubject, Hlabel. rewrite Hsubject, Hlabel.
  pose proof (distinct_cells_two
                ((fun r => r !! label_value_column config)
                   <$> label_rows subject_id dataset_df config)
                (r1 !! label_value_column config) (r2 !! label_value_column config)) as Htwo.
  destruct (distinct_cells _) as [|label others].
  - exfalso. cbn in Htwo. enough (1 < 0) by lia. apply Htwo; [..|done].
    + apply list_elem_of_fmap. by exists r1.
    + apply list_elem_of_fmap. by exists r2.
  - exists (label :: others). rewrite bool_decide_true; [split; [|done]|].
    + apply Htwo; [..|done]; apply list_elem_of_fmap; eauto.
    + apply Htwo; [..|done]; apply list_elem_of_fmap; eauto.
Qed.

(** X21. The labels returned for a subject are class names of the
    configuration, in the order of the configuration and each at most as
    often as the configuration lists it. *)
Theorem get_image_labels_sublist_of_class_names subject_id dataset_df config names :
  get_image_labels_from_subject_id extract_label_classification format_labels
    subject_id dataset_df config = Return names ->
  names `sublist_of` class_names config.
Proof.
  destruct (decide (length (label_channels config) <= 1)) as [Hone|Hmany].
  - rewrite get_image_labels_single_channel by done.
    destruct (has_column dataset_df (subject_column config)); [|done].
    destruct (has_column dataset_df (label_value_column config)); [|done].
    destruct (distinct_cells _) as [|label others].
    { intros [= <-]. apply sublist_nil_l. }
    destruct (bool_decide (1 < length (label :: others))); [done|].
    destruct (extract_label_classification _ _ _ _) as [one_hot|]; [|done].
    cbn [of_result mbind outcome_bind]. intros Hnames.
    apply (lookups_sublist _ _ _ 0) in Hnames; [done|apply nonzero_sorted|].
    apply Forall_forall. intros. lia.
  - unfold get_image_labels_from_subject_id.
    rewrite bool_decide_true
      by (intros Hnil; rewrite Hnil in Hmany; cbn in Hmany; lia).
    cbn [andb].
    destruct (has_column dataset_df (channel_column config)) eqn:Hchannel.
    + by rewrite bool_decide_true by lia.
    + cbn [mbind outcome_bind mret outcome_ret].
      rewrite (column_of_eq dataset_df (subject_column config)).
      destruct (has_column dataset_df (subject_column config)); [|done].
      cbn [mbind outcome_bind]. rewrite !column_of_where_mask.
      destruct (has_column dataset_df (label_value_column config)); [|done].
      cbn [mbind outcome_bind].
      destruct (distinct_cells _) as [|label others].
      { intros [= <-]. apply sublist_nil_l. }
      destruct (bool_decide (1 < length (label :: others))); [done|].
      destruct (extract_label_classification _ _ _ _) as [one_hot|]; [|done].
      cbn [of_result mbind outcome_bind]. intros Hnames.
      apply (lookups_sublist _ _ _ 0) in Hnames; [done|apply nonzero_sorted|].
      apply Forall_forall. intros. lia.
Qed.

(** X22. When [get_image_outputs_from_subject_id] returns, it returns one
    pair per row of the subject, in the order of the rows: the hue cell of
    the row and its model output as a float (NaN for an empty cell). *)
Theorem get_image_outputs_one_per_row subject_id metrics_df outputs :
  outputs' subject_id metrics_df = Return outputs ->
  Forall2 (fun r output =>
             output.1 = r !! Hue_column
             /\ float_of_cell float_of_string (r !! ModelOutput_column) = Ok output.2)
    (rows_of Patient_column subject_id (rows metrics_df)) outputs.
Proof.
  unfold get_image_outputs_from_subject_id.
  rewrite (column_of_eq metrics_df Patient_column).
  destruct (has_column metrics_df Patient_column); [|done].
  cbn [mbind outcome_bind]. rewrite !column_of_where_mask.
  destruct (has_column metrics_df Hue_column); [|done].
  cbn [mbind outcome_bind].
  destruct (has_column metrics_df ModelOutput_column); [|done].
  cbn [mbind outcome_bind]. rewrite select_cell_is.
  destruct (mapM _ _) as [model_outputs|] eqn:Hm; [|done].
  cbn [of_result mbind outcome_bind mret outcome_ret]. intros [= <-].
  apply LightningFacts.mapM_Ok in Hm.
  by apply (Forall2_zip_fmap (fun r : gmap string string => r !! Hue_column)
              (fun r : gmap string string => r !! ModelOutput_column)
              (fun x y => float_of_cell float_of_string x = Ok y)).
Qed.

End Lookup.

Import LookupFixtures.

Lemma get_image_filepath_one_per_row_witness :
  get_image_filepath_from_subject_id string join "1" dataset_with_image_channels
    (config_with_channels ["channel1"] []) "data" = Return ["data/image.npy"]
  /\ Forall2 (fun r path =>
                exists filepath, r !! "filePath" = Some filepath /\ path = join "data" filepath)
       (image_rows "1" dataset_with_image_channels (config_with_channels ["channel1"] []))
       ["data/image.npy"].
Proof.
  split; [vm_compute; reflexivity|].
  apply (get_image_filepath_one_per_row string join "1" dataset_with_image_channels
           (config_with_channels ["channel1"] []) "data").
  vm_compute. reflexivity.
Defined.

Lemma get_image_filepath_absent_subject_witness :
  get_image_filepath_from_subject_id string join "100" dataset_with_image_channels
    (config_with_channels ["channel1"] []) "data" = Return [].
Proof.
  apply (get_image_filepath_absent_subject string join);
    [apply (bool_decide_unpack _); vm_compute; exact I..|].
  apply Forall_forall. repeat constructor; vm_compute; discriminate.
Defined.

Lemma get_image_filepath_missing_column_witness :
  exists column,
    get_image_filepath_from_subject_id string join "1" dataset_with_label_channels
      (config_with_channels ["channel1"] []) "data" = Throw (KeyError column)
    /\ (column ∉ columns dataset_with_label_channels).
Proof.
  destruct (get_image_filepath_missing_column string join "1" dataset_with_label_channels
              (config_with_channels ["channel1"] []) "data") as (column & Hthrow & Hnot & _).
  - right. apply (bool_decide_unpack _). vm_compute. exact I.
  - by exists column.
Defined.

Lemma get_image_filepath_empty_cell_witness :
  get_image_filepath_from_subject_id string join "1" dataset_with_image_channels
    (config_with_channels [] []) "data"
  = Throw (Builtin (TypeError "expected str, bytes or os.PathLike object, not float")).
Proof.
  apply (get_image_filepath_empty_cell string join "1" dataset_with_image_channels
           (config_with_channels [] []) "data"
           {[ "subject" := "1"; "channel" := "channel2" ]}).
  - apply (bool_decide_unpack _). vm_compute. exact I.
  - apply (bool_decide_unpack _). vm_compute. exact I.
  - apply (bool_decide_unpack _). vm_compute. exact I.
  - vm_compute. reflexivity.
Defined.

Lemma get_image_labels_many_label_channels_witness :
  get_image_labels_from_subject_id binary_label_vector (fun _ => "") "1"
    dataset_with_label_channels (config_with_channels [] ["channel1"; "channel2"])
  = Throw (Builtin (ValueError
      "Single label channel expected in multilabel datasets, got 2 channels.")).
Proof.
  apply (get_image_labels_many_label_channels binary_label_vector (fun _ => "") "1"
           dataset_with_label_channels (config_with_channels [] ["channel1"; "channel2"])).
  - cbn. lia.
  - apply (bool_decide_unpack _). vm_compute. exact I.
Defined.

Lemma get_image_labels_absent_subject_witness :
  get_image_labels_from_subject_id binary_label_vector (fun _ => "") "100"
    dataset_with_label_channels (config_with_channels [] ["channel1"]) = Return [].
Proof.
  apply (get_image_labels_absent_subject binary_label_vector (fun _ => "")).
  - cbn. lia.
  - apply (bool_decide_unpack _). vm_compute. exact I.
  - apply (bool_decide_unpack _). vm_compute. exact I.
  - apply Forall_forall. repeat constructor; vm_compute; discriminate.
Defined.

Lemma get_image_labels_inconsistent_witness :
  exists labels : list Cell,
    1 < length labels
    /\ get_image_labels_from_subject_id binary_label_vector (fun _ => "") "1"
         dataset_with_label_channels (config_with_channels [] [])
       = Throw (Builtin (ValueError
           ("Labels inconsistent, expect the same set of labels for all hues per subject. "
            +:+ "Got labels " +:+ (fun _ => "") labels))).
Proof.
  apply (get_image_labels_inconsistent binary_label_vector (fun _ => "") "1"
           dataset_with_label_channels (config_with_channels [] [])
           {[ "subject" := "1"; "channel" := "channel1"; "label" := "1" ]}
           {[ "subject" := "1"; "channel" := "channel2" ]}).
  - cbn. lia.
  - apply (bool_decide_unpack _). vm_compute. exact I.
  - apply (bool_decide_unpack _). vm_compute. exact I.
  - apply (bool_decide_unpack _). vm_compute. exact I.
  - apply (bool_decide_unpack _). vm_compute. exact I.
  - vm_compute. discriminate.
Defined.

Lemma get_image_labels_sublist_of_class_names_witness :
  get_image_labels_from_subject_id binary_label_vector (fun _ => "") "1"
    dataset_with_label_channels (config_with_channels [] ["channel1"]) = Return ["Default"]
  /\ ["Default"] `sublist_of` class_names (config_with_channels [] ["channel1"]).
Proof.
  split; [vm_compute; reflexivity|].
  apply (get_image_labels_sublist_of_class_names binary_label_vector (fun _ => "") "1"
           dataset_with_label_channels (config_with_channels [] ["channel1"])).
  vm_compute. reflexivity.
Defined.

Lemma get_image_outputs_one_per_row_witness :
  get_image_outputs_from_subject_id float_of_decimal "subject" "prediction_target"
    "model_output" "1" metrics_with_hues
  = Return [(Some "Hue1", Fin 0.1); (Some "Hue2", Fin 0.9)]
  /\ Forall2 (fun r output =>
                output.1 = r !! "prediction_target"
                /\ float_of_cell float_of_decimal (r !! "model_output") = Ok output.2)
       (rows_of "subject" "1" (rows metrics_with_hues))
       [(Some "Hue1", Fin 0.1); (Some "Hue2", Fin 0.9)].
Proof.
  split; [vm_compute; reflexivity|].
  apply (get_image_outputs_one_per_row float_of_decimal "subject" "prediction_target"
           "model_output" "1" metrics_with_hues).
  vm_compute. reflexivity.
Defined.

End LookupFacts.

(** * lightning_models.py: the scalar model *)

Module ScalarFacts.
Import ScalarLightningModel ScalarVocabulary.

(** X23. The file of per-subject outputs is named after the rank: two ranks
    have the same file exactly when they are the same rank. *)
Theorem get_subject_output_file_per_rank_inj (SUBJECT_METRICS_FILE_NAME : string)
    (rank rank' : Z) :
  get_subject_output_file_per_rank SUBJECT_METRICS_FILE_NAME rank
  = get_subject_output_file_per_rank SUBJECT_METRICS_FILE_NAME rank'
  <-> rank = rank'.
Proof.
  split; [|by intros ->].
  unfold get_subject_output_file_per_rank. intros Heq.
  apply (inj (String.app _)) in Heq. by apply (inj pretty) in Heq.
Qed.

Section Scalar.

Variables Tensor DType Value Metric : Type.
Variable metric_name : Metric -> string.
Variable has_predictions : Metric -> bool.
Variable compute : Metric -> Metric * result Value.
Variable reset : Metric -> Metric.
Variable metric_call : Metric -> Tensor -> Tensor -> Metric * result unit.
Variable computes_from_logits : Metric -> bool.
Variables TRAIN_PREFIX VALIDATION_PREFIX DEFAULT_HUE_KEY : string.
Variables TRAIN_value VAL_value : string.
Variable base_epoch_end :
  bool -> ScalarLightning Value Metric -> ScalarLightning Value Metric * result unit.
Variable target_slice : Tensor -> nat -> result Tensor.
Variable get_masked_model_outputs_and_labels :
  Tensor -> Tensor -> list string -> result (option (Masked Tensor)).
Variable logits_to_posterior : Tensor -> result Tensor.
Variable torch_int : DType.
Variable dtype : Tensor -> DType.
Variable to_dtype : Tensor -> DType -> Tensor.
Variable tolist : Tensor -> list Value.

Implicit Types (self : ScalarLightning Value Metric) (is_training : bool).
Implicit Types (metric : Metric) (metric_list : list Metric).
Implicit Types (computers : list (string * list Metric)).
Implicit Types (log : list (string * Value)) (prefix target_suffix : string).

Abbreviation epoch_end :=
  (training_or_validation_epoch_end Value Metric metric_name has_predictions compute reset
     TRAIN_PREFIX VALIDATION_PREFIX DEFAULT_HUE_KEY base_epoch_end).
Abbreviation log_list :=
  (log_metric_list Value Metric metric_name has_predictions compute reset).
Abbreviation log_computers :=
  (log_metric_computers Value Metric metric_name has_predictions compute reset
     DEFAULT_HUE_KEY).
Abbreviation compute_and_log :=
  (compute_and_log_metrics Tensor DType Value Metric metric_call computes_from_logits
     TRAIN_value VAL_value target_slice get_masked_model_outputs_and_labels
     logits_to_posterior torch_int dtype to_dtype tolist).
Abbreviation targets_loop :=
  (compute_targets Tensor DType Value Metric metric_call computes_from_logits
     target_slice get_masked_model_outputs_and_labels logits_to_posterior torch_int dtype
     to_dtype tolist).
Abbreviation target_turn :=
  (compute_target Tensor DType Value Metric metric_call computes_from_logits
     target_slice get_masked_model_outputs_and_labels logits_to_posterior torch_int dtype
     to_dtype tolist).

Lemma log_metric_list_frame prefix target_suffix metric_list log :
  exists metric_list' entries r,
    log_list prefix target_suffix metric_list log = (metric_list', log ++ entries, r)
    /\ length metric_list' = length metric_list
    /\ Forall (starts_with prefix) entries.
Proof.
  revert log. induction metric_list as [|metric metric_list IH]; intros log; cbn.
  - exists [], [], (Ok tt). by rewrite app_nil_r.
  - destruct (has_predictions metric).
    + destruct (compute metric) as [metric' [value|e]].
      * destruct (IH (log ++ [(prefix +:+ metric_name metric +:+ target_suffix, value)]))
          as (l' & entries & r & -> & Hlen & Hentries).
        exists (reset metric' :: l'),
          ((prefix +:+ metric_name metric +:+ target_suffix, value) :: entries), r.
        rewrite <- app_assoc. cbn. split; [done|]. split; [by rewrite Hlen|].
        constructor; [|done]. by eexists.
      * exists (metric' :: metric_list), [], (Raise e). by rewrite app_nil_r.
    + destruct (IH log) as (l' & entries & r & -> & Hlen & Hentries).
      exists (metric :: l'), entries, r. cbn. by rewrite Hlen.
Qed.

Lemma log_metric_computers_frame prefix (binary : bool) computers log :
  exists computers' entries r,
    log_computers prefix binary computers log = (computers', log ++ entries, r)
    /\ same_shape computers computers'
    /\ Forall (starts_with prefix) entries.
Proof.
  revert log. induction computers as [|[target metric_list] computers IH]; intros log; cbn.
  - exists [], [], (Ok tt). rewrite app_nil_r. by repeat constructor.
  - destruct (log_metric_list_frame prefix (target_suffix_of DEFAULT_HUE_KEY binary target)
                metric_list log) as (l' & entries & r & -> & Hlen & Hentries).
    destruct r as [[]|e].
    + destruct (IH (log ++ entries)) as (c' & entries' & r' & -> & Hshape & Hentries').
      exists ((target, l') :: c'), (entries ++ entries'), r'.
      rewrite <- app_assoc. split; [done|]. split.
      * constructor; [done|exact Hshape].
      * by apply Forall_app.
    + exists ((target, l') :: computers), entries, (Raise e).
      split; [done|]. split; [|done].
      constructor; [done|]. apply Forall2_same_length_lookup_2; [done|].
      intros i p p' Hp Hp'. rewrite Hp in Hp'. by injection Hp' as ->.
Qed.


Abbreviation after_end := (after_epoch_end Value Metric has_predictions compute reset).
Abbreviation entry_of := (logged_entry Value Metric metric_name has_predictions compute).

Lemma log_metric_list_Ok prefix target_suffix metric_list log :
  (forall metric,
      metric ∈ metric_list -> has_predictions metric = true ->
      exists value, (compute metric).2 = Ok value) ->
  log_list prefix target_suffix metric_list log
  = (after_end <$> metric_list, log ++ omap (entry_of prefix target_suffix) metric_list,
     Ok tt).
Proof.
  revert log. induction metric_list as [|metric metric_list IH]; intros log Hcompute; cbn.
  - by rewrite app_nil_r.
  - unfold after_epoch_end at 1, logged_entry at 1.
    destruct (has_predictions metric) eqn:Hhas.
    + destruct (Hcompute metric) as [value Hvalue]; [left|done|].
      destruct (compute metric) as [metric' r]. cbn in Hvalue. subst r. cbn [fst snd].
      rewrite IH by (intros m Hm; apply Hcompute; by right).
      by rewrite <- app_assoc.
    + by rewrite IH by (intros m Hm; apply Hcompute; by right).
Qed.

Lemma log_metric_computers_Ok prefix (binary : bool) computers log :
  (forall target metric_list metric,
      (target, metric_list) ∈ computers -> metric ∈ metric_list ->
      has_predictions metric = true -> exists value, (compute metric).2 = Ok value) ->
  log_computers prefix binary computers log
  = ((fun p : string * list Metric => (p.1, after_end <$> p.2)) <$> computers,
     log ++ epoch_entries Value Metric metric_name has_predictions compute DEFAULT_HUE_KEY
              prefix binary computers,
     Ok tt).
Proof.
  revert log.
  induction computers as [|[target metric_list] computers IH]; intros log Hcompute; cbn.
  - by rewrite app_nil_r.
  - rewrite log_metric_list_Ok
      by (intros m Hm; apply (Hcompute target metric_list); [by left|done]).
    rewrite IH
      by (intros t l m Hin; apply (Hcompute t l); by right).
    unfold epoch_entries. cbn. by rewrite <- app_assoc.
Qed.

(** X25. When every metric of the phase that has predictions can be
    computed, the end of the epoch logs exactly these metrics, each once
    and in the order of the targets and of their metrics, under the name
    prefix + metric name + suffix of the target (no suffix for the default
    target and for a model with a single class); it resets exactly these
    metrics; and a metric without predictions is neither logged nor
    reset. The base class is then called on the object so changed. *)
Theorem epoch_end_logs_metrics_with_predictions is_training self :
  (forall target metric_list metric,
      (target, metric_list) ∈ metric_computers_of is_training self ->
      metric ∈ metric_list -> has_predictions metric = true ->
      exists value, (compute metric).2 = Ok value) ->
  exists self',
    epoch_end is_training self = base_epoch_end is_training self'
    /\ metric_computers_of is_training self'
       = (fun p : string * list Metric => (p.1, after_end <$> p.2)) <$> metric_computers_of is_training self
    /\ logged self'
       = logged self
         ++ epoch_entries Value Metric metric_name has_predictions compute DEFAULT_HUE_KEY
              (if is_training then TRAIN_PREFIX else VALIDATION_PREFIX)
              (is_binary_classification_or_regression self)
              (metric_computers_of is_training self).
Proof.
  intros Hcompute. unfold training_or_validation_epoch_end.
  fold (metric_computers_of is_training self).
  rewrite log_metric_computers_Ok by done.
  eexists. split; [reflexivity|]. by destruct is_training.
Qed.

Lemma call_metrics_length metric_list (_logits _posteriors _labels : Tensor) :
  length (call_metrics Tensor Metric metric_call computes_from_logits metric_list
            _logits _posteriors _labels).1
  = length metric_list.
Proof.
  induction metric_list as [|metric metric_list IH]; cbn; [done|].
  destruct (metric_call metric _ _labels) as [metric' [[]|e]]; [|done].
  destruct (call_metrics _ _ _ _ metric_list _ _ _) as [rest r]. cbn in *. by rewrite IH.
Qed.

Lemma zip4_replicate {A C D} (a : list A) (n : nat) (target : string)
    (c : list C) (d : list D) :
  Forall (fun output => output.1.1.2 = target) (zip4 a (replicate n target) c d).
Proof.
  revert n c d. induction a as [|x a IH]; intros [|n] [|z c] [|w d]; cbn; try done.
  constructor; [done|apply IH].
Qed.

Lemma compute_target_frame (classification : bool) (i : nat) (target : string) metric_list
    (logits targets : Tensor) (subject_ids : list string) :
  exists metric_list' outputs r,
    target_turn classification i target metric_list logits targets subject_ids
    = (metric_list', outputs, r)
    /\ length metric_list' = length metric_list
    /\ Forall (fun output => output.1.1.2 = target) outputs
    /\ (forall e, r = Raise e -> outputs = []).
Proof.
  unfold compute_target.
  destruct (_ ← target_slice logits i; _) as [[masked|]|e]; [| |]; cycle 1.
  - exists metric_list, [], (Ok tt). by repeat split.
  - exists metric_list, [], (Raise e). by repeat split.
  - destruct (logits_to_posterior _) as [_posteriors|e];
      [|exists metric_list, [], (Raise e); by repeat split].
    destruct (masked_subject_ids masked) as [_subject_ids|];
      [|exists metric_list, [], (Raise AssertionError); by repeat split].
    pose proof (call_metrics_length metric_list (model_outputs_data masked) _posteriors
                  (to_dtype (labels_data masked)
                     (if classification then torch_int else dtype _posteriors))) as Hlen.
    destruct (call_metrics _ _ _ _ metric_list _ _ _) as [metric_list' [[]|e]]; cbn in Hlen.
    + eexists _, _, _. split; [reflexivity|]. split; [done|].
      split; [apply zip4_replicate|done].
    + exists metric_list', [], (Raise e). by repeat split.
Qed.

Lemma compute_targets_frame (classification : bool) (i : nat) computers
    (logits targets : Tensor) (subject_ids : list string) :
  exists computers' outputs r,
    targets_loop classification i computers logits targets subject_ids
    = (computers', outputs, r)
    /\ same_shape computers computers'
    /\ Forall (fun output => output.1.1.2 ∈ computers.*1) outputs.
Proof.
  revert i. induction computers as [|[target metric_list] computers IH]; intros i; cbn.
  - exists [], [], (Ok tt). by repeat constructor.
  - destruct (compute_target_frame classification i target metric_list logits targets
                subject_ids) as (l' & outputs & r & -> & Hlen & Houtputs & _).
    assert (Forall (fun output : string * string * Value * Value =>
                      output.1.1.2 ∈ target :: computers.*1) outputs) as Hhere.
    { eapply Forall_impl; [exact Houtputs|]. intros output ->. left. }
    destruct r as [[]|e].
    + destruct (IH (S i)) as (c' & outputs' & r' & -> & Hshape & Houtputs').
      exists ((target, l') :: c'), (outputs ++ outputs'), r'.
      split; [done|]. split; [by constructor|].
      apply Forall_app. split; [done|].
      eapply Forall_impl; [exact Houtputs'|]. intros output Hin. by right.
    + exists ((target, l') :: computers), outputs, (Raise e).
      split; [done|]. split; [|done].
      constructor; [done|]. apply Forall2_same_length_lookup_2; [done|].
      intros j p p' Hp Hp'. rewrite Hp in Hp'. by injection Hp' as ->.
Qed.

(** X26. [compute_and_log_metrics] on a batch of one phase logs no metric
    value, leaves the metric computers and the subject logger of the other
    phase as they are, and keeps the prediction targets and the number of
    metrics of its own phase, whether it returns or raises. *)
Theorem compute_and_log_metrics_frame (logits targets : Tensor) (subject_ids : list string)
    is_training self :
  logged (compute_and_log logits targets subject_ids is_training self).1 = logged self
  /\ metric_computers_of (negb is_training)
       (compute_and_log logits targets subject_ids is_training self).1
     = metric_computers_of (negb is_training) self
  /\ subject_outputs_logger_of (negb is_training)
       (compute_and_log logits targets subject_ids is_training self).1
     = subject_outputs_logger_of (negb is_training) self
  /\ same_shape (metric_computers_of is_training self)
       (metric_computers_of is_training
          (compute_and_log logits targets subject_ids is_training self).1).
Proof.
  unfold compute_and_log_metrics.
  destruct (compute_targets_frame (is_classification_model self) 0
              (if is_training then train_metric_computers self
               else val_metric_computers self)
              logits targets subject_ids) as (c' & outputs & r & -> & Hshape & _).
  destruct r as [[]|e]; destruct is_training; cbn; by repeat split.
Qed.

(** X27. The per-subject records of a batch are written all or none: when
    [compute_and_log_metrics] raises, the subject logger of the phase is as
    it was, although metrics may have been updated; when it returns, it has
    only added records, each with the current epoch, the data split of the
    phase and one of the prediction targets as its hue. *)
Theorem compute_and_log_metrics_records (logits targets : Tensor)
    (subject_ids : list string) is_training self :
  match (compute_and_log logits targets subject_ids is_training self).2 with
  | Raise _ =>
      subject_outputs_logger_of is_training
        (compute_and_log logits targets subject_ids is_training self).1
      = subject_outputs_logger_of is_training self
  | Ok _ =>
      exists records,
        subject_outputs_logger_of is_training
          (compute_and_log logits targets subject_ids is_training self).1
        = subject_outputs_logger_of is_training self ++ (add_record <$> records)
        /\ Forall (fun record =>
                     Epoch record = current_epoch self
                     /\ DataSplit record = (if is_training then TRAIN_value else VAL_value)
                     /\ Hue record ∈ (metric_computers_of is_training self).*1)
             records
  end.
Proof.
  unfold compute_and_log_metrics.
  destruct (compute_targets_frame (is_classification_model self) 0
              (if is_training then train_metric_computers self
               else val_metric_computers self)
              logits targets subject_ids) as (c' & outputs & r & -> & _ & Houtputs).
  destruct r as [[]|e]; cbn [fst snd]; [|by destruct is_training].
  exists (subject_record (current_epoch self)
            (if is_training then TRAIN_value else VAL_value) <$> outputs).
  split.
  - rewrite <- list_fmap_compose. by destruct is_training.
  - apply Forall_fmap. eapply Forall_impl; [exact Houtputs|].
    intros [[[subject target] output] label] Hin. cbn in *. by destruct is_training.
Qed.

Lemma compute_targets_masked (classification : bool) (i : nat) computers
    (logits targets : Tensor) (subject_ids : list string) :
  (forall j, i <= j < i + length computers ->
     exists l t,
       target_slice logits j = Ok l /\ target_slice targets j = Ok t
       /\ get_masked_model_outputs_and_labels l t subject_ids = Ok None) ->
  targets_loop classification i computers logits targets subject_ids
  = (computers, [], Ok tt).
Proof.
  revert i. induction computers as [|[target metric_list] computers IH]; intros i Hmasked.
  - done.
  - cbn [compute_targets]. unfold compute_target.
    destruct (Hmasked i) as (l & t & -> & -> & Hnone); [cbn; lia|].
    cbn [mbind result_bind]. rewrite Hnone.
    rewrite IH; [done|]. intros j Hj. apply Hmasked. cbn. lia.
Qed.

(** X28. A batch in which every prediction target is masked out changes
    nothing: no metric is updated and no record is written. *)
Theorem compute_and_log_metrics_all_masked (logits targets : Tensor)
    (subject_ids : list string) is_training self :
  (forall i, i < length (metric_computers_of is_training self) ->
     exists l t,
       target_slice logits i = Ok l /\ target_slice targets i = Ok t
       /\ get_masked_model_outputs_and_labels l t subject_ids = Ok None) ->
  compute_and_log logits targets subject_ids is_training self = (self, Ok tt).
Proof.
  intros Hmasked. unfold compute_and_log_metrics.
  rewrite compute_targets_masked.
  - destruct self, is_training; unfold log_to, set_metric_computers; cbn;
      by rewrite ?app_nil_r.
  - intros j Hj. apply Hmasked. unfold metric_computers_of. lia.
Qed.

End Scalar.

Import ScalarFixtures.

(** The end of a training epoch of the small model: the two metrics of the
    first target are logged, the second target has nothing to log. *)
Lemma epoch_end_logs_metrics_with_predictions_witness :
  exists self',
    training_or_validation_epoch_end Z Metric metric_name has_predictions compute reset
      "train/" "val/" "Default" base_epoch_end true scalar_model = (self', Ok tt)
    /\ logged self' = [("train/accuracy/Seq_pos 0", 1%Z); ("train/auc/Seq_pos 0", 2%Z)].
Proof.
  destruct (epoch_end_logs_metrics_with_predictions Z Metric metric_name has_predictions
              compute reset "train/" "val/" "Default" base_epoch_end true scalar_model)
    as (self' & Hend & _ & Hlogged).
  - intros target metric_list [name [value|]] _ _ Hhas; [by exists value|].
    vm_compute in Hhas. discriminate.
  - exists self'. split; [exact Hend|]. rewrite Hlogged. vm_compute. reflexivity.
Defined.

(** A batch of the small model with every target masked out; tensors carry
    no data here. *)
Lemma compute_and_log_metrics_all_masked_witness :
  compute_and_log_metrics unit unit Z Metric (fun metric _ _ => (metric, Ok tt))
    (fun _ => false) "Train" "Val" (fun t _ => Ok t) (fun _ _ _ => Ok None)
    (fun t => Ok t) tt (fun _ => tt) (fun t _ => t) (fun _ => []) tt tt ["1"; "2"] true
    scalar_model
  = (scalar_model, Ok tt).
Proof.
  apply (compute_and_log_metrics_all_masked unit unit Z Metric).
  intros i _. by exists tt, tt.
Defined.

End ScalarFacts.

(** * lightning_models.py: more on transfer_batch_to_device *)

Module TransferExtras.
Import LightningModels LightningFacts.

Section Transfer.

Variables Tensor Device ScalarItem : Type.
Abbreviation value := (value Tensor ScalarItem).
Implicit Types (batch items : value) (device : Device).
Variable to_device : ScalarItem -> Device -> result ScalarItem.
Variable move_data_to_device : value -> Device -> result value.
Variable tensor_iter : Tensor -> result (list Tensor).

Abbreviation transfer :=
  (transfer_batch_to_device to_device move_data_to_device tensor_iter).

Lemma call_to_device_not_scalar_item device (j : value) :
  is_scalar_item j = false -> raises (call_to_device to_device device j).
Proof. destruct j; cbn; try done; intros _; by eexists. Qed.

(** X29. Only [items[0][0]] is tested for being a [ScalarItem]. Once the
    batch is taken for a sequence batch, any other element of any row that
    is not a [ScalarItem] makes the call raise, with the batch as it was;
    the batch is not handed to [move_data_to_device] instead. *)
Theorem transfer_raises_on_other_element d device (rows js : list value) (j : value) :
  d !! "items" = Some (VList rows) ->
  is_sequence_batch (VList rows) = Ok true ->
  VList js ∈ rows ->
  j ∈ js ->
  is_scalar_item j = false ->
  exists e, transfer (VDict d) device = (VDict d, Raise e).
Proof.
  intros Hitems Hseq Hrow Hj Hnot.
  unfold transfer_batch_to_device. rewrite Hitems. cbn [default from_option id].
  rewrite Hseq.
  assert (raises (transfer_items to_device tensor_iter device (VList rows))) as [e ->];
    [|by exists e].
  unfold transfer_items. simpl.
  destruct (mapM_Raise
    (fun i => js ← py_iter tensor_iter i;
              new_js ← mapM (call_to_device to_device device) js;
              Ok (VList new_js)) rows (VList js) Hrow) as [e' He'].
  - simpl.
    destruct (mapM_Raise (call_to_device to_device device) js j Hj) as [e' He'].
    + by apply call_to_device_not_scalar_item.
    + rewrite He'. by exists e'.
  - rewrite He'. by exists e'.
Qed.

End Transfer.

(** A row that holds a [ScalarItem] and then a tensor. *)
Lemma transfer_raises_on_other_element_witness :
  exists e,
    transfer_batch_to_device (fun s _ => Ok s) (fun v _ => Ok v) (fun _ => Ok [])
      (VDict {[ "items" := VList [VList [VScalarItem true; VTensor tt]] ]}
       : value unit bool) tt
    = (VDict {[ "items" := VList [VList [VScalarItem true; VTensor tt]] ]}, Raise e).
Proof.
  apply (transfer_raises_on_other_element unit unit bool (fun s _ => Ok s)
           (fun v _ => Ok v) (fun _ => Ok [])
           {[ "items" := VList [VList [VScalarItem true; VTensor tt]] ]} tt
           [VList [VScalarItem true; VTensor tt]] [VScalarItem true; VTensor tt]
           (VTensor tt)).
  - vm_compute. reflexivity.
  - reflexivity.
  - left.
  - right. left.
  - reflexivity.
Defined.

End TransferExtras.
